(** * CodeChecker analyzer context: a shallow embedding of
    [analyzer/codechecker_analyzer/analyzer_context.py].

    The Python class [Context] reads three JSON files and the process
    environment, resolves the analyzer binaries and the replacer tool, and
    is handed out by [get_context].  Python values read from JSON are kept
    dynamically typed ([json]); exceptions, [sys.exit] and the calls on the
    logger are explicit in the monad [M]. *)

From Stdlib Require Import String Ascii List ZArith Lia Bool.
From stdpp Require Import base strings gmap.
Import ListNotations.
Open Scope string_scope.
Set Warnings "-register-all".

(** ** Strings: the parts of [str] and [posixpath] the module uses *)

Module Str.

Definition is_sep (c : ascii) : bool := Ascii.eqb c "/"%char.

(** [s.startswith('/')] *)
Definition starts_with_sep (s : string) : bool :=
  match s with
  | String c _ => is_sep c
  | EmptyString => false
  end.

(** [s.endswith(suf)] *)
Fixpoint endswith (s suf : string) : bool :=
  if String.eqb s suf then true
  else match s with
       | EmptyString => false
       | String _ r => endswith r suf
       end.

(** [s.split(sep)] for a one-character separator. *)
Fixpoint split (sep : ascii) (s : string) : list string :=
  match s with
  | EmptyString => [EmptyString]
  | String c r =>
      if Ascii.eqb c sep then EmptyString :: split sep r
      else match split sep r with
           | x :: xs => String c x :: xs
           | [] => [String c EmptyString]
           end
  end.

(** [i = p.rfind('/') + 1; (p[:i], p[i:])] *)
Fixpoint cut_last_sep (p : string) : string * string :=
  match p with
  | EmptyString => (EmptyString, EmptyString)
  | String c r =>
      let '(h, t) := cut_last_sep r in
      match h with
      | EmptyString =>
          if is_sep c then (String c EmptyString, t)
          else (EmptyString, String c t)
      | _ => (String c h, t)
      end
  end.

(** [head != '/' * len(head)] is the negation of this. *)
Fixpoint all_sep (s : string) : bool :=
  match s with
  | EmptyString => true
  | String c r => is_sep c && all_sep r
  end.

(** [s.rstrip('/')] *)
Fixpoint rstrip_sep (s : string) : string :=
  match s with
  | EmptyString => EmptyString
  | String c r =>
      match rstrip_sep r with
      | EmptyString => if is_sep c then EmptyString else String c EmptyString
      | r' => String c r'
      end
  end.

Definition nonempty (s : string) : bool :=
  match s with EmptyString => false | _ => true end.

End Str.

Module posixpath.

(** [os.path.basename] *)
Definition basename (p : string) : string := snd (Str.cut_last_sep p).

(** [os.path.dirname] *)
Definition dirname (p : string) : string :=
  let head := fst (Str.cut_last_sep p) in
  if Str.nonempty head && negb (Str.all_sep head)
  then Str.rstrip_sep head
  else head.

(** One round of the loop of [os.path.join]. *)
Definition join2 (path b : string) : string :=
  if Str.starts_with_sep b then b
  else if negb (Str.nonempty path) || Str.endswith path "/" then path ++ b
  else path ++ "/" ++ b.

(** [os.path.join(a, *p)] *)
Definition join (a : string) (p : list string) : string :=
  fold_left join2 p a.

End posixpath.

(** ** Python values, exceptions and the effect monad *)

(** A value as [json.load] returns it ([None] is [JNull]); numbers are kept
    to the integers.  A [dict] keeps its items in insertion order and holds
    each key once; statements that walk over the items of a dict say so
    with [NoDup]. *)
Inductive json : Type :=
| JNull
| JBool (b : bool)
| JNum (n : Z)
| JStr (s : string)
| JArr (l : list json)
| JObj (items : list (string * json)).

(** The exceptions the module raises or lets through; [sys.exit(n)] raises
    [SystemExit]. *)
Inductive exn : Type :=
| KeyError (key : string)
| ValueError (msg : string)
| TypeError
| AttributeError
| ArgumentTypeError (msg : string)
| SystemExit (code : Z).

(** The methods of [LOG] that the module calls. *)
Inductive level : Type := LvlDebug | LvlInfo | LvlError.

(** What the module does besides computing: calls on the logger and
    [traceback.print_exc()]. *)
Inductive event : Type :=
| Log (lvl : level) (msg : string)
| LogValue (lvl : level) (v : json)
| PrintExc (e : exn).

(** A computation emits events in order and returns or raises. *)
Definition M (A : Type) : Type := (list event * (A + exn))%type.

Definition ret {A} (a : A) : M A := ([], inl a).
Definition raise {A} (e : exn) : M A := ([], inr e).
Definition emit (ev : event) : M unit := ([ev], inl tt).

Definition bind {A B} (m : M A) (f : A -> M B) : M B :=
  match m with
  | (l, inl a) => let '(l', r) := f a in ((l ++ l')%list, r)
  | (l, inr e) => (l, inr e)
  end.

Notation "x <- m ;; k" := (bind m (fun x => k))
  (at level 20, m at level 99, k at level 200, only parsing).
Notation "'do' m ;; k" := (bind m (fun _ => k))
  (at level 20, m at level 99, k at level 200, only parsing).

Definition events {A} (m : M A) : list event := fst m.
Definition outcome {A} (m : M A) : A + exn := snd m.

Definition LOG_debug (msg : string) : M unit := emit (Log LvlDebug msg).
Definition LOG_info (msg : string) : M unit := emit (Log LvlInfo msg).
Definition LOG_error (msg : string) : M unit := emit (Log LvlError msg).
Definition sys_exit {A} (code : Z) : M A := raise (SystemExit code).

(** Truth value of a Python object in [if x] and [not x]. *)
Definition truthy (v : json) : bool :=
  match v with
  | JNull => false
  | JBool b => b
  | JNum n => negb (n =? 0)%Z
  | JStr s => Str.nonempty s
  | JArr l => match l with [] => false | _ => true end
  | JObj items => match items with [] => false | _ => true end
  end.

Fixpoint assoc (k : string) (items : list (string * json)) : option json :=
  match items with
  | [] => None
  | (k', v) :: rest => if String.eqb k k' then Some v else assoc k rest
  end.

(** [d[k]]: only a [dict] accepts a string subscript. *)
Definition getitem (d : json) (k : string) : M json :=
  match d with
  | JObj items =>
      match assoc k items with
      | Some v => ret v
      | None => raise (KeyError k)
      end
  | _ => raise TypeError
  end.

(** [d.get(k, default)]: only a [dict] has the method. *)
Definition dict_get (d : json) (k : string) (default : json) : M json :=
  match d with
  | JObj items => ret (match assoc k items with Some v => v | None => default end)
  | _ => raise AttributeError
  end.

(** A string operand where only [str] is accepted ([os.path] functions,
    [str + x], keys of [os.environ]). *)
Definition as_str (v : json) : M string :=
  match v with
  | JStr s => ret s
  | _ => raise TypeError
  end.

(** [for x in v]: a list yields its elements, a dict its keys, a string
    its characters; nothing else is iterable. *)
Definition iterate (v : json) : M (list json) :=
  match v with
  | JArr l => ret l
  | JObj items => ret (map (fun kv => JStr (fst kv)) items)
  | JStr s => ret (map (fun c => JStr (String c EmptyString)) (list_ascii_of_string s))
  | _ => raise TypeError
  end.

(** [d.items()] *)
Definition dict_items (d : json) : M (list (string * json)) :=
  match d with
  | JObj items => ret items
  | _ => raise AttributeError
  end.

(** ** The process environment and the collaborators outside this module *)

(** Everything [analyzer_context.py] reads but does not define: the
    operating system, the standard library calls that look at the file
    system, and the functions it imports from [codechecker_common],
    [codechecker_analyzer.arg] and [codechecker_analyzer.env]. *)
Record World : Type := {
  (** [os.environ] *)
  environ : gmap string string;
  (** [codechecker_common.util.load_json] at a path; a file that cannot be
      read gives a false value *)
  load_json : string -> json;
  (** [os.path.exists], [os.path.isfile], [os.path.realpath] *)
  path_exists : string -> bool;
  path_isfile : string -> bool;
  realpath : string -> string;
  (** [distutils.spawn.find_executable(name, path)] *)
  find_executable : string -> option string -> option string;
  (** [platform.uname().machine] *)
  uname_machine : string;
  (** [LOG.getEffectiveLevel()], [logger.DEBUG], [logger.DEBUG_ANALYZER] *)
  getEffectiveLevel : Z;
  logger_DEBUG : Z;
  logger_DEBUG_ANALYZER : Z;
  (** [env.is_analyzer_from_path()] *)
  is_analyzer_from_path : bool;
  (** [env.extend(path_env_extra, ld_lib_path_extra)] *)
  env_extend : list string -> list string -> gmap string string;
  (** [codechecker_analyzer.arg.analyzer_binary]: the name and the path of
      an entry, or the message of the [ArgumentTypeError] it raises *)
  analyzer_binary : string -> (string * string) + string;
  (** [CheckerLabels(labels_dir)]: the exception the constructor raises,
      if any *)
  CheckerLabels : string -> option exn
}.

(** ** The [Context] object *)

Record Context : Type := {
  _bin_dir_path : string;
  _lib_dir_path : string;
  _data_files_dir_path : string;
  env_vars : json;
  pckg_layout : json;
  (** the labels directory the loader was built from *)
  _checker_labels : string;
  __package_version : option string;
  __package_build_date : json;
  __package_git_hash : json;
  __package_git_tag : json;
  __analyzers : gmap string string;
  __analyzer_env : option (gmap string string);
  logger_lib_dir_path : string;
  logger_bin : option string;
  logger_file : option string;
  logger_compilers : option string;
  ld_preload : option string;
  ld_lib_path : json;
  __replacer : option string
}.

Definition set_analyzers (a : gmap string string) (self : Context) : Context :=
  {| _bin_dir_path := _bin_dir_path self;
     _lib_dir_path := _lib_dir_path self;
     _data_files_dir_path := _data_files_dir_path self;
     env_vars := env_vars self;
     pckg_layout := pckg_layout self;
     _checker_labels := _checker_labels self;
     __package_version := __package_version self;
     __package_build_date := __package_build_date self;
     __package_git_hash := __package_git_hash self;
     __package_git_tag := __package_git_tag self;
     __analyzers := a;
     __analyzer_env := __analyzer_env self;
     logger_lib_dir_path := logger_lib_dir_path self;
     logger_bin := logger_bin self;
     logger_file := logger_file self;
     logger_compilers := logger_compilers self;
     ld_preload := ld_preload self;
     ld_lib_path := ld_lib_path self;
     __replacer := __replacer self |}.

Definition set_analyzer_env (e : option (gmap string string)) (self : Context)
  : Context :=
  {| _bin_dir_path := _bin_dir_path self;
     _lib_dir_path := _lib_dir_path self;
     _data_files_dir_path := _data_files_dir_path self;
     env_vars := env_vars self;
     pckg_layout := pckg_layout self;
     _checker_labels := _checker_labels self;
     __package_version := __package_version self;
     __package_build_date := __package_build_date self;
     __package_git_hash := __package_git_hash self;
     __package_git_tag := __package_git_tag self;
     __analyzers := __analyzers self;
     __analyzer_env := e;
     logger_lib_dir_path := logger_lib_dir_path self;
     logger_bin := logger_bin self;
     logger_file := logger_file self;
     logger_compilers := logger_compilers self;
     ld_preload := ld_preload self;
     ld_lib_path := ld_lib_path self;
     __replacer := __replacer self |}.

Definition set_replacer (r : option string) (self : Context) : Context :=
  {| _bin_dir_path := _bin_dir_path self;
     _lib_dir_path := _lib_dir_path self;
     _data_files_dir_path := _data_files_dir_path self;
     env_vars := env_vars self;
     pckg_layout := pckg_layout self;
     _checker_labels := _checker_labels self;
     __package_version := __package_version self;
     __package_build_date := __package_build_date self;
     __package_git_hash := __package_git_hash self;
     __package_git_tag := __package_git_tag self;
     __analyzers := __analyzers self;
     __analyzer_env := __analyzer_env self;
     logger_lib_dir_path := logger_lib_dir_path self;
     logger_bin := logger_bin self;
     logger_file := logger_file self;
     logger_compilers := logger_compilers self;
     ld_preload := ld_preload self;
     ld_lib_path := ld_lib_path self;
     __replacer := r |}.

(** ** Control helpers *)

(** [try: m except ...: h e]: [h] says which exceptions it handles. *)
Definition try_except {A} (m : M A) (h : exn -> option (M A)) : M A :=
  match m with
  | (l, inl a) => (l, inl a)
  | (l, inr e) =>
      match h e with
      | Some k => let '(l', r) := k in ((l ++ l')%list, r)
      | None => (l, inr e)
      end
  end.

(** [for x in xs: st = body st x], stopping at the first exception. *)
Fixpoint for_each {S X} (body : S -> X -> M S) (xs : list X) (st : S) : M S :=
  match xs with
  | [] => ret st
  | x :: rest => st' <- body st x ;; for_each body rest st'
  end.

(** Truth value of a [dict] of strings. *)
Definition env_truthy (e : gmap string string) : bool :=
  negb (bool_decide (e = ∅)).

(** ** The methods of [Context] *)

Section Methods.

Variable w : World.

(** [os.environ.get(key)] for a key read from the configuration. *)
Definition environ_get (key : json) : M (option string) :=
  k <- as_str key ;; ret (environ w !! k).

(** [os.environ.get(key, '')] *)
Definition environ_get_default (key : string) : string :=
  match environ w !! key with Some v => v | None => "" end.

(** [Context.version_file] *)
Definition version_file (self : Context) : string :=
  posixpath.join (_data_files_dir_path self)
    ["config"; "analyzer_version.json"].

Definition __get_package_config (self : Context) : M json :=
  let pckg_config_file :=
    posixpath.join (_data_files_dir_path self) ["config"; "config.json"] in
  do LOG_debug ("Reading config: " ++ pckg_config_file) ;;
  let cfg_dict := load_json w pckg_config_file in
  if negb (truthy cfg_dict) then
    raise (ValueError ("No configuration file '" ++ pckg_config_file
                       ++ "' can be found or it is empty!"))
  else
    do emit (LogValue LvlDebug cfg_dict) ;;
    ret cfg_dict.

Definition __get_package_layout (self : Context) : M json :=
  let layout_cfg_file :=
    posixpath.join (_data_files_dir_path self)
      ["config"; "package_layout.json"] in
  do LOG_debug ("Reading config: " ++ layout_cfg_file) ;;
  let lcfg_dict := load_json w layout_cfg_file in
  if negb (truthy lcfg_dict) then
    raise (ValueError ("No configuration file '" ++ layout_cfg_file
                       ++ "' can be found or it is empty!"))
  else ret lcfg_dict.

Definition __init_env (self : Context) : M Context :=
  k1 <- getitem (env_vars self) "cc_logger_bin" ;;
  logger_bin' <- environ_get k1 ;;
  k2 <- getitem (env_vars self) "cc_logger_file" ;;
  logger_file' <- environ_get k2 ;;
  k3 <- getitem (env_vars self) "cc_logger_compiles" ;;
  logger_compilers' <- environ_get k3 ;;
  k4 <- getitem (env_vars self) "ld_preload" ;;
  ld_preload' <- environ_get k4 ;;
  ld_lib_path' <- getitem (env_vars self) "env_ld_lib_path" ;;
  ret {| _bin_dir_path := _bin_dir_path self;
         _lib_dir_path := _lib_dir_path self;
         _data_files_dir_path := _data_files_dir_path self;
         env_vars := env_vars self;
         pckg_layout := pckg_layout self;
         _checker_labels := _checker_labels self;
         __package_version := __package_version self;
         __package_build_date := __package_build_date self;
         __package_git_hash := __package_git_hash self;
         __package_git_tag := __package_git_tag self;
         __analyzers := __analyzers self;
         __analyzer_env := __analyzer_env self;
         logger_lib_dir_path := logger_lib_dir_path self;
         logger_bin := logger_bin';
         logger_file := logger_file';
         logger_compilers := logger_compilers';
         ld_preload := ld_preload';
         ld_lib_path := ld_lib_path';
         __replacer := __replacer self |}.

(** The expression assigned to [self.__package_version]: operands are
    evaluated left to right, and [+] joins strings only. *)
Definition version_string (package_version : json) : M string :=
  major <- getitem package_version "major" ;;
  major <- as_str major ;;
  minor <- getitem package_version "minor" ;;
  minor <- as_str minor ;;
  revision <- getitem package_version "revision" ;;
  revision <- as_str revision ;;
  (* [package_version] is a dict here: the subscripts above went through *)
  has_rc <- match package_version with
            | JObj items =>
                match assoc "rc" items with
                | Some rc => ret (truthy rc)
                | None => ret false
                end
            | _ => raise TypeError
            end ;;
  suffix <- (if has_rc : bool then
               rc <- getitem package_version "rc" ;;
               rc <- as_str rc ;;
               ret ("-rc" ++ rc)
             else ret "") ;;
  ret (major ++ "." ++ minor ++ "." ++ revision ++ suffix).

(** The tag [__set_version] leaves in [self.__package_git_tag]. *)
Definition visible_git_tag (effective_level : Z)
    (package_git_tag package_git_dirtytag : json) : json :=
  if (effective_level =? logger_DEBUG w)%Z
     || (effective_level =? logger_DEBUG_ANALYZER w)%Z
  then package_git_dirtytag
  else package_git_tag.

Definition __set_version (self : Context) : M Context :=
  let vfile_data := load_json w (version_file self) in
  if negb (truthy vfile_data) then sys_exit 1
  else
    package_version <- getitem vfile_data "version" ;;
    package_build_date <- getitem vfile_data "package_build_date" ;;
    package_git_hash <- dict_get vfile_data "git_hash" JNull ;;
    describe <- dict_get vfile_data "git_describe" (JObj []) ;;
    package_git_tag <- dict_get describe "tag" JNull ;;
    describe' <- dict_get vfile_data "git_describe" (JObj []) ;;
    package_git_dirtytag <- dict_get describe' "dirty" JNull ;;
    version <- version_string package_version ;;
    ret {| _bin_dir_path := _bin_dir_path self;
           _lib_dir_path := _lib_dir_path self;
           _data_files_dir_path := _data_files_dir_path self;
           env_vars := env_vars self;
           pckg_layout := pckg_layout self;
           _checker_labels := _checker_labels self;
           __package_version := Some version;
           __package_build_date := package_build_date;
           __package_git_hash := package_git_hash;
           __package_git_tag :=
             visible_git_tag (getEffectiveLevel w)
               package_git_tag package_git_dirtytag;
           __analyzers := __analyzers self;
           __analyzer_env := __analyzer_env self;
           logger_lib_dir_path := logger_lib_dir_path self;
           logger_bin := logger_bin self;
           logger_file := logger_file self;
           logger_compilers := logger_compilers self;
           ld_preload := ld_preload self;
           ld_lib_path := ld_lib_path self;
           __replacer := __replacer self |}.

(** The loop shared by [path_env_extra] and [ld_lib_path_extra]:
    [for path in extra: paths.append(os.path.join(data, path))]. *)
Definition join_each (self : Context) (extra : list json) : M (list string) :=
  for_each
    (fun paths path =>
       p <- as_str path ;;
       ret (paths ++ [posixpath.join (_data_files_dir_path self) [p]])%list)
    extra [].

(** [Context.path_env_extra] *)
Definition path_env_extra (self : Context) : M (list string) :=
  if is_analyzer_from_path w then ret []
  else
    extra_paths <- dict_get (pckg_layout self) "path_env_extra" (JArr []) ;;
    extra_paths <- iterate extra_paths ;;
    join_each self extra_paths.

(** [Context.ld_lib_path_extra] *)
Definition ld_lib_path_extra (self : Context) : M (list string) :=
  if is_analyzer_from_path w then ret []
  else
    extra_lib <- dict_get (pckg_layout self) "ld_lib_path_extra" (JArr []) ;;
    extra_lib <- iterate extra_lib ;;
    join_each self extra_lib.

(** [Context.analyzer_env]: computed on first use, kept in
    [self.__analyzer_env]. *)
Definition analyzer_env (self : Context)
  : M (Context * gmap string string) :=
  match __analyzer_env self with
  | Some e =>
      if env_truthy e then ret (self, e)
      else
        p <- path_env_extra self ;;
        l <- ld_lib_path_extra self ;;
        let e' := env_extend w p l in
        ret (set_analyzer_env (Some e') self, e')
  | None =>
      p <- path_env_extra self ;;
      l <- ld_lib_path_extra self ;;
      let e' := env_extend w p l in
      ret (set_analyzer_env (Some e') self, e')
  end.

Definition not_a_binary_msg (path : string) : string :=
  "'" ++ path ++ "' is not a path to an analyzer binary "
      ++ "given to CC_ANALYZER_BIN!".

Definition using_msg (path analyzer_name : string) : string :=
  "Using '" ++ path ++ "' for analyzer '" ++ analyzer_name ++ "'".

Definition usage_hint : string :=
  "The value of CC_ANALYZER_BIN should be in the"
    ++ "format of "
    ++ "CC_ANALYZER_BIN='<analyzer1>:/path/to/bin1;"
    ++ "<analyzer2>:/path/to/bin2'".

(** One round of the loop of [__parse_CC_ANALYZER_BIN] over the state
    [(had_error, env_var_bins)]. *)
Definition parse_entry (st : bool * gmap string string) (value : string)
  : M (bool * gmap string string) :=
  let '(had_error, env_var_bins) := st in
  match analyzer_binary w value with
  | inr e =>
      do LOG_error e ;;
      ret (true, env_var_bins)
  | inl (analyzer_name, path) =>
      had_error <- (if negb (path_isfile w path) then
                      do LOG_error (not_a_binary_msg path) ;;
                      ret true
                    else ret had_error) ;;
      if had_error : bool then ret (had_error, env_var_bins)
      else
        do LOG_info (using_msg path analyzer_name) ;;
        ret (had_error, <[analyzer_name := path]> env_var_bins)
  end.

Definition __parse_CC_ANALYZER_BIN (self : Context)
  : M (gmap string string) :=
  match __analyzer_env self with
  | None => raise TypeError
  | Some e =>
      match e !! "CC_ANALYZER_BIN" with
      | Some v =>
          st <- for_each parse_entry (Str.split ";" v) (false, ∅) ;;
          let '(had_error, env_var_bins) := st in
          if had_error : bool then
            do LOG_info usage_hint ;;
            sys_exit 1
          else ret env_var_bins
      | None => ret ∅
      end
  end.

Definition not_found_msg (value : string) : string :=
  "'" ++ value ++ "' binary can not be found in your PATH!".

(** [self.__analyzers[name] = path] *)
Definition setitem_analyzers (name path : string) (self : Context)
  : Context :=
  set_analyzers (<[name := path]> (__analyzers self)) self.

(** [self.__analyzers[name]] *)
Definition getitem_analyzers (self : Context) (name : string) : M string :=
  match __analyzers self !! name with
  | Some p => ret p
  | None => raise (KeyError name)
  end.

(** [analyzer_env['PATH'] if analyzer_env else None] *)
Definition env_path_of (analyzer_env : option (gmap string string))
  : M (option string) :=
  match analyzer_env with
  | Some e =>
      if env_truthy e then
        match e !! "PATH" with
        | Some p => ret (Some p)
        | None => raise (KeyError "PATH")
        end
      else ret None
  | None => ret None
  end.

(** One round of the loop of [__populate_analyzers]. *)
Definition populate_analyzer
    (analyzer_from_path : bool)
    (analyzer_env : option (gmap string string))
    (env_var_bin : gmap string string)
    (self : Context) (item : string * json) : M Context :=
  let '(name, value) := item in
  match env_var_bin !! name with
  | Some p => ret (setitem_analyzers name p self)
  | None =>
      value <- as_str value ;;
      let value :=
        if analyzer_from_path then posixpath.basename value else value in
      if Str.nonempty (posixpath.dirname value) then
        ret (setitem_analyzers name
               (posixpath.join (_data_files_dir_path self) [value]) self)
      else
        env_path <- env_path_of analyzer_env ;;
        match find_executable w value env_path with
        | None | Some EmptyString =>
            do LOG_debug (not_found_msg value) ;;
            ret self
        | Some compiler_binary =>
            let self :=
              setitem_analyzers name (realpath w compiler_binary) self in
            stored <- getitem_analyzers self name ;;
            if Str.endswith stored "/ccache" then
              ret (setitem_analyzers name compiler_binary self)
            else ret self
        end
  end.

Definition __populate_analyzers (self : Context) : M Context :=
  let analyzer_from_path := is_analyzer_from_path w in
  r <- (if analyzer_from_path then ret (self, None)
        else
          r <- analyzer_env self ;;
          ret (fst r, Some (snd r))) ;;
  let '(self, analyzer_env) := r in
  env_var_bin <- __parse_CC_ANALYZER_BIN self ;;
  compiler_binaries <- dict_get (pckg_layout self) "analyzers" JNull ;;
  items <- dict_items compiler_binaries ;;
  for_each (populate_analyzer analyzer_from_path analyzer_env env_var_bin)
    items self.

Definition __populate_replacer (self : Context) : M Context :=
  replacer_binary <-
    dict_get (pckg_layout self) "clang-apply-replacements" JNull ;;
  replacer_binary <- as_str replacer_binary ;;
  if Str.nonempty (posixpath.dirname replacer_binary) then
    ret (set_replacer
           (Some (posixpath.join (_data_files_dir_path self)
                    [replacer_binary])) self)
  else
    ret (set_replacer (find_executable w replacer_binary None) self).

(** [Context.__init__] up to the call of [__set_version] (lines 47 to
    91): the object with its settings and version, before any binary is
    resolved. *)
Definition init_until_version : M Context :=
  let bin_dir := environ_get_default "CC_BIN_DIR" in
  let lib_dir := environ_get_default "CC_LIB_DIR" in
  let data_dir := environ_get_default "CC_DATA_FILES_DIR" in
  let labels_dir :=
    match environ w !! "CC_TEST_LABELS_DIR" with
    | Some d => d
    | None => posixpath.join data_dir ["config"; "labels"]
    end in
  let self :=
    {| _bin_dir_path := bin_dir;
       _lib_dir_path := lib_dir;
       _data_files_dir_path := data_dir;
       env_vars := JNull;
       pckg_layout := JNull;
       _checker_labels := labels_dir;
       __package_version := None;
       __package_build_date := JNull;
       __package_git_hash := JNull;
       __package_git_tag := JNull;
       __analyzers := ∅;
       __analyzer_env := None;
       logger_lib_dir_path := EmptyString;
       logger_bin := None;
       logger_file := None;
       logger_compilers := None;
       ld_preload := None;
       ld_lib_path := JNull;
       __replacer := None |} in
  cfg_dict <- __get_package_config self ;;
  env_vars' <- getitem cfg_dict "environment_variables" ;;
  lcfg_dict <- __get_package_layout self ;;
  pckg_layout' <- getitem lcfg_dict "runtime" ;;
  do (match CheckerLabels w labels_dir with
      | Some e => raise e
      | None => ret tt
      end) ;;
  let machine := uname_machine w in
  let bundled := posixpath.join data_dir ["ld_logger"; "lib"; machine] in
  let logger_lib_dir :=
    if negb (path_exists w bundled) then
      posixpath.join lib_dir
        ["codechecker_analyzer"; "ld_logger"; "lib"; machine]
    else bundled in
  let self :=
    {| _bin_dir_path := bin_dir;
       _lib_dir_path := lib_dir;
       _data_files_dir_path := data_dir;
       env_vars := env_vars';
       pckg_layout := pckg_layout';
       _checker_labels := labels_dir;
       __package_version := None;
       __package_build_date := JNull;
       __package_git_hash := JNull;
       __package_git_tag := JNull;
       __analyzers := ∅;
       __analyzer_env := None;
       logger_lib_dir_path := logger_lib_dir;
       logger_bin := None;
       logger_file := None;
       logger_compilers := None;
       ld_preload := None;
       ld_lib_path := JNull;
       __replacer := None |} in
  self <- __init_env self ;;
  __set_version self.

(** [Context.__init__]: the part above, then the last two calls (lines 92
    and 93). *)
Definition __init__ : M Context :=
  self <- init_until_version ;;
  self <- __populate_analyzers self ;;
  __populate_replacer self.

(** Read accessors. *)
Definition version (self : Context) : option string :=
  __package_version self.

Definition package_git_tag (self : Context) : json :=
  __package_git_tag self.

Definition analyzer_binaries (self : Context) : gmap string string :=
  __analyzers self.

Definition replacer_binary (self : Context) : option string :=
  __replacer self.

Definition checker_plugin (self : Context) : option string :=
  if is_analyzer_from_path w then None
  else Some (posixpath.join (_data_files_dir_path self) ["plugin"]).

(** [get_context()] on first use: [Context()] runs [__init__]. *)
Definition get_context : M Context :=
  try_except __init__
    (fun e =>
       match e with
       | KeyError _ =>
           Some (do emit (PrintExc e) ;; sys_exit 1)
       | ValueError err =>
           Some (do LOG_error err ;; sys_exit 1)
       | _ => None
       end).

End Methods.

(** ** A concrete installation, for examples *)

(** Modelled from the spec: [codechecker_analyzer.arg.analyzer_binary] is
    imported by this module and defined elsewhere.  The spec gives the
    shape of an entry, [<analyzer-name>:<path>]; an entry with no colon, or
    with nothing on one side of its first colon, is taken to be malformed.
    The text of the error is not given by the spec. *)
Fixpoint cut_first_colon (s : string) : option (string * string) :=
  match s with
  | EmptyString => None
  | String c r =>
      if Ascii.eqb c ":"%char then Some (EmptyString, r)
      else match cut_first_colon r with
           | Some (a, b) => Some (String c a, b)
           | None => None
           end
  end.

Definition analyzer_binary_of_spec (value : string)
  : (string * string) + string :=
  match cut_first_colon value with
  | Some (name, path) =>
      if Str.nonempty name && Str.nonempty path then inl (name, path)
      else inr ("Analyzer binary in wrong format: " ++ value)
  | None => inr ("Analyzer binary in wrong format: " ++ value)
  end.

Module Sample.

Definition config_json : json :=
  JObj [("environment_variables",
         JObj [("cc_logger_bin", JStr "CC_LOGGER_BIN");
               ("cc_logger_file", JStr "CC_LOGGER_FILE");
               ("cc_logger_compiles", JStr "CC_LOGGER_GCC_LIKE");
               ("ld_preload", JStr "LD_PRELOAD");
               ("env_ld_lib_path", JStr "LD_LIBRARY_PATH")])].

Definition layout_json : json :=
  JObj [("runtime",
         JObj [("analyzers",
                JObj [("clangsa", JStr "clang");
                      ("clang-tidy", JStr "clang-tidy");
                      ("infer", JStr "tools/infer");
                      ("gcc", JStr "gcc")]);
               ("clang-apply-replacements",
                JStr "clang-apply-replacements");
               ("path_env_extra", JArr [JStr "bin"]);
               ("ld_lib_path_extra", JArr [JStr "lib"])])].

Definition version_json (rc : option string) : json :=
  JObj [("version",
         JObj ([("major", JStr "6"); ("minor", JStr "12");
                ("revision", JStr "0")]
               ++ match rc with
                  | Some n => [("rc", JStr n)]
                  | None => []
                  end)%list);
        ("package_build_date", JStr "2024-01-01T00:00");
        ("git_hash", JStr "0123abcd");
        ("git_describe",
         JObj [("tag", JStr "6.12.0"); ("dirty", JStr "6.12.0-dirty")])].

Definition files (rc : option string) (path : string) : json :=
  if String.eqb path "/opt/cc/config/config.json" then config_json
  else if String.eqb path "/opt/cc/config/package_layout.json"
  then layout_json
  else if String.eqb path "/opt/cc/config/analyzer_version.json"
  then version_json rc
  else JNull.

Definition base_environ : gmap string string :=
  <["CC_DATA_FILES_DIR" := "/opt/cc"]>
    (<["CC_LIB_DIR" := "/opt/cc/lib"]>
       (<["CC_BIN_DIR" := "/opt/cc/bin"]>
          (<["PATH" := "/usr/bin"]> ∅))).

Definition os_environ (cc_analyzer_bin : option string)
  : gmap string string :=
  match cc_analyzer_bin with
  | Some v => <["CC_ANALYZER_BIN" := v]> base_environ
  | None => base_environ
  end.

(** [/usr/bin/gcc] is a link to ccache, [/usr/bin/clang] and the
    replacer are links into an LLVM installation. *)
Definition which (name : string) (path : option string) : option string :=
  if String.eqb name "clang" then Some "/usr/bin/clang"
  else if String.eqb name "gcc" then Some "/usr/bin/gcc"
  else if String.eqb name "clang-apply-replacements"
  then Some "/usr/bin/clang-apply-replacements"
  else None.

Definition resolve (p : string) : string :=
  if String.eqb p "/usr/bin/gcc" then "/usr/lib/ccache/bin/ccache"
  else if String.eqb p "/usr/bin/clang" then "/usr/lib/llvm/bin/clang"
  else if String.eqb p "/usr/bin/clang-apply-replacements"
  then "/usr/lib/llvm/bin/clang-apply-replacements"
  else p.

Definition is_file (p : string) : bool :=
  String.eqb p "/usr/bin/clang" || String.eqb p "/usr/bin/gcc"
  || String.eqb p "/opt/infer/bin/infer"
  || String.eqb p "/opt/llvm/bin/clang-tidy".

Definition world (cc_analyzer_bin : option string) (from_path : bool)
    (log_level : Z) (rc : option string) : World :=
  {| environ := os_environ cc_analyzer_bin;
     load_json := files rc;
     path_exists := fun _ => false;
     path_isfile := is_file;
     realpath := resolve;
     find_executable := which;
     uname_machine := "x86_64";
     getEffectiveLevel := log_level;
     logger_DEBUG := 10;
     logger_DEBUG_ANALYZER := 15;
     is_analyzer_from_path := from_path;
     env_extend := fun _ _ => os_environ cc_analyzer_bin;
     analyzer_binary := analyzer_binary_of_spec;
     CheckerLabels := fun _ => None |}.

(** The usual case: no override, bundled analyzers, level INFO. *)
Definition plain : World := world None false 20 None.

(** The same installation with other files on disk. *)
Definition with_files (f : string -> json) (w : World) : World :=
  {| environ := environ w;
     load_json := f;
     path_exists := path_exists w;
     path_isfile := path_isfile w;
     realpath := realpath w;
     find_executable := find_executable w;
     uname_machine := uname_machine w;
     getEffectiveLevel := getEffectiveLevel w;
     logger_DEBUG := logger_DEBUG w;
     logger_DEBUG_ANALYZER := logger_DEBUG_ANALYZER w;
     is_analyzer_from_path := is_analyzer_from_path w;
     env_extend := env_extend w;
     analyzer_binary := analyzer_binary w;
     CheckerLabels := CheckerLabels w |}.

(** A general configuration without its [environment_variables] entry,
    and no package layout file. *)
Definition no_env_vars_no_layout (path : string) : json :=
  if String.eqb path "/opt/cc/config/config.json"
  then JObj [("version", JNum 1)]
  else JNull.

(** Only the package layout file is missing. *)
Definition no_layout (path : string) : json :=
  if String.eqb path "/opt/cc/config/package_layout.json" then JNull
  else files None path.

(** The object once [self.analyzer_env] has been computed. *)
Definition with_analyzer_env (cc_analyzer_bin : option string)
    (self : Context) : Context :=
  set_analyzer_env (Some (os_environ cc_analyzer_bin)) self.

(** The object as [__init__] has it when the two configuration files
    have been read. *)
Definition fresh : Context :=
  {| _bin_dir_path := "/opt/cc/bin";
     _lib_dir_path := "/opt/cc/lib";
     _data_files_dir_path := "/opt/cc";
     env_vars := JObj [];
     pckg_layout :=
       match layout_json with
       | JObj [(_, runtime)] => runtime
       | _ => JNull
       end;
     _checker_labels := "/opt/cc/config/labels";
     __package_version := None;
     __package_build_date := JNull;
     __package_git_hash := JNull;
     __package_git_tag := JNull;
     __analyzers := ∅;
     __analyzer_env := None;
     logger_lib_dir_path := "/opt/cc/ld_logger/lib/x86_64";
     logger_bin := None;
     logger_file := None;
     logger_compilers := None;
     ld_preload := None;
     ld_lib_path := JNull;
     __replacer := None |}.

(** The context [get_context] returns in a world where it returns. *)
Definition built (w : World) : Context :=
  match outcome (get_context w) with
  | inl ctx => ctx
  | inr _ => fresh
  end.

End Sample.

(** ** Vocabulary for the statements about [CC_ANALYZER_BIN] *)

(** The errors the loop of [__parse_CC_ANALYZER_BIN] logs for one entry:
    the parser's complaint for a malformed entry, the missing-file message
    for a path that is no file, nothing for a good entry. *)
Definition entry_errors (w : World) (value : string) : list event :=
  match analyzer_binary w value with
  | inr e => [Log LvlError e]
  | inl (_, path) =>
      if path_isfile w path then []
      else [Log LvlError (not_a_binary_msg path)]
  end.

Definition entry_ok (w : World) (value : string) : bool :=
  match entry_errors w value with
  | [] => true
  | _ => false
  end.

(** The announcement of an accepted entry, and its place in the result. *)
Definition entry_announcement (w : World) (value : string) : list event :=
  match analyzer_binary w value with
  | inl (analyzer_name, path) => [Log LvlInfo (using_msg path analyzer_name)]
  | inr _ => []
  end.

Definition entry_record (w : World) (bins : gmap string string)
    (value : string) : gmap string string :=
  match analyzer_binary w value with
  | inl (analyzer_name, path) => <[analyzer_name := path]> bins
  | inr _ => bins
  end.

(** The entries before the first failing one, and the rest. *)
Fixpoint before_first_failure (w : World) (entries : list string)
  : list string :=
  match entries with
  | [] => []
  | value :: rest =>
      if entry_ok w value then value :: before_first_failure w rest else []
  end.

Fixpoint from_first_failure (w : World) (entries : list string)
  : list string :=
  match entries with
  | [] => []
  | value :: rest =>
      if entry_ok w value then from_first_failure w rest else entries
  end.

Definition is_error_event (ev : event) : bool :=
  match ev with
  | Log LvlError _ => true
  | _ => false
  end.

(** ** Vocabulary for the statements about binary resolution *)

(** The value a round of the loop of [__populate_analyzers] works with:
    stripped to its file name in PATH-discovery mode. *)
Definition looked_up (analyzer_from_path : bool) (value : string) : string :=
  if analyzer_from_path then posixpath.basename value else value.

(** The search path [find_executable] is given for an extended
    environment that has a [PATH] or is empty. *)
Definition search_path (e : gmap string string) : option string :=
  if env_truthy e then e !! "PATH" else None.

(** [find_executable] found nothing the loop accepts: [None], or a result
    that counts as false. *)
Definition not_located (found : option string) : Prop :=
  found = None \/ found = Some EmptyString.

(** An entry of [CC_ANALYZER_BIN] in the extended environment [e] names
    the analyzer. *)
Definition overridden (w : World) (e : gmap string string) (name : string)
  : Prop :=
  exists v entry path,
    e !! "CC_ANALYZER_BIN" = Some v
    /\ In entry (Str.split ";" v)
    /\ analyzer_binary w entry = inl (name, path).

(** Two states of the object that differ at most in the analyzer table
    and the replacer. *)
Definition same_settings (a b : Context) : Prop :=
  _data_files_dir_path a = _data_files_dir_path b
  /\ pckg_layout a = pckg_layout b
  /\ __analyzer_env a = __analyzer_env b.

(** ** Further accessors of [Context], and vocabulary for them *)

(** [Context.package_build_date], [Context.package_git_hash],
    [Context.data_files_dir_path] *)
Definition package_build_date (self : Context) : json :=
  __package_build_date self.

Definition package_git_hash (self : Context) : json :=
  __package_git_hash self.

Definition data_files_dir_path (self : Context) : string :=
  _data_files_dir_path self.

(** ['/' in s] *)
Fixpoint contains_sep (s : string) : bool :=
  match s with
  | EmptyString => false
  | String c r => Str.is_sep c || contains_sep r
  end.

(** The sample installation without its version file. *)
Definition sample_no_version (path : string) : json :=
  if String.eqb path "/opt/cc/config/analyzer_version.json" then JNull
  else Sample.files None path.

(** A version file with the two required entries only. *)
Definition sample_bare_version (path : string) : json :=
  if String.eqb path "/opt/cc/config/analyzer_version.json"
  then JObj [("version",
              JObj [("major", JStr "6"); ("minor", JStr "12");
                    ("revision", JStr "0")]);
             ("package_build_date", JStr "2024-01-01T00:00")]
  else Sample.files None path.

(** The sample installation with a layout that names one analyzer by an
    absolute path and one by a value that is not a string. *)
Definition sample_other_layout (path : string) : json :=
  if String.eqb path "/opt/cc/config/package_layout.json"
  then JObj [("runtime",
              JObj [("analyzers",
                     JObj [("cppcheck", JStr "/usr/bin/cppcheck");
                           ("infer", JNum 1)]);
                    ("clang-apply-replacements",
                     JStr "clang-apply-replacements")])]
  else Sample.files None path.

(** A computation that logs nothing at error level on the runs that
    return. *)
Definition quiet {A} (m : M A) : Prop :=
  forall a, outcome m = inl a -> List.filter is_error_event (events m) = [].

(** The sample installation with a general configuration that names no
    role. *)
Definition sample_no_roles (path : string) : json :=
  if String.eqb path "/opt/cc/config/config.json"
  then JObj [("environment_variables", JObj [])]
  else Sample.files None path.

(** Modelled from the spec: [codechecker_analyzer.env.extend] is imported
    by this module and defined elsewhere.  The spec describes it as taking
    the extra PATH fragments and the extra library-path fragments and
    returning the merged environment: the fragments, joined by colons, go
    in front of [PATH] and of [LD_LIBRARY_PATH] of [os.environ]. *)
Definition extend_in_front (environ : gmap string string) (var : string)
    (fragments : list string) : gmap string string :=
  match fragments with
  | [] => environ
  | _ =>
      <[var := match environ !! var with
               | Some old => String.concat ":" (fragments ++ [old])
               | None => String.concat ":" fragments
               end]> environ
  end.

Definition extend_of_spec (environ : gmap string string)
    (path_env_extra ld_lib_path_extra : list string) : gmap string string :=
  extend_in_front (extend_in_front environ "PATH" path_env_extra)
    "LD_LIBRARY_PATH" ld_lib_path_extra.

(** The sample installation with that [env.extend]. *)
Definition sample_extending : World :=
  {| environ := environ Sample.plain;
     load_json := load_json Sample.plain;
     path_exists := path_exists Sample.plain;
     path_isfile := path_isfile Sample.plain;
     realpath := realpath Sample.plain;
     find_executable := find_executable Sample.plain;
     uname_machine := uname_machine Sample.plain;
     getEffectiveLevel := getEffectiveLevel Sample.plain;
     logger_DEBUG := logger_DEBUG Sample.plain;
     logger_DEBUG_ANALYZER := logger_DEBUG_ANALYZER Sample.plain;
     is_analyzer_from_path := false;
     env_extend := extend_of_spec (environ Sample.plain);
     analyzer_binary := analyzer_binary Sample.plain;
     CheckerLabels := CheckerLabels Sample.plain |}.

(** * Properties *)

(** ** The string functions on examples *)

Example basename_ex : posixpath.basename "/usr/bin/clang" = "clang".
Proof. reflexivity. Qed.

Example dirname_ex :
  posixpath.dirname "tools/infer" = "tools"
  /\ posixpath.dirname "clang-tidy" = ""
  /\ posixpath.dirname "/clang" = "/"
  /\ posixpath.dirname "a//b" = "a".
Proof. repeat split. Qed.

Example join_ex :
  posixpath.join "/opt/cc" ["config"; "labels"] = "/opt/cc/config/labels"
  /\ posixpath.join "" ["tools/infer"] = "tools/infer"
  /\ posixpath.join "/opt/cc/" ["/usr/bin/x"] = "/usr/bin/x".
Proof. repeat split. Qed.

Example split_ex :
  Str.split ";" "a:b;;c" = ["a:b"; ""; "c"] /\ Str.split ";" "" = [""].
Proof. split; reflexivity. Qed.

(** ** Laws of the effect monad *)

Lemma bind_ret_l {A B} (a : A) (f : A -> M B) : bind (ret a) f = f a.
Proof. unfold bind, ret. destruct (f a); reflexivity. Qed.

Lemma bind_raise {A B} (e : exn) (f : A -> M B) : bind (raise e) f = raise e.
Proof. reflexivity. Qed.

Lemma bind_emit {B} (ev : event) (f : unit -> M B) :
  bind (emit ev) f = (ev :: events (f tt), outcome (f tt)).
Proof. unfold bind, emit, events, outcome. destruct (f tt); reflexivity. Qed.

Lemma bind_assoc {A B C} (m : M A) (f : A -> M B) (g : B -> M C) :
  bind (bind m f) g = bind m (fun a => bind (f a) g).
Proof.
  destruct m as [l [a|e]]; simpl; [|reflexivity].
  destruct (f a) as [l1 [b|e]]; simpl; [|reflexivity].
  destruct (g b) as [l2 r]. by rewrite app_assoc.
Qed.

(** A sequence returns only if both of its parts do. *)
Lemma bind_inl_inv {A B} (m : M A) (f : A -> M B) (b : B) :
  outcome (bind m f) = inl b ->
  exists a, outcome m = inl a /\ outcome (f a) = inl b.
Proof.
  destruct m as [l [a|e]]; simpl.
  - destruct (f a) as [l' r] eqn:E. simpl. intros ->.
    exists a. by rewrite E.
  - discriminate.
Qed.

Lemma outcome_bind_inl {A B} (m : M A) (f : A -> M B) (a : A) :
  outcome m = inl a -> outcome (bind m f) = outcome (f a).
Proof.
  destruct m as [l r]. simpl. intros ->. simpl. by destruct (f a).
Qed.

Lemma outcome_bind_inr {A B} (m : M A) (f : A -> M B) (e : exn) :
  outcome m = inr e -> outcome (bind m f) = inr e.
Proof. destruct m as [l r]. simpl. by intros ->. Qed.

Lemma events_bind_inl {A B} (m : M A) (f : A -> M B) (a : A) :
  outcome m = inl a ->
  events (bind m f) = (events m ++ events (f a))%list.
Proof.
  destruct m as [l r]. simpl. intros ->. simpl. by destruct (f a).
Qed.

Lemma events_bind_inr {A B} (m : M A) (f : A -> M B) (e : exn) :
  outcome m = inr e -> events (bind m f) = events m.
Proof. destruct m as [l r]. simpl. by intros ->. Qed.

Lemma M_eta {A} (m : M A) : m = (events m, outcome m).
Proof. by destruct m. Qed.

(** Peels one returning step off a hypothesis [outcome (x <- m ;; k) = inl _]. *)
Ltac peel H a Ha :=
  apply bind_inl_inv in H; destruct H as (a & Ha & H).

(** ** Version metadata: [__set_version] *)

Lemma append_empty_r (s : string) : s ++ "" = s.
Proof.
  induction s as [|c s IH]; [done|].
  change (String c (s ++ "") = String c s). by rewrite IH.
Qed.

Lemma getitem_obj (items : list (string * json)) (k : string) (v : json) :
  assoc k items = Some v -> getitem (JObj items) k = ret v.
Proof. intros H. unfold getitem. by rewrite H. Qed.

(** On a version object whose fields are strings the version expression
    yields a value: the three fields joined by dots, then the suffix. *)
Lemma version_string_spec (items : list (string * json))
    (major minor revision : string) :
  assoc "major" items = Some (JStr major) ->
  assoc "minor" items = Some (JStr minor) ->
  assoc "revision" items = Some (JStr revision) ->
  (assoc "rc" items = None \/ exists rc, assoc "rc" items = Some (JStr rc)) ->
  version_string (JObj items)
  = ret (major ++ "." ++ minor ++ "." ++ revision
         ++ match assoc "rc" items with
            | Some (JStr (String c r)) => "-rc" ++ String c r
            | _ => ""
            end).
Proof.
  intros Hma Hmi Hre Hrc. unfold version_string.
  rewrite (getitem_obj _ _ _ Hma), bind_ret_l. simpl as_str. rewrite bind_ret_l.
  rewrite (getitem_obj _ _ _ Hmi), bind_ret_l. simpl as_str. rewrite bind_ret_l.
  rewrite (getitem_obj _ _ _ Hre), bind_ret_l. simpl as_str. rewrite bind_ret_l.
  destruct Hrc as [Hrc | [rc Hrc]].
  - rewrite Hrc. by rewrite !bind_ret_l.
  - rewrite Hrc. destruct rc as [|c r]; cbn [truthy Str.nonempty].
    + by rewrite !bind_ret_l.
    + rewrite bind_ret_l, (getitem_obj _ _ _ Hrc), !bind_ret_l. simpl as_str.
      by rewrite !bind_ret_l.
Qed.

(** What [__set_version] stores, when it returns. *)
Lemma set_version_inv (w : World) (self self' : Context) :
  outcome (__set_version w self) = inl self' ->
  exists vitems pv date ghash describe describe' tag dirty ver,
    load_json w (version_file self) = JObj vitems
    /\ assoc "version" vitems = Some pv
    /\ assoc "package_build_date" vitems = Some date
    /\ describe
        = match assoc "git_describe" vitems with
          | Some d => d
          | None => JObj []
          end
    /\ describe = JObj describe'
    /\ tag = match assoc "tag" describe' with Some t => t | None => JNull end
    /\ dirty
        = match assoc "dirty" describe' with Some t => t | None => JNull end
    /\ outcome (version_string pv) = inl ver
    /\ __package_version self' = Some ver
    /\ __package_git_hash self' = ghash
    /\ __package_git_tag self'
        = visible_git_tag w (getEffectiveLevel w) tag dirty
    /\ __analyzer_env self' = __analyzer_env self
    /\ __analyzers self' = __analyzers self
    /\ pckg_layout self' = pckg_layout self
    /\ _data_files_dir_path self' = _data_files_dir_path self.
Proof.
  unfold __set_version. intros H.
  destruct (truthy (load_json w (version_file self))) eqn:Ht;
    simpl in H; [|discriminate].
  peel H pv Hpv. peel H date Hdate. peel H ghash Hhash.
  peel H describe Hd. peel H tag Htag. peel H describe2 Hd2.
  peel H dirty Hdirty. peel H ver Hver.
  destruct (load_json w (version_file self)) as [| | | | |vitems] eqn:Hv;
    try discriminate.
  simpl in Hpv, Hdate, Hhash, Hd, Hd2.
  destruct (assoc "version" vitems) as [pv'|] eqn:Epv; [|discriminate].
  destruct (assoc "package_build_date" vitems) as [date'|] eqn:Edate;
    [|discriminate].
  injection Hpv as <-. injection Hdate as <-. injection Hd as <-.
  injection Hd2 as <-.
  remember (match assoc "git_describe" vitems with
            | Some d => d | None => JObj [] end) as describe eqn:Edesc.
  destruct describe as [| | | | |ditems]; try discriminate.
  simpl in Htag, Hdirty. injection Htag as <-. injection Hdirty as <-.
  simpl in H. injection H as <-. simpl.
  exists vitems, pv', date', ghash, (JObj ditems), ditems. do 3 eexists.
  repeat split; try reflexivity; try assumption.
Qed.

(** [__set_version] returns, and logs nothing, once the version file is a
    dict with a build date, a [git_describe] block that is a dict when
    present, and a version object for which the version expression has a
    value; it stores that value. *)
Lemma set_version_run (w : World) (self : Context)
    (vitems : list (string * json)) (pv date : json) (ver : string) :
  load_json w (version_file self) = JObj vitems ->
  assoc "version" vitems = Some pv ->
  assoc "package_build_date" vitems = Some date ->
  (forall d, assoc "git_describe" vitems = Some d ->
             exists ditems, d = JObj ditems) ->
  version_string pv = ret ver ->
  exists self',
    __set_version w self = ret self' /\ __package_version self' = Some ver.
Proof.
  intros Hv Hpv Hdate Hdesc Hver. unfold __set_version. rewrite Hv.
  assert (Ht : truthy (JObj vitems) = true).
  { destruct vitems; [discriminate | done]. }
  rewrite Ht. cbn [negb].
  rewrite (getitem_obj _ _ _ Hpv), bind_ret_l.
  rewrite (getitem_obj _ _ _ Hdate), bind_ret_l.
  cbn [dict_get]. rewrite !bind_ret_l.
  assert (Hd : exists ditems,
             match assoc "git_describe" vitems with
             | Some d => d
             | None => JObj []
             end = JObj ditems).
  { destruct (assoc "git_describe" vitems) as [d|]; [|by exists []].
    by apply Hdesc. }
  destruct Hd as [ditems ->]. cbn [dict_get]. rewrite !bind_ret_l.
  rewrite Hver. cbn [dict_get]. rewrite !bind_ret_l.
  eexists. split; reflexivity.
Qed.

(** C8. The [version] accessor returns [major.minor.revision] of the
    version object of the version file, followed by [-rc] and the rc value
    exactly when the object has a non-empty [rc] field: with no [rc], or an
    empty one, nothing is appended.  In both cases [__set_version] does
    return, for every version file that has the build date it requires. *)
Theorem version_is_dotted_triple_with_rc (w : World) (self : Context)
    (vitems items : list (string * json)) (major minor revision : string)
    (date : json) :
  load_json w (version_file self) = JObj vitems ->
  assoc "version" vitems = Some (JObj items) ->
  assoc "package_build_date" vitems = Some date ->
  (forall d, assoc "git_describe" vitems = Some d ->
             exists ditems, d = JObj ditems) ->
  assoc "major" items = Some (JStr major) ->
  assoc "minor" items = Some (JStr minor) ->
  assoc "revision" items = Some (JStr revision) ->
  ((assoc "rc" items = None \/ assoc "rc" items = Some (JStr "")) ->
   exists self',
     __set_version w self = ret self'
     /\ version self' = Some (major ++ "." ++ minor ++ "." ++ revision))
  /\ (forall rc, assoc "rc" items = Some (JStr rc) -> rc <> "" ->
      exists self',
        __set_version w self = ret self'
        /\ version self'
           = Some (major ++ "." ++ minor ++ "." ++ revision ++ "-rc" ++ rc)).
Proof.
  intros Hv Hpv Hdate Hdesc Hma Hmi Hre. split.
  - intros Hrc.
    apply (set_version_run w self vitems (JObj items) date); try assumption.
    rewrite (version_string_spec items major minor revision Hma Hmi Hre).
    + by destruct Hrc as [-> | ->]; rewrite append_empty_r.
    + destruct Hrc as [Hrc|Hrc]; [by left | right; eauto].
  - intros rc Hrc Hne.
    apply (set_version_run w self vitems (JObj items) date); try assumption.
    rewrite (version_string_spec items major minor revision Hma Hmi Hre);
      [|right; eauto].
    rewrite Hrc. by destruct rc.
Qed.

(** The two version files of the specification, through [get_context]. *)
Example version_6_12_0 :
  exists ctx, outcome (get_context Sample.plain) = inl ctx
              /\ version ctx = Some "6.12.0".
Proof. eexists. split; vm_compute; reflexivity. Qed.

Example version_6_12_0_rc1 :
  exists ctx,
    outcome (get_context (Sample.world None false 20 (Some "1"))) = inl ctx
    /\ version ctx = Some "6.12.0-rc1".
Proof. eexists. split; vm_compute; reflexivity. Qed.

Lemma version_is_dotted_triple_with_rc_witness :
  (exists self',
      __set_version Sample.plain Sample.fresh = ret self'
      /\ version self' = Some "6.12.0")
  /\ (exists self',
        __set_version (Sample.world None false 20 (Some "1")) Sample.fresh
        = ret self'
        /\ version self' = Some "6.12.0-rc1").
Proof.
  split.
  - refine (proj1 (version_is_dotted_triple_with_rc Sample.plain
                     Sample.fresh _ _ "6" "12" "0" _
                     ltac:(vm_compute; reflexivity) eq_refl eq_refl _
                     eq_refl eq_refl eq_refl) _).
    + intros d Hd. vm_compute in Hd. injection Hd as <-. by eexists.
    + left. reflexivity.
  - refine (proj2 (version_is_dotted_triple_with_rc
                     (Sample.world None false 20 (Some "1"))
                     Sample.fresh _ _ "6" "12" "0" _
                     ltac:(vm_compute; reflexivity) eq_refl eq_refl _
                     eq_refl eq_refl eq_refl) "1" eq_refl _).
    + intros d Hd. vm_compute in Hd. injection Hd as <-. by eexists.
    + discriminate.
Defined.

(** C3 (as amended). The visible git tag is the dirty variant of the
    [git_describe] block exactly when the effective log level equals
    [logger.DEBUG] or [logger.DEBUG_ANALYZER]; at every other level, lower
    ones included, it is the clean tag. *)
Theorem git_tag_dirty_at_the_two_debug_levels (w : World)
    (self self' : Context) (vitems ditems : list (string * json)) :
  load_json w (version_file self) = JObj vitems ->
  match assoc "git_describe" vitems with
  | Some d => d
  | None => JObj []
  end = JObj ditems ->
  outcome (__set_version w self) = inl self' ->
  (getEffectiveLevel w = logger_DEBUG w
   \/ getEffectiveLevel w = logger_DEBUG_ANALYZER w ->
   package_git_tag self'
   = match assoc "dirty" ditems with Some t => t | None => JNull end)
  /\ (getEffectiveLevel w <> logger_DEBUG w ->
      getEffectiveLevel w <> logger_DEBUG_ANALYZER w ->
      package_git_tag self'
      = match assoc "tag" ditems with Some t => t | None => JNull end).
Proof.
  intros Hv Hd H.
  destruct (set_version_inv _ _ _ H)
    as (vitems' & ? & ? & ? & describe & ditems' & tag & dirty & ? & Hv' & _
        & _ & Hd1 & Hd2 & -> & -> & _ & _ & _ & Htag & _).
  rewrite Hv in Hv'. injection Hv' as <-.
  rewrite Hd1, Hd in Hd2. injection Hd2 as <-.
  unfold package_git_tag. rewrite Htag. unfold visible_git_tag. split.
  - intros [-> | ->]; rewrite Z.eqb_refl; [done | by rewrite orb_true_r].
  - intros H1 H2. apply Z.eqb_neq in H1, H2. by rewrite H1, H2.
Qed.

Lemma git_tag_dirty_at_the_two_debug_levels_witness :
  exists self',
    outcome (__set_version (Sample.world None false 15 None) Sample.fresh)
    = inl self'
    /\ package_git_tag self' = JStr "6.12.0-dirty".
Proof.
  eexists. split; [vm_compute; reflexivity|].
  refine (proj1 (git_tag_dirty_at_the_two_debug_levels
                   (Sample.world None false 15 None) Sample.fresh _ _
                   [("tag", JStr "6.12.0"); ("dirty", JStr "6.12.0-dirty")]
                   _ _ _) _);
    try (vm_compute; reflexivity).
  right. reflexivity.
Defined.

(** A level below both debug levels still shows the clean tag: with
    Python's [logging.DEBUG = 10] and the analyzer debug level at 15, the
    effective level 5 is under any threshold between them. *)
Lemma git_tag_clean_below_debug :
  (getEffectiveLevel (Sample.world None false 5 None)
   <= logger_DEBUG (Sample.world None false 5 None))%Z
  /\ (getEffectiveLevel (Sample.world None false 5 None)
      <= logger_DEBUG_ANALYZER (Sample.world None false 5 None))%Z
  /\ exists ctx,
      outcome (get_context (Sample.world None false 5 None)) = inl ctx
      /\ package_git_tag ctx = JStr "6.12.0"
      /\ package_git_tag ctx <> JStr "6.12.0-dirty".
Proof.
  split; [vm_compute; discriminate|].
  split; [vm_compute; discriminate|].
  eexists. split; [vm_compute; reflexivity|].
  split; [vm_compute; reflexivity | vm_compute; discriminate].
Qed.

(** Whatever the two debug levels are, no threshold describes the code:
    under every threshold there is a level that shows the clean tag. *)
Lemma no_threshold_gives_the_dirty_tag (w : World) (threshold : Z)
    (tag dirty : json) :
  tag <> dirty ->
  exists lvl, (lvl <= threshold)%Z /\ visible_git_tag w lvl tag dirty <> dirty.
Proof.
  intros Hne.
  exists (Z.min threshold
            (Z.min (logger_DEBUG w) (logger_DEBUG_ANALYZER w)) - 1)%Z.
  split; [lia|]. unfold visible_git_tag.
  replace (_ =? logger_DEBUG w)%Z with false by (symmetry; apply Z.eqb_neq; lia).
  replace (_ =? logger_DEBUG_ANALYZER w)%Z with false
    by (symmetry; apply Z.eqb_neq; lia).
  exact Hne.
Qed.

(** ** The extra search paths: [path_env_extra], [ld_lib_path_extra] *)

(** C7. In PATH-discovery mode both accessors return the empty list, with
    no look at the package layout. *)
Theorem extra_paths_empty_in_path_mode (w : World) (self : Context) :
  is_analyzer_from_path w = true ->
  path_env_extra w self = ret [] /\ ld_lib_path_extra w self = ret [].
Proof.
  intros H. unfold path_env_extra, ld_lib_path_extra. by rewrite H.
Qed.

Lemma extra_paths_empty_in_path_mode_witness :
  path_env_extra (Sample.world None true 20 None) Sample.fresh = ret []
  /\ ld_lib_path_extra (Sample.world None true 20 None) Sample.fresh = ret [].
Proof.
  apply (extra_paths_empty_in_path_mode
           (Sample.world None true 20 None) Sample.fresh).
  reflexivity.
Defined.

(** Outside that mode the same layout gives the joined fragments. *)
Example extra_paths_of_the_layout :
  path_env_extra Sample.plain Sample.fresh = ret ["/opt/cc/bin"]
  /\ ld_lib_path_extra Sample.plain Sample.fresh = ret ["/opt/cc/lib"].
Proof. split; reflexivity. Qed.

(** ** The override variable: [__parse_CC_ANALYZER_BIN] *)

Section ParseOverride.

Variable w : World.

(** Once an entry has failed, an entry only adds its own errors. *)
Lemma parse_entry_after_error (bins : gmap string string) (value : string) :
  parse_entry w (true, bins) value
  = (entry_errors w value, inl (true, bins)).
Proof.
  unfold parse_entry, entry_errors.
  destruct (analyzer_binary w value) as [[analyzer_name path]|e];
    [|reflexivity].
  by destruct (path_isfile w path).
Qed.

Lemma parse_entry_bad (bins : gmap string string) (value : string) :
  entry_ok w value = false ->
  parse_entry w (false, bins) value
  = (entry_errors w value, inl (true, bins)).
Proof.
  unfold entry_ok, parse_entry, entry_errors.
  destruct (analyzer_binary w value) as [[analyzer_name path]|e];
    [|reflexivity].
  by destruct (path_isfile w path).
Qed.

Lemma parse_entry_good (bins : gmap string string) (value : string) :
  entry_ok w value = true ->
  parse_entry w (false, bins) value
  = (entry_announcement w value, inl (false, entry_record w bins value)).
Proof.
  unfold entry_ok, parse_entry, entry_errors, entry_announcement,
    entry_record.
  destruct (analyzer_binary w value) as [[analyzer_name path]|e];
    [|discriminate].
  by destruct (path_isfile w path).
Qed.

Lemma parse_loop_after_error (entries : list string)
    (bins : gmap string string) :
  for_each (parse_entry w) entries (true, bins)
  = (flat_map (entry_errors w) entries, inl (true, bins)).
Proof.
  induction entries as [|value rest IH]; [reflexivity|].
  cbn [for_each flat_map]. rewrite parse_entry_after_error.
  unfold bind. by rewrite IH.
Qed.

(** The loop from a clean state: entries are announced and recorded up
    to the first failing one; from there on every entry is still
    checked, and only its errors are logged. *)
Lemma parse_loop_spec (entries : list string) (bins : gmap string string) :
  for_each (parse_entry w) entries (false, bins)
  = ((flat_map (entry_announcement w) (before_first_failure w entries)
      ++ flat_map (entry_errors w) (from_first_failure w entries))%list,
     inl (negb (forallb (entry_ok w) entries),
          fold_left (entry_record w) (before_first_failure w entries) bins)).
Proof.
  revert bins. induction entries as [|value rest IH]; intros bins;
    [reflexivity|].
  cbn [for_each before_first_failure from_first_failure forallb].
  destruct (entry_ok w value) eqn:Hok.
  - rewrite parse_entry_good by done. unfold bind. rewrite IH.
    cbn [flat_map fold_left andb]. by rewrite app_assoc.
  - rewrite parse_entry_bad by done. unfold bind.
    rewrite parse_loop_after_error. reflexivity.
Qed.

Lemma entry_ok_no_errors (value : string) :
  entry_ok w value = true -> entry_errors w value = [].
Proof. unfold entry_ok. by destruct (entry_errors w value). Qed.

Lemma all_ok_no_failure (entries : list string) :
  forallb (entry_ok w) entries = true ->
  before_first_failure w entries = entries
  /\ from_first_failure w entries = [].
Proof.
  induction entries as [|value rest IH]; [done|].
  cbn [forallb before_first_failure from_first_failure].
  destruct (entry_ok w value); [|discriminate].
  intros H. destruct (IH H) as [-> ->]. done.
Qed.

(** The entries before the first failure contribute no error. *)
Lemma errors_from_first_failure (entries : list string) :
  flat_map (entry_errors w) (from_first_failure w entries)
  = flat_map (entry_errors w) entries.
Proof.
  induction entries as [|value rest IH]; [done|].
  cbn [from_first_failure]. destruct (entry_ok w value) eqn:Hok; [|done].
  cbn [flat_map]. by rewrite (entry_ok_no_errors _ Hok).
Qed.

Lemma filter_errors_announcements (entries : list string) :
  List.filter is_error_event (flat_map (entry_announcement w) entries) = [].
Proof.
  induction entries as [|value rest IH]; [done|].
  cbn [flat_map]. rewrite List.filter_app, IH, app_nil_r.
  unfold entry_announcement.
  by destruct (analyzer_binary w value) as [[? ?]|?].
Qed.

Lemma filter_errors_errors (entries : list string) :
  List.filter is_error_event (flat_map (entry_errors w) entries)
  = flat_map (entry_errors w) entries.
Proof.
  induction entries as [|value rest IH]; [done|].
  cbn [flat_map]. rewrite List.filter_app, IH. f_equal.
  unfold entry_errors.
  destruct (analyzer_binary w value) as [[? path]|?]; [|done].
  by destruct (path_isfile w path).
Qed.

End ParseOverride.

(** The whole of [__parse_CC_ANALYZER_BIN] when the variable is set. *)
Lemma parse_override_run (w : World) (self : Context)
    (e : gmap string string) (v : string) :
  __analyzer_env self = Some e ->
  e !! "CC_ANALYZER_BIN" = Some v ->
  __parse_CC_ANALYZER_BIN w self
  = ((flat_map (entry_announcement w)
        (before_first_failure w (Str.split ";" v))
      ++ flat_map (entry_errors w) (from_first_failure w (Str.split ";" v))
      ++ if forallb (entry_ok w) (Str.split ";" v) then []
         else [Log LvlInfo usage_hint])%list,
     if forallb (entry_ok w) (Str.split ";" v)
     then inl (fold_left (entry_record w) (Str.split ";" v) ∅)
     else inr (SystemExit 1)).
Proof.
  intros He Hv.
  unfold __parse_CC_ANALYZER_BIN. rewrite He, Hv, parse_loop_spec.
  destruct (forallb (entry_ok w) (Str.split ";" v)) eqn:Hall.
  - destruct (all_ok_no_failure w _ Hall) as [-> ->]. cbn.
    by rewrite !app_nil_r.
  - cbn. by rewrite <- app_assoc.
Qed.

(** C1 (as amended). Every entry of [CC_ANALYZER_BIN] is scanned: each
    malformed entry and each entry whose path is no file is logged as an
    error, one error per such entry, whatever came before it.  An entry is
    accepted (announced and recorded) only while no entry has failed: from
    the first failing entry on, later entries are still checked but none
    is accepted.  If some entry failed, the usage hint is logged after the
    last entry and the process exits with status 1; otherwise the mapping
    of all entries is returned. *)
Theorem override_entries_all_scanned (w : World) (self : Context)
    (e : gmap string string) (v : string) :
  __analyzer_env self = Some e ->
  e !! "CC_ANALYZER_BIN" = Some v ->
  events (__parse_CC_ANALYZER_BIN w self)
  = (flat_map (entry_announcement w)
       (before_first_failure w (Str.split ";" v))
     ++ flat_map (entry_errors w) (from_first_failure w (Str.split ";" v))
     ++ if forallb (entry_ok w) (Str.split ";" v) then []
        else [Log LvlInfo usage_hint])%list
  /\ List.filter is_error_event (events (__parse_CC_ANALYZER_BIN w self))
     = flat_map (entry_errors w) (Str.split ";" v)
  /\ outcome (__parse_CC_ANALYZER_BIN w self)
     = if forallb (entry_ok w) (Str.split ";" v)
       then inl (fold_left (entry_record w) (Str.split ";" v) ∅)
       else inr (SystemExit 1).
Proof.
  intros He Hv. rewrite (parse_override_run w self e v He Hv).
  cbn [events outcome fst snd]. split; [done|]. split; [|done].
  rewrite !List.filter_app, filter_errors_announcements, filter_errors_errors,
    errors_from_first_failure.
  destruct (forallb (entry_ok w) (Str.split ";" v)); cbn;
    by rewrite app_nil_r.
Qed.

(** The case of the specification: the first entry is good, the second
    names a path that is no file.  One error is logged, for the second
    entry, then the hint, and the process exits with status 1. *)
Example override_second_entry_bad :
  __parse_CC_ANALYZER_BIN
    (Sample.world (Some "clang:/usr/bin/clang;cppcheck:/bad/path")
       false 20 None)
    (Sample.with_analyzer_env
       (Some "clang:/usr/bin/clang;cppcheck:/bad/path") Sample.fresh)
  = ([Log LvlInfo "Using '/usr/bin/clang' for analyzer 'clang'";
      Log LvlError
        "'/bad/path' is not a path to an analyzer binary given to CC_ANALYZER_BIN!";
      Log LvlInfo usage_hint],
     inr (SystemExit 1)).
Proof. vm_compute. reflexivity. Qed.

Example override_second_entry_bad_exits :
  outcome (get_context
             (Sample.world (Some "clang:/usr/bin/clang;cppcheck:/bad/path")
                false 20 None))
  = inr (SystemExit 1)
  /\ List.filter is_error_event
       (events (get_context
                  (Sample.world
                     (Some "clang:/usr/bin/clang;cppcheck:/bad/path")
                     false 20 None)))
     = [Log LvlError
          "'/bad/path' is not a path to an analyzer binary given to CC_ANALYZER_BIN!"].
Proof. split; vm_compute; reflexivity. Qed.

Lemma override_entries_all_scanned_witness :
  List.filter is_error_event
    (events (__parse_CC_ANALYZER_BIN
               (Sample.world (Some "clang:/usr/bin/clang;cppcheck:/bad/path")
                  false 20 None)
               (Sample.with_analyzer_env
                  (Some "clang:/usr/bin/clang;cppcheck:/bad/path")
                  Sample.fresh)))
  = [Log LvlError
       "'/bad/path' is not a path to an analyzer binary given to CC_ANALYZER_BIN!"]
  /\ outcome (__parse_CC_ANALYZER_BIN
               (Sample.world (Some "clang:/usr/bin/clang;cppcheck:/bad/path")
                  false 20 None)
               (Sample.with_analyzer_env
                  (Some "clang:/usr/bin/clang;cppcheck:/bad/path")
                  Sample.fresh))
     = inr (SystemExit 1).
Proof.
  assert (H := override_entries_all_scanned
                 (Sample.world
                    (Some "clang:/usr/bin/clang;cppcheck:/bad/path")
                    false 20 None)
                 (Sample.with_analyzer_env
                    (Some "clang:/usr/bin/clang;cppcheck:/bad/path")
                    Sample.fresh)
                 (Sample.os_environ
                    (Some "clang:/usr/bin/clang;cppcheck:/bad/path"))
                 "clang:/usr/bin/clang;cppcheck:/bad/path"
                 eq_refl ltac:(vm_compute; reflexivity)).
  destruct H as (_ & H2 & H3). split.
  - rewrite H2. vm_compute. reflexivity.
  - rewrite H3. vm_compute. reflexivity.
Defined.

(** The same two entries in the other order: the entry for clang is well
    formed and names an existing file, yet it is neither announced nor
    recorded, because the entry before it failed. *)
Lemma later_entry_is_not_accepted :
  entry_ok
    (Sample.world (Some "cppcheck:/bad/path;clang:/usr/bin/clang")
       false 20 None)
    "clang:/usr/bin/clang" = true
  /\ __parse_CC_ANALYZER_BIN
       (Sample.world (Some "cppcheck:/bad/path;clang:/usr/bin/clang")
          false 20 None)
       (Sample.with_analyzer_env
          (Some "cppcheck:/bad/path;clang:/usr/bin/clang") Sample.fresh)
     = ([Log LvlError
           "'/bad/path' is not a path to an analyzer binary given to CC_ANALYZER_BIN!";
         Log LvlInfo usage_hint],
        inr (SystemExit 1))
  /\ ~ In (Log LvlInfo "Using '/usr/bin/clang' for analyzer 'clang'")
         (events
            (__parse_CC_ANALYZER_BIN
               (Sample.world (Some "cppcheck:/bad/path;clang:/usr/bin/clang")
                  false 20 None)
               (Sample.with_analyzer_env
                  (Some "cppcheck:/bad/path;clang:/usr/bin/clang")
                  Sample.fresh))).
Proof.
  split; [vm_compute; reflexivity|]. split; [vm_compute; reflexivity|].
  vm_compute. intros [H|[H|[]]]; discriminate.
Qed.

(** ** Construction: [__init__] and [get_context] *)

(** [__init_env] only fills in the logger fields. *)
Lemma init_env_inv (w : World) (self self' : Context) :
  outcome (__init_env w self) = inl self' ->
  __analyzer_env self' = __analyzer_env self
  /\ __analyzers self' = __analyzers self
  /\ pckg_layout self' = pckg_layout self
  /\ _data_files_dir_path self' = _data_files_dir_path self.
Proof.
  unfold __init_env. intros H.
  peel H k1 H1. peel H b1 Hb1. peel H k2 H2. peel H b2 Hb2.
  peel H k3 H3. peel H b3 Hb3. peel H k4 H4. peel H b4 Hb4. peel H k5 H5.
  simpl in H. by injection H as <-.
Qed.

(** Before the binaries are resolved the analyzer table is empty and no
    extended environment has been computed. *)
Lemma init_until_version_inv (w : World) (self : Context) :
  outcome (init_until_version w) = inl self ->
  __analyzer_env self = None /\ __analyzers self = ∅.
Proof.
  intros H. unfold init_until_version in H.
  peel H cfg Hcfg. peel H ev Hev. peel H lcfg Hlcfg. peel H lay Hlay.
  peel H u Hu. peel H self1 H1.
  apply init_env_inv in H1 as (Henv1 & Han1 & _).
  apply set_version_inv in H
    as (? & ? & ? & ? & ? & ? & ? & ? & ? & _ & _ & _ & _ & _ & _ & _ & _
        & _ & _ & _ & Henv2 & Han2 & _).
  cbn [__analyzer_env __analyzers] in Henv1, Han1.
  split; congruence.
Qed.

(** [get_context] returns exactly when [__init__] does. *)
Lemma get_context_returns (w : World) (ctx : Context) :
  outcome (get_context w) = inl ctx <-> outcome (__init__ w) = inl ctx.
Proof.
  unfold get_context, try_except.
  destruct (__init__ w) as [l [c|e]]; [done|].
  destruct e; simpl; split; discriminate.
Qed.

(** It turns a [ValueError] into a logged error and exit status 1. *)
Lemma get_context_value_error (w : World) (l : list event) (msg : string) :
  __init__ w = (l, inr (ValueError msg)) ->
  get_context w = ((l ++ [Log LvlError msg])%list, inr (SystemExit 1)).
Proof. unfold get_context, try_except. by intros ->. Qed.

(** A [KeyError] gives a stack trace instead, and the same exit status. *)
Lemma get_context_key_error (w : World) (l : list event) (key : string) :
  __init__ w = (l, inr (KeyError key)) ->
  get_context w = ((l ++ [PrintExc (KeyError key)])%list, inr (SystemExit 1)).
Proof. unfold get_context, try_except. by intros ->. Qed.

(** Every other exception passes through [get_context] as it is. *)
Lemma get_context_passes (w : World) (l : list event) (e : exn) :
  (forall key, e <> KeyError key) ->
  (forall msg, e <> ValueError msg) ->
  __init__ w = (l, inr e) ->
  get_context w = (l, inr e).
Proof.
  unfold get_context, try_except. intros Hk Hv ->.
  destruct e; try reflexivity; [by destruct (Hk key) | by destruct (Hv msg)].
Qed.

(** The membership test of [__parse_CC_ANALYZER_BIN] on an unset
    environment. *)
Lemma parse_override_without_env (w : World) (self : Context) :
  __analyzer_env self = None ->
  __parse_CC_ANALYZER_BIN w self = raise TypeError.
Proof. unfold __parse_CC_ANALYZER_BIN. by intros ->. Qed.

(** C2. In PATH-discovery mode [__populate_analyzers] does not compute the
    extended environment, so the cached one stays unset as [__init__] left
    it, and the membership test of [__parse_CC_ANALYZER_BIN] raises a type
    error at once.  Construction therefore never returns a context: when
    the steps before it go through, [__init__] ends with that type error,
    and a type error is none of the exceptions [get_context] handles, so
    it leaves [get_context] as it entered. *)
Theorem path_mode_construction_fails (w : World) :
  is_analyzer_from_path w = true ->
  (forall self, __analyzer_env self = None ->
     __parse_CC_ANALYZER_BIN w self = raise TypeError
     /\ __populate_analyzers w self = raise TypeError)
  /\ (forall l self, init_until_version w = (l, inl self) ->
      __analyzer_env self = None
      /\ __init__ w = (l, inr TypeError)
      /\ get_context w = (l, inr TypeError))
  /\ (forall ctx, outcome (__init__ w) <> inl ctx)
  /\ (forall ctx, outcome (get_context w) <> inl ctx)
  /\ (forall l, __init__ w = (l, inr TypeError) ->
      get_context w = (l, inr TypeError)).
Proof.
  intros Hmode.
  assert (Hpop : forall self, __analyzer_env self = None ->
                   __populate_analyzers w self = raise TypeError).
  { intros self Henv. unfold __populate_analyzers.
    rewrite Hmode, bind_ret_l, (parse_override_without_env _ _ Henv).
    reflexivity. }
  assert (Hreach : forall l self, init_until_version w = (l, inl self) ->
            __analyzer_env self = None /\ __init__ w = (l, inr TypeError)).
  { intros l self Hpre.
    assert (Henv : __analyzer_env self = None).
    { apply (init_until_version_inv w). by rewrite Hpre. }
    split; [exact Henv|].
    unfold __init__. rewrite Hpre. unfold bind at 1.
    rewrite (Hpop _ Henv). simpl. by rewrite app_nil_r. }
  assert (Hinit : forall ctx, outcome (__init__ w) <> inl ctx).
  { intros ctx H. unfold __init__ in H.
    peel H self1 H1. peel H self2 H2.
    apply init_until_version_inv in H1 as [Henv _].
    rewrite (Hpop _ Henv) in H2. discriminate. }
  split; [|split; [|split; [|split]]].
  - intros self Henv. split; [by apply parse_override_without_env | auto].
  - intros l self Hpre. destruct (Hreach l self Hpre) as [Henv Hrun].
    split; [exact Henv|]. split; [exact Hrun|].
    by apply get_context_passes.
  - exact Hinit.
  - intros ctx H. apply get_context_returns in H. by apply Hinit in H.
  - intros l H. by apply get_context_passes.
Qed.

Lemma path_mode_construction_fails_witness :
  __populate_analyzers (Sample.world None true 20 None) Sample.fresh
  = raise TypeError
  /\ get_context (Sample.world None true 20 None)
     = (events (__init__ (Sample.world None true 20 None)), inr TypeError).
Proof.
  destruct (path_mode_construction_fails (Sample.world None true 20 None)
              eq_refl) as (Hpop & _ & _ & _ & Hget).
  split.
  - exact (proj2 (Hpop Sample.fresh eq_refl)).
  - apply Hget. vm_compute. reflexivity.
Defined.

(** The whole run in that mode: the two configuration files are read, then
    the type error leaves [get_context]; no exit status is set by it. *)
Example path_mode_run :
  get_context (Sample.world None true 20 None)
  = ([Log LvlDebug "Reading config: /opt/cc/config/config.json";
      LogValue LvlDebug Sample.config_json;
      Log LvlDebug "Reading config: /opt/cc/config/package_layout.json"],
     inr TypeError).
Proof. vm_compute. reflexivity. Qed.

Lemma get_package_config_missing (w : World) (self : Context) :
  truthy (load_json w (posixpath.join (_data_files_dir_path self)
                         ["config"; "config.json"])) = false ->
  __get_package_config w self
  = ([Log LvlDebug
        ("Reading config: "
         ++ posixpath.join (_data_files_dir_path self)
              ["config"; "config.json"])],
     inr (ValueError
            ("No configuration file '"
             ++ posixpath.join (_data_files_dir_path self)
                  ["config"; "config.json"]
             ++ "' can be found or it is empty!"))).
Proof. unfold __get_package_config. intros ->. reflexivity. Qed.

Lemma get_package_config_loaded (w : World) (self : Context) :
  truthy (load_json w (posixpath.join (_data_files_dir_path self)
                         ["config"; "config.json"])) = true ->
  __get_package_config w self
  = ([Log LvlDebug
        ("Reading config: "
         ++ posixpath.join (_data_files_dir_path self)
              ["config"; "config.json"]);
      LogValue LvlDebug
        (load_json w (posixpath.join (_data_files_dir_path self)
                        ["config"; "config.json"]))],
     inl (load_json w (posixpath.join (_data_files_dir_path self)
                         ["config"; "config.json"]))).
Proof. unfold __get_package_config. intros ->. reflexivity. Qed.

Lemma get_package_layout_missing (w : World) (self : Context) :
  truthy (load_json w (posixpath.join (_data_files_dir_path self)
                         ["config"; "package_layout.json"])) = false ->
  __get_package_layout w self
  = ([Log LvlDebug
        ("Reading config: "
         ++ posixpath.join (_data_files_dir_path self)
              ["config"; "package_layout.json"])],
     inr (ValueError
            ("No configuration file '"
             ++ posixpath.join (_data_files_dir_path self)
                  ["config"; "package_layout.json"]
             ++ "' can be found or it is empty!"))).
Proof. unfold __get_package_layout. intros ->. reflexivity. Qed.

(** C9 (as amended). If the general package configuration is missing or
    loads empty, construction raises a value error whose message names
    that file; if it loads with its [environment_variables] entry and the
    package layout is missing or loads empty, construction raises a value
    error whose message names the layout file.  In both cases
    [get_context] logs the message as an error and exits with status 1,
    and no context is returned. *)
Theorem missing_configuration_is_fatal (w : World) :
  let data := environ_get_default w "CC_DATA_FILES_DIR" in
  let config := posixpath.join data ["config"; "config.json"] in
  let layout := posixpath.join data ["config"; "package_layout.json"] in
  let missing := fun file =>
    "No configuration file '" ++ file ++ "' can be found or it is empty!" in
  (truthy (load_json w config) = false ->
   __init__ w
   = ([Log LvlDebug ("Reading config: " ++ config)],
      inr (ValueError (missing config)))
   /\ get_context w
      = ([Log LvlDebug ("Reading config: " ++ config);
          Log LvlError (missing config)],
         inr (SystemExit 1)))
  /\ (forall citems ev,
        load_json w config = JObj citems ->
        assoc "environment_variables" citems = Some ev ->
        truthy (load_json w layout) = false ->
        __init__ w
        = ([Log LvlDebug ("Reading config: " ++ config);
            LogValue LvlDebug (JObj citems);
            Log LvlDebug ("Reading config: " ++ layout)],
           inr (ValueError (missing layout)))
        /\ get_context w
           = ([Log LvlDebug ("Reading config: " ++ config);
               LogValue LvlDebug (JObj citems);
               Log LvlDebug ("Reading config: " ++ layout);
               Log LvlError (missing layout)],
              inr (SystemExit 1))).
Proof.
  intros data config layout missing. split.
  - intros Hc.
    assert (Hinit : __init__ w
                    = ([Log LvlDebug ("Reading config: " ++ config)],
                       inr (ValueError (missing config)))).
    { unfold __init__, init_until_version.
      rewrite get_package_config_missing by exact Hc. reflexivity. }
    split; [exact Hinit|]. by rewrite (get_context_value_error _ _ _ Hinit).
  - intros citems ev Hc Hev Hl.
    assert (Hinit : __init__ w
                    = ([Log LvlDebug ("Reading config: " ++ config);
                        LogValue LvlDebug (JObj citems);
                        Log LvlDebug ("Reading config: " ++ layout)],
                       inr (ValueError (missing layout)))).
    { assert (Hpre : init_until_version w
                     = ([Log LvlDebug ("Reading config: " ++ config);
                         LogValue LvlDebug (JObj citems);
                         Log LvlDebug ("Reading config: " ++ layout)],
                        inr (ValueError (missing layout)))).
      { unfold init_until_version. rewrite get_package_config_loaded.
        2:{ cbn [_data_files_dir_path]. fold data. fold config. rewrite Hc.
            simpl. destruct citems; [discriminate|done]. }
        cbn [_data_files_dir_path]. fold data. fold config. rewrite Hc.
        unfold bind at 1. rewrite (getitem_obj _ _ _ Hev), bind_ret_l.
        rewrite get_package_layout_missing by exact Hl. reflexivity. }
      unfold __init__. by rewrite Hpre. }
    split; [exact Hinit|]. by rewrite (get_context_value_error _ _ _ Hinit).
Qed.

Lemma missing_configuration_is_fatal_witness :
  get_context (Sample.with_files Sample.no_layout Sample.plain)
  = ([Log LvlDebug "Reading config: /opt/cc/config/config.json";
      LogValue LvlDebug Sample.config_json;
      Log LvlDebug "Reading config: /opt/cc/config/package_layout.json";
      Log LvlError
        "No configuration file '/opt/cc/config/package_layout.json' can be found or it is empty!"],
     inr (SystemExit 1)).
Proof.
  refine (proj2 (proj2 (missing_configuration_is_fatal
                          (Sample.with_files Sample.no_layout Sample.plain))
                   _ _ _ _ _));
    vm_compute; reflexivity.
Defined.

(** A general configuration that loads without its [environment_variables]
    entry, with the package layout file missing: construction stops at the
    key lookup, before the layout is read.  No value error is raised and
    no message names the layout file; [get_context] prints the stack trace
    of the key error and exits. *)
Lemma missing_layout_behind_key_error :
  truthy (load_json
            (Sample.with_files Sample.no_env_vars_no_layout Sample.plain)
            "/opt/cc/config/package_layout.json") = false
  /\ __init__ (Sample.with_files Sample.no_env_vars_no_layout Sample.plain)
     = ([Log LvlDebug "Reading config: /opt/cc/config/config.json";
         LogValue LvlDebug (JObj [("version", JNum 1)])],
        inr (KeyError "environment_variables"))
  /\ get_context (Sample.with_files Sample.no_env_vars_no_layout Sample.plain)
     = ([Log LvlDebug "Reading config: /opt/cc/config/config.json";
         LogValue LvlDebug (JObj [("version", JNum 1)]);
         PrintExc (KeyError "environment_variables")],
        inr (SystemExit 1)).
Proof.
  split; [vm_compute; reflexivity|].
  split; vm_compute; reflexivity.
Qed.

(** ** Analyzer binaries: one round of the loop of [__populate_analyzers] *)

Section ResolveOne.

Variable w : World.
Variable analyzer_from_path : bool.
Variable analyzer_env : option (gmap string string).
Variable env_var_bin : gmap string string.

Lemma resolve_overridden (self : Context) (name path : string) (value : json) :
  env_var_bin !! name = Some path ->
  populate_analyzer w analyzer_from_path analyzer_env env_var_bin self
    (name, value)
  = ret (setitem_analyzers name path self).
Proof. unfold populate_analyzer. by intros ->. Qed.

Lemma resolve_package_relative (self : Context) (name value : string) :
  env_var_bin !! name = None ->
  Str.nonempty (posixpath.dirname (looked_up analyzer_from_path value)) = true ->
  populate_analyzer w analyzer_from_path analyzer_env env_var_bin self
    (name, JStr value)
  = ret (setitem_analyzers name
           (posixpath.join (_data_files_dir_path self) [looked_up analyzer_from_path value])
           self).
Proof.
  unfold populate_analyzer, looked_up. intros -> Hdir.
  cbn [as_str]. rewrite bind_ret_l. cbv zeta. by rewrite Hdir.
Qed.

Lemma resolve_not_found (self : Context) (name value : string)
    (env_path : option string) :
  env_var_bin !! name = None ->
  Str.nonempty (posixpath.dirname (looked_up analyzer_from_path value)) = false ->
  env_path_of analyzer_env = ret env_path ->
  not_located (find_executable w (looked_up analyzer_from_path value) env_path) ->
  populate_analyzer w analyzer_from_path analyzer_env env_var_bin self
    (name, JStr value)
  = ([Log LvlDebug (not_found_msg (looked_up analyzer_from_path value))], inl self).
Proof.
  unfold populate_analyzer, looked_up. intros -> Hdir Hpath Hfound.
  cbn [as_str]. rewrite bind_ret_l. cbv zeta. rewrite Hdir, Hpath, bind_ret_l.
  by destruct Hfound as [-> | ->].
Qed.

Lemma resolve_found (self : Context) (name value : string)
    (env_path : option string) (located : string) :
  env_var_bin !! name = None ->
  Str.nonempty (posixpath.dirname (looked_up analyzer_from_path value)) = false ->
  env_path_of analyzer_env = ret env_path ->
  find_executable w (looked_up analyzer_from_path value) env_path = Some located ->
  located <> EmptyString ->
  populate_analyzer w analyzer_from_path analyzer_env env_var_bin self
    (name, JStr value)
  = ret (setitem_analyzers name
           (if Str.endswith (realpath w located) "/ccache" then located
            else realpath w located)
           self).
Proof.
  unfold populate_analyzer, looked_up. intros -> Hdir Hpath Hfound Hne.
  cbn [as_str]. rewrite bind_ret_l. cbv zeta.
  rewrite Hdir, Hpath, bind_ret_l, Hfound.
  destruct located as [|c r]; [done|].
  unfold getitem_analyzers, setitem_analyzers at 1. cbn [__analyzers set_analyzers].
  rewrite lookup_insert_eq, bind_ret_l.
  destruct (Str.endswith (realpath w (String c r)) "/ccache"); [|done].
  unfold setitem_analyzers, set_analyzers. cbn [__analyzers].
  by rewrite insert_insert_eq.
Qed.

(** A round that returns has stored at most one entry, under its own
    name, and touched nothing else. *)
Lemma resolve_one_inv (self self' : Context) (name : string) (value : json) :
  outcome (populate_analyzer w analyzer_from_path analyzer_env env_var_bin
             self (name, value)) = inl self' ->
  self' = self \/ exists path, self' = setitem_analyzers name path self.
Proof.
  unfold populate_analyzer.
  destruct (env_var_bin !! name) as [p|].
  { simpl. intros [= <-]. eauto. }
  intros H. peel H v Hv. cbv zeta in H.
  destruct (Str.nonempty _).
  { simpl in H. injection H as <-. eauto. }
  peel H ep Hep.
  destruct (find_executable w _ ep) as [[|c r]|].
  - simpl in H. injection H as <-. by left.
  - peel H stored Hs.
    destruct (Str.endswith stored "/ccache"); simpl in H; injection H as <-.
    + right. eexists. unfold setitem_analyzers, set_analyzers.
      cbn [__analyzers]. by rewrite insert_insert_eq.
    + eauto.
  - simpl in H. injection H as <-. by left.
Qed.

End ResolveOne.

(** ** Analyzer binaries: the loop of [__populate_analyzers] *)

Section ResolveAll.

Variable w : World.
Variable analyzer_from_path : bool.
Variable analyzer_env : option (gmap string string).
Variable env_var_bin : gmap string string.

Local Abbreviation step :=
  (populate_analyzer w analyzer_from_path analyzer_env env_var_bin).

Lemma resolve_one_frame (self self' : Context) (name : string) (value : json) :
  outcome (step self (name, value)) = inl self' ->
  same_settings self' self
  /\ forall k, k <> name -> __analyzers self' !! k = __analyzers self !! k.
Proof.
  intros H. apply resolve_one_inv in H as [-> | [path ->]]; [done|].
  split; [done|]. intros k Hk. unfold setitem_analyzers, set_analyzers.
  cbn [__analyzers]. by rewrite lookup_insert_ne.
Qed.

(** The loop leaves alone every name that is not among its items. *)
Lemma resolve_all_frame (items : list (string * json)) :
  forall self self',
    outcome (for_each step items self) = inl self' ->
    same_settings self' self
    /\ forall k, ~ In k (map fst items) ->
                 __analyzers self' !! k = __analyzers self !! k.
Proof.
  induction items as [|[n v] rest IH]; intros self self' H.
  - simpl in H. by injection H as <-.
  - cbn [for_each] in H. peel H s Hs.
    apply resolve_one_frame in Hs as ((Hd & Hl & He) & Hk).
    apply IH in H as ((Hd' & Hl' & He') & Hk').
    split; [repeat split; congruence|].
    intros k Hnot. cbn [map fst In] in Hnot.
    rewrite Hk' by tauto. apply Hk. intros ->. tauto.
Qed.

(** With distinct names, the entry under a name is the one the round of
    that name left. *)
Lemma resolve_all_at (items : list (string * json)) (name : string)
    (value : json) :
  NoDup (map fst items) ->
  In (name, value) items ->
  forall self self',
    outcome (for_each step items self) = inl self' ->
    exists s1 s2,
      outcome (step s1 (name, value)) = inl s2
      /\ same_settings s1 self
      /\ __analyzers s1 !! name = __analyzers self !! name
      /\ __analyzers self' !! name = __analyzers s2 !! name.
Proof.
  induction items as [|[n v] rest IH]; intros Hnd Hin self self' H; [done|].
  cbn [map fst] in Hnd. apply NoDup_cons in Hnd as [Hn Hnd].
  cbn [for_each] in H. peel H s Hs.
  destruct Hin as [[= -> ->] | Hin].
  - exists self, s. split; [done|]. split; [done|]. split; [done|].
    apply resolve_all_frame in H as [_ Hk]. apply Hk.
    by rewrite <- list_elem_of_In.
  - destruct (IH Hnd Hin s self' H) as (s1 & s2 & Hstep & Hsame & H1 & H2).
    apply resolve_one_frame in Hs as ((Hd & Hl & He) & Hk).
    exists s1, s2. split; [done|].
    destruct Hsame as (Hd' & Hl' & He').
    split; [repeat split; congruence|]. split; [|done].
    rewrite H1. apply Hk. intros ->. apply Hn.
    rewrite list_elem_of_In. apply (in_map fst _ _ Hin).
Qed.

End ResolveAll.

(** ** Analyzer binaries: [__populate_analyzers] inside the construction *)

Lemma env_path_of_run (a : option (gmap string string)) (p : option string) :
  outcome (env_path_of a) = inl p ->
  env_path_of a = ret p
  /\ p = match a with Some e => search_path e | None => None end.
Proof.
  unfold env_path_of, search_path. destruct a as [e|]; [|by intros [= <-]].
  destruct (env_truthy e); [|by intros [= <-]].
  destruct (e !! "PATH"); [by intros [= <-] | discriminate].
Qed.

(** A name in the parsed override map comes from an entry of the
    variable. *)
Lemma fold_record_lookup (w : World) (entries : list string) :
  forall (bins : gmap string string) (name path : string),
    fold_left (entry_record w) entries bins !! name = Some path ->
    bins !! name = Some path
    \/ exists entry path',
         In entry entries /\ analyzer_binary w entry = inl (name, path').
Proof.
  induction entries as [|entry rest IH]; intros bins name path H; [by left|].
  cbn [fold_left] in H. apply IH in H as [H | (en & p' & Hin & Hb)].
  - unfold entry_record in H.
    destruct (analyzer_binary w entry) as [[n p]|msg] eqn:Hb; [|by left].
    destruct (decide (n = name)) as [->|Hne].
    + right. exists entry, p. split; [by left | done].
    + left. by rewrite lookup_insert_ne in H.
  - right. exists en, p'. split; [by right | done].
Qed.

Lemma parse_override_names (w : World) (self : Context)
    (e bins : gmap string string) (name path : string) :
  __analyzer_env self = Some e ->
  outcome (__parse_CC_ANALYZER_BIN w self) = inl bins ->
  bins !! name = Some path ->
  overridden w e name.
Proof.
  intros He Hrun Hlook. destruct (e !! "CC_ANALYZER_BIN") as [v|] eqn:Hv.
  - rewrite (parse_override_run w self e v He Hv) in Hrun. simpl in Hrun.
    destruct (forallb (entry_ok w) (Str.split ";" v)); [|discriminate].
    injection Hrun as <-.
    apply fold_record_lookup in Hlook as [Hlook | (en & p' & Hin & Hb)].
    + by rewrite lookup_empty in Hlook.
    + by exists v, en, p'.
  - unfold __parse_CC_ANALYZER_BIN in Hrun. rewrite He, Hv in Hrun.
    simpl in Hrun. injection Hrun as <-. by rewrite lookup_empty in Hlook.
Qed.

(** What a returning [__populate_analyzers] has done, from the state
    [__init__] gives it. *)
Lemma populate_analyzers_inv (w : World) (self self' : Context) :
  __analyzer_env self = None ->
  outcome (__populate_analyzers w self) = inl self' ->
  is_analyzer_from_path w = false
  /\ exists e bins L items,
      __analyzer_env self' = Some e
      /\ (forall name path, bins !! name = Some path -> overridden w e name)
      /\ pckg_layout self = JObj L
      /\ assoc "analyzers" L = Some (JObj items)
      /\ outcome (for_each (populate_analyzer w false (Some e) bins) items
                    (set_analyzer_env (Some e) self)) = inl self'.
Proof.
  intros Henv H. unfold __populate_analyzers in H.
  destruct (is_analyzer_from_path w) eqn:Hmode.
  { rewrite bind_ret_l, (parse_override_without_env _ _ Henv) in H.
    discriminate. }
  split; [done|].
  peel H r Hr. destruct r as [self1 aenv].
  peel Hr r' Hr'. destruct r' as [s1 e1]. simpl in Hr.
  assert (self1 = s1 /\ aenv = Some e1) as [-> ->] by (by inversion Hr).
  clear Hr.
  unfold analyzer_env in Hr'. rewrite Henv in Hr'.
  peel Hr' p Hp. peel Hr' l Hl. simpl in Hr'. injection Hr' as <- <-.
  cbn [fst snd] in H.
  peel H bins Hbins. peel H cb Hcb. peel H items Hitems.
  cbn [pckg_layout set_analyzer_env] in Hcb.
  destruct (pckg_layout self) as [| | | | |L] eqn:HL; try discriminate.
  simpl in Hcb. injection Hcb as <-.
  destruct (assoc "analyzers" L) as [[| | | | |its]|] eqn:Han;
    try discriminate.
  simpl in Hitems. injection Hitems as <-.
  exists (env_extend w p l), bins, L, its.
  pose proof (resolve_all_frame _ _ _ _ _ _ _ H) as [(_ & _ & He) _].
  split; [exact He|]. split; [|done].
  intros name path. by apply parse_override_names with (self := set_analyzer_env (Some (env_extend w p l)) self).
Qed.

(** [__populate_replacer] only sets the replacer. *)
Lemma populate_replacer_inv (w : World) (self self' : Context) :
  outcome (__populate_replacer w self) = inl self' ->
  exists r, self' = set_replacer r self.
Proof.
  unfold __populate_replacer. intros H. peel H rb Hrb. peel H v Hv.
  destruct (Str.nonempty _); simpl in H; injection H as <-; eauto.
Qed.

(** A context that [__init__] returns was built outside PATH-discovery
    mode; its analyzer table is what the loop of [__populate_analyzers]
    made of the layout, starting from an empty table. *)
Lemma construction_inv (w : World) (ctx : Context) :
  outcome (__init__ w) = inl ctx ->
  is_analyzer_from_path w = false
  /\ exists e bins L items self0 self1,
      __analyzer_env ctx = Some e
      /\ (forall name path, bins !! name = Some path -> overridden w e name)
      /\ pckg_layout ctx = JObj L
      /\ assoc "analyzers" L = Some (JObj items)
      /\ __analyzers self0 = ∅
      /\ same_settings self0 ctx
      /\ outcome (for_each (populate_analyzer w false (Some e) bins) items
                    self0) = inl self1
      /\ __analyzers ctx = __analyzers self1
      /\ outcome (__populate_replacer w self1) = inl ctx.
Proof.
  intros H. unfold __init__ in H.
  peel H self2 H2. peel H self3 H3.
  apply init_until_version_inv in H2 as [Henv Han].
  destruct (populate_analyzers_inv _ _ _ Henv H3)
    as (Hmode & e & bins & L & items & He & Hbins & HL & Hitems & Hloop).
  split; [done|].
  pose proof (populate_replacer_inv _ _ _ H) as [r ->].
  pose proof (resolve_all_frame _ _ _ _ _ _ _ Hloop) as [(Hd & Hl & _) _].
  exists e, bins, L, items, (set_analyzer_env (Some e) self2), self3.
  cbn [set_replacer __analyzer_env pckg_layout __analyzers
         _data_files_dir_path set_analyzer_env] in *.
  repeat split; try done; congruence.
Qed.

(** The round of an analyzer of the layout, as it ran inside a
    construction that returned: it started with no entry under the name,
    and the context holds what it left there. *)
Lemma construction_round (w : World) (ctx : Context)
    (L items : list (string * json)) (name : string) (value : json) :
  outcome (get_context w) = inl ctx ->
  pckg_layout ctx = JObj L ->
  assoc "analyzers" L = Some (JObj items) ->
  NoDup (map fst items) ->
  In (name, value) items ->
  exists e bins s1 s2,
    __analyzer_env ctx = Some e
    /\ (forall path, bins !! name = Some path -> overridden w e name)
    /\ _data_files_dir_path s1 = _data_files_dir_path ctx
    /\ __analyzers s1 !! name = None
    /\ outcome (populate_analyzer w false (Some e) bins s1 (name, value))
       = inl s2
    /\ analyzer_binaries ctx !! name = __analyzers s2 !! name.
Proof.
  intros H HL Hitems Hnd Hin. apply get_context_returns in H.
  destruct (construction_inv _ _ H)
    as (_ & e & bins & L' & items' & self0 & self1 & He & Hbins & HL'
        & Hitems' & Hempty & (Hd & _ & _) & Hloop & Han & _).
  rewrite HL in HL'. injection HL' as <-.
  rewrite Hitems in Hitems'. injection Hitems' as <-.
  destruct (resolve_all_at _ _ _ _ _ _ _ Hnd Hin _ _ Hloop)
    as (s1 & s2 & Hstep & (Hd1 & _ & _) & H1 & H2).
  exists e, bins, s1, s2. repeat split; try done.
  - intros path. apply Hbins.
  - congruence.
  - by rewrite H1, Hempty, lookup_empty.
  - unfold analyzer_binaries. by rewrite Han.
Qed.

(** C5 (as amended). For every analyzer that no entry of [CC_ANALYZER_BIN]
    names and whose configured layout value contains a directory
    component, the path stored in the analyzer mapping is the join of the
    data-files root and that value.  The round that stores it returns the
    same in every world: it looks at no file and searches no PATH. *)
Theorem package_relative_analyzer_path (w : World) (ctx : Context)
    (L items : list (string * json)) (name value : string)
    (e : gmap string string) :
  outcome (get_context w) = inl ctx ->
  pckg_layout ctx = JObj L ->
  assoc "analyzers" L = Some (JObj items) ->
  NoDup (map fst items) ->
  In (name, JStr value) items ->
  Str.nonempty (posixpath.dirname value) = true ->
  __analyzer_env ctx = Some e ->
  ~ overridden w e name ->
  analyzer_binaries ctx !! name
  = Some (posixpath.join (_data_files_dir_path ctx) [value])
  /\ forall (w' : World) (analyzer_env : option (gmap string string))
       (bins : gmap string string) (self : Context),
      bins !! name = None ->
      populate_analyzer w' false analyzer_env bins self (name, JStr value)
      = ret (setitem_analyzers name
               (posixpath.join (_data_files_dir_path self) [value]) self).
Proof.
  intros H HL Hitems Hnd Hin Hdir He Hno. split.
  - destruct (construction_round _ _ _ _ _ _ H HL Hitems Hnd Hin)
      as (e' & bins & s1 & s2 & He' & Hbins & Hd & _ & Hstep & ->).
    rewrite He in He'. injection He' as <-.
    assert (Hfree : bins !! name = None).
    { destruct (bins !! name) as [p|] eqn:Hp; [|done].
      destruct Hno. by apply (Hbins p). }
    rewrite (resolve_package_relative w false (Some e) bins s1 name value
               Hfree Hdir) in Hstep.
    simpl in Hstep. injection Hstep as <-.
    unfold setitem_analyzers, set_analyzers, looked_up. cbn [__analyzers].
    by rewrite lookup_insert_eq, Hd.
  - intros w' aenv bins self Hfree.
    exact (resolve_package_relative w' false aenv bins self name value
             Hfree Hdir).
Qed.

(** The analyzer [infer] of the sample layout, with no override. *)
Lemma package_relative_analyzer_path_witness :
  outcome (get_context Sample.plain) = inl (Sample.built Sample.plain)
  /\ analyzer_binaries (Sample.built Sample.plain) !! "infer"
     = Some "/opt/cc/tools/infer".
Proof.
  assert (H : outcome (get_context Sample.plain)
              = inl (Sample.built Sample.plain))
    by (vm_compute; reflexivity).
  split; [exact H|].
  refine (eq_trans
            (proj1 (package_relative_analyzer_path Sample.plain
                      (Sample.built Sample.plain)
                      _ [("clangsa", JStr "clang");
                         ("clang-tidy", JStr "clang-tidy");
                         ("infer", JStr "tools/infer"); ("gcc", JStr "gcc")]
                      "infer" "tools/infer" Sample.base_environ
                      H _ _ _ _ _ _ _)) _).
  - vm_compute. reflexivity.
  - vm_compute. reflexivity.
  - repeat constructor; rewrite ?elem_of_cons, ?elem_of_nil;
      intuition discriminate.
  - right. right. left. reflexivity.
  - vm_compute. reflexivity.
  - vm_compute. reflexivity.
  - intros (v & entry & path & Hv & _). vm_compute in Hv. discriminate.
  - vm_compute. reflexivity.
Defined.

(** With [CC_ANALYZER_BIN] naming the analyzer, the layout value
    [tools/infer] is not used: the mapping holds the path of the override. *)
Lemma package_relative_path_overridden :
  outcome (get_context
             (Sample.world (Some "infer:/opt/infer/bin/infer") false 20 None))
  = inl (Sample.built
           (Sample.world (Some "infer:/opt/infer/bin/infer") false 20 None))
  /\ analyzer_binaries
       (Sample.built
          (Sample.world (Some "infer:/opt/infer/bin/infer") false 20 None))
     !! "infer" = Some "/opt/infer/bin/infer"
  /\ posixpath.join
       (_data_files_dir_path
          (Sample.built
             (Sample.world (Some "infer:/opt/infer/bin/infer")
                false 20 None)))
       ["tools/infer"] = "/opt/cc/tools/infer".
Proof.
  split; [vm_compute; reflexivity|].
  split; vm_compute; reflexivity.
Qed.

(** C6 (as amended). Take an analyzer that no entry of [CC_ANALYZER_BIN]
    names and whose configured layout value is a bare executable name, and
    an extended environment in which the PATH search can be made (it has a
    [PATH], or is empty) and does not locate the name.  Then the round of
    the loop for it logs the failure at debug level, raises nothing and
    stores nothing, and the loop goes on with the analyzers after it from
    the same object; and the name is absent from the analyzer mapping of
    the context that construction returns. *)
Theorem analyzer_not_on_path_is_skipped (w : World)
    (e : gmap string string) (env_path : option string)
    (name value : string) :
  Str.nonempty (posixpath.dirname value) = false ->
  env_path_of (Some e) = ret env_path ->
  not_located (find_executable w value env_path) ->
  (forall (bins : gmap string string) (self : Context),
      bins !! name = None ->
      populate_analyzer w false (Some e) bins self (name, JStr value)
      = ([Log LvlDebug (not_found_msg value)], inl self))
  /\ (forall (bins : gmap string string) (self : Context)
         (after : list (string * json)),
        bins !! name = None ->
        for_each (populate_analyzer w false (Some e) bins)
          ((name, JStr value) :: after) self
        = (Log LvlDebug (not_found_msg value)
             :: events (for_each (populate_analyzer w false (Some e) bins)
                          after self),
           outcome (for_each (populate_analyzer w false (Some e) bins)
                      after self)))
  /\ (forall (ctx : Context) (L items : list (string * json)),
        outcome (get_context w) = inl ctx ->
        pckg_layout ctx = JObj L ->
        assoc "analyzers" L = Some (JObj items) ->
        NoDup (map fst items) ->
        In (name, JStr value) items ->
        __analyzer_env ctx = Some e ->
        ~ overridden w e name ->
        analyzer_binaries ctx !! name = None).
Proof.
  intros Hdir Hpath Hmiss.
  assert (Hround : forall bins self, bins !! name = None ->
            populate_analyzer w false (Some e) bins self (name, JStr value)
            = ([Log LvlDebug (not_found_msg value)], inl self)).
  { intros bins self Hfree.
    exact (resolve_not_found w false (Some e) bins self name value
             env_path Hfree Hdir Hpath Hmiss). }
  split; [exact Hround|]. split.
  - intros bins self after Hfree. cbn [for_each].
    rewrite (Hround bins self Hfree). unfold bind, events, outcome.
    by destruct (for_each _ after self).
  - intros ctx L items H HL Hitems Hnd Hin He Hno.
    destruct (construction_round _ _ _ _ _ _ H HL Hitems Hnd Hin)
      as (e' & bins & s1 & s2 & He' & Hbins & Hd & Hnone & Hstep & Hctx).
    rewrite He in He'. injection He' as <-.
    assert (Hfree : bins !! name = None).
    { destruct (bins !! name) as [p|] eqn:Hp; [|done].
      destruct Hno. by apply (Hbins p). }
    rewrite (Hround bins s1 Hfree) in Hstep. simpl in Hstep.
    injection Hstep as <-. by rewrite Hctx.
Qed.

(** The analyzer [clang-tidy] of the sample layout is on no PATH. *)
Lemma analyzer_not_on_path_is_skipped_witness :
  populate_analyzer Sample.plain false (Some Sample.base_environ) ∅
    Sample.fresh ("clang-tidy", JStr "clang-tidy")
  = ([Log LvlDebug "'clang-tidy' binary can not be found in your PATH!"],
     inl Sample.fresh)
  /\ outcome (get_context Sample.plain) = inl (Sample.built Sample.plain)
  /\ analyzer_binaries (Sample.built Sample.plain) !! "clang-tidy" = None.
Proof.
  assert (H : outcome (get_context Sample.plain)
              = inl (Sample.built Sample.plain))
    by (vm_compute; reflexivity).
  destruct (analyzer_not_on_path_is_skipped Sample.plain
              Sample.base_environ (Some "/usr/bin") "clang-tidy"
              "clang-tidy" eq_refl ltac:(vm_compute; reflexivity)
              (or_introl eq_refl))
    as (Hround & _ & Hctx).
  split; [|split; [exact H|]].
  - apply Hround. reflexivity.
  - refine (Hctx (Sample.built Sample.plain)
              _ [("clangsa", JStr "clang");
                 ("clang-tidy", JStr "clang-tidy");
                 ("infer", JStr "tools/infer"); ("gcc", JStr "gcc")]
              H _ _ _ _ _ _).
    + vm_compute. reflexivity.
    + vm_compute. reflexivity.
    + repeat constructor; rewrite ?elem_of_cons, ?elem_of_nil;
        intuition discriminate.
    + right. left. reflexivity.
    + vm_compute. reflexivity.
    + intros (v & entry & path & Hv & _). vm_compute in Hv. discriminate.
Defined.

(** The run of the specification: the only thing logged for [clang-tidy]
    is the debug message, and [get_context] returns. *)
Example clang_tidy_not_on_path :
  events (get_context Sample.plain)
  = [Log LvlDebug "Reading config: /opt/cc/config/config.json";
     LogValue LvlDebug Sample.config_json;
     Log LvlDebug "Reading config: /opt/cc/config/package_layout.json";
     Log LvlDebug "'clang-tidy' binary can not be found in your PATH!"]
  /\ exists ctx, outcome (get_context Sample.plain) = inl ctx
                 /\ analyzer_binaries ctx !! "clang-tidy" = None.
Proof.
  split; [vm_compute; reflexivity|].
  eexists. split; vm_compute; reflexivity.
Qed.

(** With [CC_ANALYZER_BIN] naming the analyzer, the same layout and the
    same PATH give a mapping that holds the name, and nothing is logged at
    debug level for it. *)
Lemma analyzer_not_on_path_overridden :
  find_executable
    (Sample.world (Some "clang-tidy:/opt/llvm/bin/clang-tidy") false 20 None)
    "clang-tidy" (Some "/usr/bin") = None
  /\ outcome (get_context
               (Sample.world (Some "clang-tidy:/opt/llvm/bin/clang-tidy")
                  false 20 None))
     = inl (Sample.built
              (Sample.world (Some "clang-tidy:/opt/llvm/bin/clang-tidy")
                 false 20 None))
  /\ analyzer_binaries
       (Sample.built
          (Sample.world (Some "clang-tidy:/opt/llvm/bin/clang-tidy")
             false 20 None))
     !! "clang-tidy" = Some "/opt/llvm/bin/clang-tidy"
  /\ ~ In (Log LvlDebug "'clang-tidy' binary can not be found in your PATH!")
         (events (get_context
                    (Sample.world
                       (Some "clang-tidy:/opt/llvm/bin/clang-tidy")
                       false 20 None))).
Proof.
  split; [vm_compute; reflexivity|].
  split; [vm_compute; reflexivity|].
  split; [vm_compute; reflexivity|].
  vm_compute. intuition discriminate.
Qed.

(** ** A path whose file name is [ccache] *)

Lemma cut_last_sep_spec (p : string) :
  p = fst (Str.cut_last_sep p) ++ snd (Str.cut_last_sep p)
  /\ (fst (Str.cut_last_sep p) = ""
      \/ exists h, fst (Str.cut_last_sep p) = h ++ "/").
Proof.
  induction p as [|c r [IH1 IH2]]; [by split; [|left]|].
  cbn [Str.cut_last_sep].
  destruct (Str.cut_last_sep r) as [h t]. cbn [fst snd] in *.
  destruct h as [|c' h'].
  - destruct (Str.is_sep c) eqn:Hc; cbn [fst snd].
    + split; [by rewrite IH1|]. right. exists "".
      unfold Str.is_sep in Hc. apply Ascii.eqb_eq in Hc. by rewrite Hc.
    + split; [by rewrite IH1 | by left].
  - cbn [fst snd]. split; [by rewrite IH1 at 1|].
    right. destruct IH2 as [IH2 | [h IH2]]; [discriminate|].
    exists (String c h). by rewrite IH2.
Qed.

Lemma endswith_app (a s : string) : Str.endswith (a ++ s) s = true.
Proof.
  induction a as [|c a IH].
  - change ("" ++ s) with s. destruct s; cbn [Str.endswith];
      by rewrite String.eqb_refl.
  - change (String c a ++ s) with (String c (a ++ s)).
    cbn [Str.endswith]. rewrite IH. by destruct (String.eqb _ s).
Qed.

Lemma append_assoc (a b c : string) : (a ++ b) ++ c = a ++ (b ++ c).
Proof.
  induction a as [|x a IH]; [done|].
  change (String x ((a ++ b) ++ c) = String x (a ++ (b ++ c))).
  by rewrite IH.
Qed.

(** An absolute path whose last component is [ccache] ends in [/ccache],
    which is what the loop tests. *)
Lemma named_ccache_ends_with (p : string) :
  posixpath.basename p = "ccache" ->
  Str.starts_with_sep p = true ->
  Str.endswith p "/ccache" = true.
Proof.
  unfold posixpath.basename. intros Hb Habs.
  destruct (cut_last_sep_spec p) as [Hp [Hh | [h Hh]]].
  - rewrite Hh, Hb in Hp. subst p. discriminate.
  - rewrite Hh, Hb, append_assoc in Hp. rewrite Hp.
    change ("/" ++ "ccache") with "/ccache". apply endswith_app.
Qed.

(** C4. When the bare name of an analyzer is located and the real path of
    the located binary is named [ccache], the analyzer mapping holds the
    located path, as it was before symbolic links were resolved.  This is
    so for the round of the loop in either discovery mode, and for the
    mapping of the context that construction returns. *)
Theorem ccache_keeps_located_path (w : World) (name value located : string) :
  located <> "" ->
  posixpath.basename (realpath w located) = "ccache" ->
  Str.starts_with_sep (realpath w located) = true ->
  (forall (analyzer_from_path : bool)
     (analyzer_env : option (gmap string string)) (env_path : option string)
     (bins : gmap string string) (self : Context),
      bins !! name = None ->
      Str.nonempty (posixpath.dirname (looked_up analyzer_from_path value))
      = false ->
      env_path_of analyzer_env = ret env_path ->
      find_executable w (looked_up analyzer_from_path value) env_path
      = Some located ->
      populate_analyzer w analyzer_from_path analyzer_env bins self
        (name, JStr value)
      = ret (setitem_analyzers name located self))
  /\ (forall (ctx : Context) (L items : list (string * json))
        (e : gmap string string),
        outcome (get_context w) = inl ctx ->
        pckg_layout ctx = JObj L ->
        assoc "analyzers" L = Some (JObj items) ->
        NoDup (map fst items) ->
        In (name, JStr value) items ->
        Str.nonempty (posixpath.dirname value) = false ->
        __analyzer_env ctx = Some e ->
        ~ overridden w e name ->
        find_executable w value (search_path e) = Some located ->
        analyzer_binaries ctx !! name = Some located).
Proof.
  intros Hne Hbase Habs.
  pose proof (named_ccache_ends_with _ Hbase Habs) as Hcc.
  assert (Hround : forall afp aenv ep bins self,
            bins !! name = None ->
            Str.nonempty (posixpath.dirname (looked_up afp value)) = false ->
            env_path_of aenv = ret ep ->
            find_executable w (looked_up afp value) ep = Some located ->
            populate_analyzer w afp aenv bins self (name, JStr value)
            = ret (setitem_analyzers name located self)).
  { intros afp aenv ep bins self Hfree Hdir Hpath Hfound.
    rewrite (resolve_found w afp aenv bins self name value ep located
               Hfree Hdir Hpath Hfound Hne).
    by rewrite Hcc. }
  split; [exact Hround|].
  intros ctx L items e H HL Hitems Hnd Hin Hdir He Hno Hfound.
  destruct (construction_round _ _ _ _ _ _ H HL Hitems Hnd Hin)
    as (e' & bins & s1 & s2 & He' & Hbins & Hd & Hnone & Hstep & Hctx).
  rewrite He in He'. injection He' as <-.
  assert (Hfree : bins !! name = None).
  { destruct (bins !! name) as [p|] eqn:Hp; [|done].
    destruct Hno. by apply (Hbins p). }
  assert (Hpath : env_path_of (Some e) = ret (search_path e)).
  { unfold populate_analyzer in Hstep. rewrite Hfree in Hstep.
    cbn [as_str] in Hstep. rewrite bind_ret_l in Hstep. cbv zeta in Hstep.
    rewrite Hdir in Hstep. peel Hstep ep Hep.
    by destruct (env_path_of_run _ _ Hep) as [-> ->]. }
  rewrite (Hround false (Some e) (search_path e) bins s1 Hfree Hdir Hpath
             Hfound) in Hstep.
  simpl in Hstep. injection Hstep as <-. rewrite Hctx.
  unfold setitem_analyzers, set_analyzers. cbn [__analyzers].
  by rewrite lookup_insert_eq.
Qed.

(** The case of the specification: [gcc] is found at [/usr/bin/gcc], whose
    real path is [/usr/lib/ccache/bin/ccache]. *)
Lemma ccache_keeps_located_path_witness :
  realpath Sample.plain "/usr/bin/gcc" = "/usr/lib/ccache/bin/ccache"
  /\ outcome (get_context Sample.plain) = inl (Sample.built Sample.plain)
  /\ analyzer_binaries (Sample.built Sample.plain) !! "gcc"
     = Some "/usr/bin/gcc".
Proof.
  split; [reflexivity|].
  assert (H : outcome (get_context Sample.plain)
              = inl (Sample.built Sample.plain))
    by (vm_compute; reflexivity).
  split; [exact H|].
  refine (proj2 (ccache_keeps_located_path Sample.plain "gcc" "gcc"
                   "/usr/bin/gcc" _ _ _)
            (Sample.built Sample.plain)
            _ [("clangsa", JStr "clang");
               ("clang-tidy", JStr "clang-tidy");
               ("infer", JStr "tools/infer"); ("gcc", JStr "gcc")]
            Sample.base_environ H _ _ _ _ _ _ _ _).
  - discriminate.
  - vm_compute. reflexivity.
  - vm_compute. reflexivity.
  - vm_compute. reflexivity.
  - vm_compute. reflexivity.
  - repeat constructor; rewrite ?elem_of_cons, ?elem_of_nil;
      intuition discriminate.
  - right. right. right. left. reflexivity.
  - vm_compute. reflexivity.
  - vm_compute. reflexivity.
  - intros (v & entry & path & Hv & _). vm_compute in Hv. discriminate.
  - vm_compute. reflexivity.
Defined.

(** Without ccache behind it the stored path is the real path. *)
Example clang_is_canonicalized :
  analyzer_binaries (Sample.built Sample.plain) !! "clangsa"
  = Some "/usr/lib/llvm/bin/clang".
Proof. vm_compute. reflexivity. Qed.

(** ** The replacer tool: [__populate_replacer] *)

Lemma populate_replacer_run (w : World) (self : Context)
    (L : list (string * json)) (value : string) :
  pckg_layout self = JObj L ->
  assoc "clang-apply-replacements" L = Some (JStr value) ->
  __populate_replacer w self
  = ret (set_replacer
           (if Str.nonempty (posixpath.dirname value)
            then Some (posixpath.join (_data_files_dir_path self) [value])
            else find_executable w value None)
           self).
Proof.
  intros HL Hv. unfold __populate_replacer. rewrite HL. cbn [dict_get].
  rewrite Hv, bind_ret_l. cbn [as_str]. rewrite bind_ret_l.
  by destruct (Str.nonempty (posixpath.dirname value)).
Qed.

(** C10 (as amended). The replacer is resolved by the same split as an
    analyzer: a value with a directory component is joined to the
    data-files root, as the round of an analyzer with no override joins
    it, and no file is looked at; a bare name is searched with
    [find_executable] on the process's own PATH, never an extended one.
    There is no override.  In the bare-name case the result of the search
    is stored as it is: the located path is not canonicalized and the
    ccache rule does not apply, and when nothing is found the replacer is
    [None]. *)
Theorem replacer_resolution (w : World) (value : string) :
  (forall (self : Context) (L : list (string * json)),
      pckg_layout self = JObj L ->
      assoc "clang-apply-replacements" L = Some (JStr value) ->
      (Str.nonempty (posixpath.dirname value) = true ->
       __populate_replacer w self
       = ret (set_replacer
                (Some (posixpath.join (_data_files_dir_path self) [value]))
                self)
       /\ forall (name : string)
            (analyzer_env : option (gmap string string)),
           populate_analyzer w false analyzer_env ∅ self (name, JStr value)
           = ret (setitem_analyzers name
                    (posixpath.join (_data_files_dir_path self) [value])
                    self))
      /\ (Str.nonempty (posixpath.dirname value) = false ->
          __populate_replacer w self
          = ret (set_replacer (find_executable w value None) self)))
  /\ (forall (ctx : Context) (L : list (string * json)),
        outcome (get_context w) = inl ctx ->
        pckg_layout ctx = JObj L ->
        assoc "clang-apply-replacements" L = Some (JStr value) ->
        replacer_binary ctx
        = if Str.nonempty (posixpath.dirname value)
          then Some (posixpath.join (_data_files_dir_path ctx) [value])
          else find_executable w value None).
Proof.
  split.
  - intros self L HL Hv. split; intros Hdir.
    + split; [by rewrite (populate_replacer_run w self L value HL Hv), Hdir|].
      intros name aenv.
      exact (resolve_package_relative w false aenv ∅ self name value
               (lookup_empty name) Hdir).
    + by rewrite (populate_replacer_run w self L value HL Hv), Hdir.
  - intros ctx L H HL Hv. apply get_context_returns in H.
    destruct (construction_inv _ _ H)
      as (_ & e & bins & L' & items & self0 & self1 & _ & _ & _ & _ & _ & _
          & _ & _ & Hrep).
    pose proof (populate_replacer_inv _ _ _ Hrep) as [r Hr].
    assert (HL1 : pckg_layout self1 = JObj L) by (by rewrite <- HL, Hr).
    rewrite (populate_replacer_run w self1 L value HL1 Hv) in Hrep.
    simpl in Hrep. injection Hrep as <-. reflexivity.
Qed.

Lemma replacer_resolution_witness :
  outcome (get_context Sample.plain) = inl (Sample.built Sample.plain)
  /\ replacer_binary (Sample.built Sample.plain)
     = Some "/usr/bin/clang-apply-replacements".
Proof.
  assert (H : outcome (get_context Sample.plain)
              = inl (Sample.built Sample.plain))
    by (vm_compute; reflexivity).
  split; [exact H|].
  refine (eq_trans
            (proj2 (replacer_resolution Sample.plain
                      "clang-apply-replacements")
               (Sample.built Sample.plain) _ H _ _) _).
  - vm_compute. reflexivity.
  - vm_compute. reflexivity.
  - vm_compute. reflexivity.
Defined.

(** The same bare name resolved both ways in the sample installation,
    where [/usr/bin/clang-apply-replacements] is a symbolic link: the
    replacer keeps the link, the round of an analyzer stores the real
    path. *)
Lemma replacer_is_not_canonicalized :
  replacer_binary (Sample.built Sample.plain)
  = Some "/usr/bin/clang-apply-replacements"
  /\ realpath Sample.plain "/usr/bin/clang-apply-replacements"
     = "/usr/lib/llvm/bin/clang-apply-replacements"
  /\ populate_analyzer Sample.plain false None ∅ Sample.fresh
       ("replacer", JStr "clang-apply-replacements")
     = ret (setitem_analyzers "replacer"
              "/usr/lib/llvm/bin/clang-apply-replacements" Sample.fresh).
Proof.
  split; [vm_compute; reflexivity|].
  split; vm_compute; reflexivity.
Qed.

(** * Further properties of the module *)

(** ** [get_context] *)

(** [get_context] is [__init__] with two handlers.  A context is handed
    on as it is; a key error becomes a printed stack trace and exit status
    1; a value error becomes its message at error level and exit status 1;
    every other exception passes unchanged, with nothing added.  So no key
    error and no value error ever leaves [get_context]. *)
Theorem get_context_handles_key_and_value_errors (w : World) :
  (forall l ctx, __init__ w = (l, inl ctx) -> get_context w = (l, inl ctx))
  /\ (forall l key,
        __init__ w = (l, inr (KeyError key)) ->
        get_context w
        = ((l ++ [PrintExc (KeyError key)])%list, inr (SystemExit 1)))
  /\ (forall l msg,
        __init__ w = (l, inr (ValueError msg)) ->
        get_context w
        = ((l ++ [Log LvlError msg])%list, inr (SystemExit 1)))
  /\ (forall l e,
        __init__ w = (l, inr e) ->
        (forall key, e <> KeyError key) ->
        (forall msg, e <> ValueError msg) ->
        get_context w = (l, inr e))
  /\ (forall key, outcome (get_context w) <> inr (KeyError key))
  /\ (forall msg, outcome (get_context w) <> inr (ValueError msg)).
Proof.
  split; [|split; [|split; [|split]]].
  - intros l ctx H. unfold get_context, try_except. by rewrite H.
  - intros l key. apply get_context_key_error.
  - intros l msg. apply get_context_value_error.
  - intros l e H Hk Hv. by apply get_context_passes.
  - destruct (__init__ w) as [l [ctx|e]] eqn:Hinit.
    + assert (Hget : get_context w = (l, inl ctx)).
      { unfold get_context, try_except. by rewrite Hinit. }
      rewrite Hget. by split.
    + destruct e.
      * rewrite (get_context_key_error _ _ _ Hinit). by split.
      * rewrite (get_context_value_error _ _ _ Hinit). by split.
      * rewrite (fun Hk Hv => get_context_passes w l _ Hk Hv Hinit);
          [by split | intros; discriminate | intros; discriminate].
      * rewrite (fun Hk Hv => get_context_passes w l _ Hk Hv Hinit);
          [by split | intros; discriminate | intros; discriminate].
      * rewrite (fun Hk Hv => get_context_passes w l _ Hk Hv Hinit);
          [by split | intros; discriminate | intros; discriminate].
      * rewrite (fun Hk Hv => get_context_passes w l _ Hk Hv Hinit);
          [by split | intros; discriminate | intros; discriminate].
Qed.

(** ** The extended environment: [analyzer_env] *)

(** The extended environment is computed once: what [analyzer_env] hands
    out is cached in the object, and as long as it is not empty the next
    read returns the same environment and the same object whatever
    [env.extend] would compute then: the read does not call [env.extend]
    again, so it is the same in every world.  Reading changes nothing
    else of the object. *)
Theorem analyzer_env_is_cached (w : World) (self self' : Context)
    (e : gmap string string) :
  outcome (analyzer_env w self) = inl (self', e) ->
  __analyzer_env self' = Some e
  /\ _data_files_dir_path self' = _data_files_dir_path self
  /\ pckg_layout self' = pckg_layout self
  /\ __analyzers self' = __analyzers self
  /\ (env_truthy e = true ->
      forall w' : World, analyzer_env w' self' = ret (self', e)).
Proof.
  intros H.
  assert (Hshape : (self' = self /\ __analyzer_env self = Some e
                    /\ env_truthy e = true)
                   \/ exists p l,
                       self' = set_analyzer_env (Some (env_extend w p l)) self
                       /\ e = env_extend w p l).
  { unfold analyzer_env in H.
    assert (Hfresh :
              outcome (p <- path_env_extra w self ;;
                       l <- ld_lib_path_extra w self ;;
                       ret (set_analyzer_env (Some (env_extend w p l)) self,
                            env_extend w p l)) = inl (self', e) ->
              exists p l,
                self' = set_analyzer_env (Some (env_extend w p l)) self
                /\ e = env_extend w p l).
    { intros H'. peel H' p Hp. peel H' l Hl. simpl in H'.
      exists p, l. by inversion H'. }
    destruct (__analyzer_env self) as [e0|] eqn:He0; [|right; by apply Hfresh].
    destruct (env_truthy e0) eqn:Ht; [|right; by apply Hfresh].
    left. simpl in H. by inversion H; subst. }
  destruct Hshape as [(-> & He & Ht) | (p & l & -> & ->)].
  - repeat split; try done. intros _ w'. unfold analyzer_env.
    by rewrite He, Ht.
  - repeat split; try done. intros Ht w'. unfold analyzer_env.
    cbn [__analyzer_env set_analyzer_env]. by rewrite Ht.
Qed.

(** The first read in a world whose [env.extend] puts the extra paths in
    front of [PATH]; the second read in a world whose [env.extend] would
    give another environment. *)
Lemma analyzer_env_is_cached_witness :
  exists self' e,
    outcome (analyzer_env sample_extending Sample.fresh) = inl (self', e)
    /\ e !! "PATH" = Some "/opt/cc/bin:/usr/bin"
    /\ env_extend Sample.plain ["/opt/cc/bin"] ["/opt/cc/lib"] <> e
    /\ analyzer_env Sample.plain self' = ret (self', e).
Proof.
  eexists _, (env_extend sample_extending ["/opt/cc/bin"] ["/opt/cc/lib"]).
  split; [vm_compute; reflexivity|].
  split; [vm_compute; reflexivity|].
  split.
  - intros Heq.
    assert (Hp : env_extend Sample.plain ["/opt/cc/bin"] ["/opt/cc/lib"]
                 !! "PATH"
                 = env_extend sample_extending ["/opt/cc/bin"] ["/opt/cc/lib"]
                   !! "PATH") by (by rewrite Heq).
    vm_compute in Hp. discriminate.
  - refine (proj2 (proj2 (proj2 (proj2
              (analyzer_env_is_cached sample_extending Sample.fresh _ _ _))))
              _ Sample.plain);
      vm_compute; reflexivity.
Defined.

(** ** The extra search paths outside PATH-discovery mode *)

Lemma join_each_strings (self : Context) (fragments : list string) :
  forall acc,
    for_each
      (fun paths path =>
         p <- as_str path ;;
         ret (paths ++ [posixpath.join (_data_files_dir_path self) [p]])%list)
      (map JStr fragments) acc
    = ret (acc
           ++ map (fun p => posixpath.join (_data_files_dir_path self) [p])
                fragments)%list.
Proof.
  induction fragments as [|f rest IH]; intros acc.
  - simpl. by rewrite app_nil_r.
  - cbn [map for_each as_str]. rewrite !bind_ret_l, IH.
    by rewrite <- app_assoc.
Qed.

(** Outside PATH-discovery mode each of the two accessors returns the
    fragments of its layout entry, in order, each joined to the data-files
    root; a layout without the entry gives the empty list; an entry that
    is not iterable (a number, [null], a boolean) raises a type error. *)
Theorem extra_paths_of_layout (w : World) (self : Context)
    (L : list (string * json)) :
  is_analyzer_from_path w = false ->
  pckg_layout self = JObj L ->
  (assoc "path_env_extra" L = None -> path_env_extra w self = ret [])
  /\ (forall fragments,
        assoc "path_env_extra" L = Some (JArr (map JStr fragments)) ->
        path_env_extra w self
        = ret (map (fun p => posixpath.join (_data_files_dir_path self) [p])
                 fragments))
  /\ (forall v,
        assoc "path_env_extra" L = Some v ->
        (v = JNull \/ (exists n, v = JNum n) \/ (exists b, v = JBool b)) ->
        path_env_extra w self = raise TypeError)
  /\ (assoc "ld_lib_path_extra" L = None -> ld_lib_path_extra w self = ret [])
  /\ (forall fragments,
        assoc "ld_lib_path_extra" L = Some (JArr (map JStr fragments)) ->
        ld_lib_path_extra w self
        = ret (map (fun p => posixpath.join (_data_files_dir_path self) [p])
                 fragments))
  /\ (forall v,
        assoc "ld_lib_path_extra" L = Some v ->
        (v = JNull \/ (exists n, v = JNum n) \/ (exists b, v = JBool b)) ->
        ld_lib_path_extra w self = raise TypeError).
Proof.
  intros Hmode HL. unfold path_env_extra, ld_lib_path_extra, join_each.
  rewrite Hmode, HL. cbn [dict_get].
  split; [by intros ->|].
  split; [intros fragments ->; rewrite bind_ret_l; cbn [iterate];
          by rewrite bind_ret_l, join_each_strings|].
  split; [intros v -> [-> | [[n ->] | [b ->]]]; by rewrite bind_ret_l|].
  split; [by intros ->|].
  split; [intros fragments ->; rewrite bind_ret_l; cbn [iterate];
          by rewrite bind_ret_l, join_each_strings|].
  intros v -> [-> | [[n ->] | [b ->]]]; by rewrite bind_ret_l.
Qed.

Lemma extra_paths_of_layout_witness :
  path_env_extra Sample.plain Sample.fresh = ret ["/opt/cc/bin"].
Proof.
  refine (proj1 (proj2 (extra_paths_of_layout Sample.plain Sample.fresh
                          _ eq_refl eq_refl)) ["bin"] _).
  reflexivity.
Defined.

(** ** The logger settings: [__init_env] *)

Lemma init_env_run (w : World) (self : Context)
    (roles : list (string * json)) (n1 n2 n3 n4 : string) (v : json) :
  env_vars self = JObj roles ->
  assoc "cc_logger_bin" roles = Some (JStr n1) ->
  assoc "cc_logger_file" roles = Some (JStr n2) ->
  assoc "cc_logger_compiles" roles = Some (JStr n3) ->
  assoc "ld_preload" roles = Some (JStr n4) ->
  assoc "env_ld_lib_path" roles = Some v ->
  exists self',
    __init_env w self = ret self'
    /\ logger_bin self' = environ w !! n1
    /\ logger_file self' = environ w !! n2
    /\ logger_compilers self' = environ w !! n3
    /\ ld_preload self' = environ w !! n4
    /\ ld_lib_path self' = v
    /\ _data_files_dir_path self' = _data_files_dir_path self
    /\ pckg_layout self' = pckg_layout self
    /\ __analyzers self' = __analyzers self
    /\ __analyzer_env self' = __analyzer_env self.
Proof.
  intros He H1 H2 H3 H4 H5. unfold __init_env, environ_get. rewrite He.
  rewrite (getitem_obj _ _ _ H1), bind_ret_l. cbn [as_str].
  rewrite !bind_ret_l.
  rewrite (getitem_obj _ _ _ H2), bind_ret_l. cbn [as_str].
  rewrite !bind_ret_l.
  rewrite (getitem_obj _ _ _ H3), bind_ret_l. cbn [as_str].
  rewrite !bind_ret_l.
  rewrite (getitem_obj _ _ _ H4), bind_ret_l. cbn [as_str].
  rewrite !bind_ret_l.
  rewrite (getitem_obj _ _ _ H5), bind_ret_l.
  eexists. split; [reflexivity|]. by repeat split.
Qed.

(** With the five roles present in [environment_variables], the first four
    naming variables, [__init_env] logs nothing and returns: the three
    logger fields and [ld_preload] hold the values of the named variables
    ([None] for an unset variable), while [ld_lib_path] holds the
    configured entry itself and is not looked up in the environment.  The
    data-files root, the layout, the analyzer table and the cached
    environment are untouched. *)
Theorem init_env_reads_named_variables (w : World) (self : Context)
    (roles : list (string * json)) (n1 n2 n3 n4 : string) (v : json) :
  env_vars self = JObj roles ->
  assoc "cc_logger_bin" roles = Some (JStr n1) ->
  assoc "cc_logger_file" roles = Some (JStr n2) ->
  assoc "cc_logger_compiles" roles = Some (JStr n3) ->
  assoc "ld_preload" roles = Some (JStr n4) ->
  assoc "env_ld_lib_path" roles = Some v ->
  exists self',
    __init_env w self = ret self'
    /\ logger_bin self' = environ w !! n1
    /\ logger_file self' = environ w !! n2
    /\ logger_compilers self' = environ w !! n3
    /\ ld_preload self' = environ w !! n4
    /\ ld_lib_path self' = v
    /\ _data_files_dir_path self' = _data_files_dir_path self
    /\ pckg_layout self' = pckg_layout self
    /\ __analyzers self' = __analyzers self
    /\ __analyzer_env self' = __analyzer_env self.
Proof. apply init_env_run. Qed.

Lemma init_env_reads_named_variables_witness :
  exists self',
    __init_env Sample.plain (Sample.built Sample.plain) = ret self'
    /\ logger_bin self' = None
    /\ ld_lib_path self' = JStr "LD_LIBRARY_PATH".
Proof.
  destruct (init_env_reads_named_variables Sample.plain
              (Sample.built Sample.plain) _
              "CC_LOGGER_BIN" "CC_LOGGER_FILE" "CC_LOGGER_GCC_LIKE"
              "LD_PRELOAD" (JStr "LD_LIBRARY_PATH")
              ltac:(vm_compute; reflexivity) eq_refl eq_refl eq_refl eq_refl
              eq_refl)
    as (self' & Hrun & Hbin & _ & _ & _ & Hlib & _).
  exists self'. split; [exact Hrun|]. split; [|exact Hlib].
  rewrite Hbin. vm_compute. reflexivity.
Defined.

Lemma init_env_missing (w : World) (self : Context)
    (roles : list (string * json)) :
  env_vars self = JObj roles ->
  (assoc "cc_logger_bin" roles = None ->
   __init_env w self = raise (KeyError "cc_logger_bin"))
  /\ (forall n1,
        assoc "cc_logger_bin" roles = Some (JStr n1) ->
        assoc "cc_logger_file" roles = None ->
        __init_env w self = raise (KeyError "cc_logger_file"))
  /\ (forall n1 n2,
        assoc "cc_logger_bin" roles = Some (JStr n1) ->
        assoc "cc_logger_file" roles = Some (JStr n2) ->
        assoc "cc_logger_compiles" roles = None ->
        __init_env w self = raise (KeyError "cc_logger_compiles"))
  /\ (forall n1 n2 n3,
        assoc "cc_logger_bin" roles = Some (JStr n1) ->
        assoc "cc_logger_file" roles = Some (JStr n2) ->
        assoc "cc_logger_compiles" roles = Some (JStr n3) ->
        assoc "ld_preload" roles = None ->
        __init_env w self = raise (KeyError "ld_preload"))
  /\ (forall n1 n2 n3 n4,
        assoc "cc_logger_bin" roles = Some (JStr n1) ->
        assoc "cc_logger_file" roles = Some (JStr n2) ->
        assoc "cc_logger_compiles" roles = Some (JStr n3) ->
        assoc "ld_preload" roles = Some (JStr n4) ->
        assoc "env_ld_lib_path" roles = None ->
        __init_env w self = raise (KeyError "env_ld_lib_path"))
  /\ (forall v,
        assoc "cc_logger_bin" roles = Some v ->
        (forall n, v <> JStr n) ->
        __init_env w self = raise TypeError).
Proof.
  intros He. unfold __init_env, environ_get. rewrite He. cbn [getitem].
  split; [by intros ->|].
  split; [intros n1 -> ->; by rewrite !bind_ret_l|].
  split; [intros n1 n2 -> -> ->; cbn [as_str]; by rewrite !bind_ret_l|].
  split; [intros n1 n2 n3 -> -> -> ->; cbn [as_str]; by rewrite !bind_ret_l|].
  split; [intros n1 n2 n3 n4 -> -> -> -> ->; cbn [as_str];
          by rewrite !bind_ret_l|].
  intros v -> Hv. rewrite bind_ret_l.
  destruct v; try reflexivity. by destruct (Hv s).
Qed.

(** ** The version file: [__set_version] *)

Lemma set_version_missing (w : World) (self : Context) :
  truthy (load_json w (version_file self)) = false ->
  __set_version w self = raise (SystemExit 1).
Proof. unfold __set_version. by intros ->. Qed.

(** [git_hash] and [git_describe] are optional: a version file with only
    the version object and the build date lets [__set_version] return,
    with the hash and the tag both [None], at every log level. *)
Theorem version_file_optional_entries (w : World) (self : Context)
    (vitems items : list (string * json)) (major minor revision : string)
    (date : json) :
  load_json w (version_file self) = JObj vitems ->
  assoc "version" vitems = Some (JObj items) ->
  assoc "major" items = Some (JStr major) ->
  assoc "minor" items = Some (JStr minor) ->
  assoc "revision" items = Some (JStr revision) ->
  assoc "rc" items = None ->
  assoc "package_build_date" vitems = Some date ->
  assoc "git_hash" vitems = None ->
  assoc "git_describe" vitems = None ->
  exists self',
    __set_version w self = ret self'
    /\ version self' = Some (major ++ "." ++ minor ++ "." ++ revision)
    /\ package_build_date self' = date
    /\ package_git_hash self' = JNull
    /\ package_git_tag self' = JNull.
Proof.
  intros Hv Hpv Hma Hmi Hre Hrc Hdate Hhash Hdesc.
  unfold __set_version. rewrite Hv.
  assert (Ht : truthy (JObj vitems) = true).
  { destruct vitems; [discriminate | done]. }
  rewrite Ht. cbn [negb].
  rewrite (getitem_obj _ _ _ Hpv), bind_ret_l.
  rewrite (getitem_obj _ _ _ Hdate), bind_ret_l.
  cbn [dict_get]. rewrite Hhash, Hdesc, !bind_ret_l.
  cbn [dict_get assoc]. rewrite !bind_ret_l.
  rewrite (version_string_spec items major minor revision Hma Hmi Hre
             (or_introl Hrc)).
  rewrite Hrc, append_empty_r. cbn [dict_get assoc]. rewrite !bind_ret_l.
  eexists. split; [reflexivity|].
  unfold version, package_build_date, package_git_hash, package_git_tag,
    visible_git_tag.
  cbn [__package_version __package_build_date __package_git_hash
         __package_git_tag].
  repeat split; try done. by destruct (_ || _).
Qed.

Lemma version_file_optional_entries_witness :
  exists self',
    __set_version (Sample.with_files sample_bare_version Sample.plain)
      Sample.fresh = ret self'
    /\ package_git_hash self' = JNull
    /\ package_git_tag self' = JNull.
Proof.
  destruct (version_file_optional_entries
              (Sample.with_files sample_bare_version Sample.plain)
              Sample.fresh _ _ "6" "12" "0" (JStr "2024-01-01T00:00")
              ltac:(vm_compute; reflexivity) eq_refl eq_refl eq_refl eq_refl
              eq_refl eq_refl eq_refl eq_refl)
    as (self' & Hrun & _ & _ & Hhash & Htag).
  by exists self'.
Defined.

Lemma get_package_layout_loaded (w : World) (self : Context) :
  truthy (load_json w (posixpath.join (_data_files_dir_path self)
                         ["config"; "package_layout.json"])) = true ->
  __get_package_layout w self
  = ([Log LvlDebug
        ("Reading config: "
         ++ posixpath.join (_data_files_dir_path self)
              ["config"; "package_layout.json"])],
     inl (load_json w (posixpath.join (_data_files_dir_path self)
                         ["config"; "package_layout.json"]))).
Proof. unfold __get_package_layout. intros ->. reflexivity. Qed.

(** When the two configuration files load and the labels loader builds,
    a version file that is missing or loads empty ends the process with
    status 1 and without a message: nothing is logged but the debug lines
    of reading the two configuration files. *)
Theorem missing_version_file_exits_silently (w : World)
    (citems roles litems : list (string * json)) (n1 n2 n3 n4 : string)
    (v runtime : json) :
  let data := environ_get_default w "CC_DATA_FILES_DIR" in
  let config := posixpath.join data ["config"; "config.json"] in
  let layout := posixpath.join data ["config"; "package_layout.json"] in
  let labels_dir :=
    match environ w !! "CC_TEST_LABELS_DIR" with
    | Some d => d
    | None => posixpath.join data ["config"; "labels"]
    end in
  load_json w config = JObj citems ->
  assoc "environment_variables" citems = Some (JObj roles) ->
  assoc "cc_logger_bin" roles = Some (JStr n1) ->
  assoc "cc_logger_file" roles = Some (JStr n2) ->
  assoc "cc_logger_compiles" roles = Some (JStr n3) ->
  assoc "ld_preload" roles = Some (JStr n4) ->
  assoc "env_ld_lib_path" roles = Some v ->
  load_json w layout = JObj litems ->
  assoc "runtime" litems = Some runtime ->
  CheckerLabels w labels_dir = None ->
  truthy (load_json w
            (posixpath.join data ["config"; "analyzer_version.json"]))
  = false ->
  get_context w
  = ([Log LvlDebug ("Reading config: " ++ config);
      LogValue LvlDebug (JObj citems);
      Log LvlDebug ("Reading config: " ++ layout)],
     inr (SystemExit 1)).
Proof.
  intros data config layout labels_dir Hc Hev H1 H2 H3 H4 H5 Hl Hrt Hlab Hver.
  apply get_context_passes; [done | done |].
  assert (Hpre : init_until_version w
                 = ([Log LvlDebug ("Reading config: " ++ config);
                     LogValue LvlDebug (JObj citems);
                     Log LvlDebug ("Reading config: " ++ layout)],
                    inr (SystemExit 1))).
  { unfold init_until_version. rewrite get_package_config_loaded.
    2:{ cbn [_data_files_dir_path]. fold data. fold config. rewrite Hc.
        simpl. destruct citems; [discriminate|done]. }
    cbn [_data_files_dir_path]. fold data. fold config. rewrite Hc.
    unfold bind at 1. rewrite (getitem_obj _ _ _ Hev), bind_ret_l.
    rewrite get_package_layout_loaded.
    2:{ cbn [_data_files_dir_path]. fold data. fold layout. rewrite Hl.
        simpl. destruct litems; [discriminate|done]. }
    cbn [_data_files_dir_path]. fold data. fold layout. rewrite Hl.
    unfold bind at 1. rewrite (getitem_obj _ _ _ Hrt), bind_ret_l.
    fold labels_dir. rewrite Hlab, bind_ret_l.
    match goal with
    | |- context [__init_env w ?s] =>
        destruct (init_env_run w s roles n1 n2 n3 n4 v eq_refl H1 H2 H3 H4 H5)
          as (self' & Hrun & _ & _ & _ & _ & _ & Hd & _)
    end.
    rewrite Hrun, bind_ret_l.
    rewrite set_version_missing; [reflexivity|].
    unfold version_file. rewrite Hd. exact Hver. }
  unfold __init__. by rewrite Hpre.
Qed.

Lemma missing_version_file_exits_silently_witness :
  get_context (Sample.with_files sample_no_version Sample.plain)
  = ([Log LvlDebug "Reading config: /opt/cc/config/config.json";
      LogValue LvlDebug Sample.config_json;
      Log LvlDebug "Reading config: /opt/cc/config/package_layout.json"],
     inr (SystemExit 1)).
Proof.
  refine (missing_version_file_exits_silently
            (Sample.with_files sample_no_version Sample.plain)
            _ _ _ "CC_LOGGER_BIN" "CC_LOGGER_FILE" "CC_LOGGER_GCC_LIKE"
            "LD_PRELOAD" (JStr "LD_LIBRARY_PATH") _
            _ _ _ _ _ _ _ _ _ _ _);
    vm_compute; reflexivity.
Defined.

(** ** Directory components *)

Lemma cut_last_sep_no_sep (s : string) :
  contains_sep s = false -> Str.cut_last_sep s = ("", s).
Proof.
  induction s as [|c r IH]; [done|].
  cbn [contains_sep Str.cut_last_sep]. intros H.
  apply orb_false_iff in H as [Hc Hr]. by rewrite (IH Hr), Hc.
Qed.

Lemma cut_last_sep_head (s : string) :
  Str.nonempty (fst (Str.cut_last_sep s)) = contains_sep s.
Proof.
  induction s as [|c r IH]; [done|].
  cbn [contains_sep Str.cut_last_sep].
  destruct (Str.cut_last_sep r) as [h t]. cbn [fst] in IH.
  destruct h as [|c' h'].
  - rewrite <- IH. by destruct (Str.is_sep c).
  - rewrite <- IH. cbn. by rewrite orb_true_r.
Qed.

Lemma cut_last_sep_tail (s : string) :
  contains_sep (snd (Str.cut_last_sep s)) = false.
Proof.
  induction s as [|c r IH]; [done|].
  cbn [Str.cut_last_sep].
  destruct (Str.cut_last_sep r) as [h t]. cbn [snd] in IH.
  destruct h as [|c' h']; [|done].
  destruct (Str.is_sep c) eqn:Hc; cbn [snd contains_sep]; [done|].
  by rewrite Hc, IH.
Qed.

Lemma rstrip_sep_empty (s : string) :
  Str.rstrip_sep s = "" -> Str.all_sep s = true.
Proof.
  induction s as [|c r IH]; [done|].
  cbn [Str.rstrip_sep Str.all_sep].
  destruct (Str.rstrip_sep r); [|discriminate].
  destruct (Str.is_sep c); [|discriminate]. intros _. by rewrite IH.
Qed.

Lemma dirname_facts (value root : string) :
  Str.nonempty (posixpath.dirname value) = contains_sep value
  /\ contains_sep (posixpath.basename value) = false
  /\ Str.nonempty (posixpath.dirname (posixpath.basename value)) = false
  /\ posixpath.basename (posixpath.basename value) = posixpath.basename value
  /\ (Str.starts_with_sep value = true ->
      posixpath.join root [value] = value).
Proof.
  assert (Hdir : forall v,
            Str.nonempty (posixpath.dirname v) = contains_sep v).
  { intros v. unfold posixpath.dirname. rewrite <- cut_last_sep_head.
    destruct (fst (Str.cut_last_sep v)) as [|c h] eqn:Hh; [done|].
    cbn [Str.nonempty andb].
    destruct (Str.all_sep (String c h)) eqn:Hall; cbn [negb]; [done|].
    destruct (Str.rstrip_sep (String c h)) eqn:Hr; [|done].
    apply rstrip_sep_empty in Hr. congruence. }
  pose proof (cut_last_sep_tail value) as Htail.
  split; [apply Hdir|]. split; [exact Htail|].
  split; [by rewrite Hdir|].
  split.
  - unfold posixpath.basename.
    by rewrite (cut_last_sep_no_sep _ Htail).
  - intros Habs. unfold posixpath.join, posixpath.join2. cbn [fold_left].
    by rewrite Habs.
Qed.

(** The test [if os.path.dirname(value)] of the two resolution methods
    holds exactly when the value contains a slash; the file name of a path
    never does, so a value stripped to its file name never passes the
    test; and joining an absolute path to a root gives the absolute path
    back. *)
Theorem directory_component_is_a_slash (value root : string) :
  Str.nonempty (posixpath.dirname value) = contains_sep value
  /\ contains_sep (posixpath.basename value) = false
  /\ Str.nonempty (posixpath.dirname (posixpath.basename value)) = false
  /\ posixpath.basename (posixpath.basename value) = posixpath.basename value
  /\ (Str.starts_with_sep value = true ->
      posixpath.join root [value] = value).
Proof. apply dirname_facts. Qed.

(** ** More on [__populate_analyzers] *)

(** Setting an entry of the analyzer table or the cached environment
    leaves every other field as it is: this is what [f] stands for. *)
Lemma resolve_all_keeps {A} (f : Context -> A) (w : World)
    (analyzer_from_path : bool) (analyzer_env : option (gmap string string))
    (env_var_bin : gmap string string) (items : list (string * json)) :
  (forall a s, f (set_analyzers a s) = f s) ->
  forall self self',
    outcome (for_each
               (populate_analyzer w analyzer_from_path analyzer_env
                  env_var_bin) items self) = inl self' ->
    f self' = f self.
Proof.
  intros Hf. induction items as [|[n v] rest IH]; intros self self' H.
  - simpl in H. by injection H as <-.
  - cbn [for_each] in H. peel H s Hs.
    apply resolve_one_inv in Hs as [-> | [path ->]]; [by apply IH|].
    rewrite (IH _ _ H). apply Hf.
Qed.

Lemma parse_override_returns (w : World) (self : Context)
    (e bins : gmap string string) :
  __analyzer_env self = Some e ->
  outcome (__parse_CC_ANALYZER_BIN w self) = inl bins ->
  match e !! "CC_ANALYZER_BIN" with
  | Some v =>
      forallb (entry_ok w) (Str.split ";" v) = true
      /\ bins = fold_left (entry_record w) (Str.split ";" v) ∅
      /\ events (__parse_CC_ANALYZER_BIN w self)
         = flat_map (entry_announcement w) (Str.split ";" v)
  | None => bins = ∅ /\ events (__parse_CC_ANALYZER_BIN w self) = []
  end.
Proof.
  intros He Hrun. destruct (e !! "CC_ANALYZER_BIN") as [v|] eqn:Hv.
  - rewrite (parse_override_run w self e v He Hv) in *. simpl in Hrun.
    destruct (forallb (entry_ok w) (Str.split ";" v)) eqn:Hall;
      [|discriminate].
    injection Hrun as <-. split; [done|]. split; [done|].
    cbn [events fst]. destruct (all_ok_no_failure w _ Hall) as [-> ->].
    cbn. by rewrite !app_nil_r.
  - unfold __parse_CC_ANALYZER_BIN in *. rewrite He, Hv in *.
    simpl in Hrun. by injection Hrun as <-.
Qed.

(** What a returning construction has done, with the override map as
    [__parse_CC_ANALYZER_BIN] returned it. *)
Lemma construction_steps (w : World) (ctx : Context) :
  outcome (get_context w) = inl ctx ->
  exists pre e bins L items self1,
    outcome (init_until_version w) = inl pre
    /\ __analyzer_env pre = None
    /\ __analyzers pre = ∅
    /\ is_analyzer_from_path w = false
    /\ outcome (analyzer_env w pre)
       = inl (set_analyzer_env (Some e) pre, e)
    /\ outcome (__parse_CC_ANALYZER_BIN w (set_analyzer_env (Some e) pre))
       = inl bins
    /\ pckg_layout pre = JObj L
    /\ assoc "analyzers" L = Some (JObj items)
    /\ outcome (for_each (populate_analyzer w false (Some e) bins) items
                  (set_analyzer_env (Some e) pre)) = inl self1
    /\ outcome (__populate_replacer w self1) = inl ctx.
Proof.
  intros H. apply get_context_returns in H. unfold __init__ in H.
  peel H pre Hpre. peel H self1 H1.
  destruct (init_until_version_inv _ _ Hpre) as [Henv Han].
  unfold __populate_analyzers in H1.
  destruct (is_analyzer_from_path w) eqn:Hmode.
  { rewrite bind_ret_l, (parse_override_without_env _ _ Henv) in H1.
    discriminate. }
  peel H1 r Hr. destruct r as [s aenv].
  peel Hr r' Hr'. destruct r' as [s1 e1]. simpl in Hr.
  assert (s = s1 /\ aenv = Some e1) as [-> ->] by (by inversion Hr).
  clear Hr. pose proof Hr' as Hae.
  unfold analyzer_env in Hr'. rewrite Henv in Hr'.
  peel Hr' p Hp. peel Hr' l Hl. simpl in Hr'. injection Hr' as <- <-.
  cbn [fst snd] in H1.
  peel H1 bins Hbins. peel H1 cb Hcb. peel H1 items Hitems.
  cbn [pckg_layout set_analyzer_env] in Hcb.
  destruct (pckg_layout pre) as [| | | | |L] eqn:HL; try discriminate.
  simpl in Hcb. injection Hcb as <-.
  destruct (assoc "analyzers" L) as [[| | | | |its]|] eqn:Hits;
    try discriminate.
  simpl in Hitems. injection Hitems as <-.
  exists pre, (env_extend w p l), bins, L, its, self1.
  repeat split; try done.
Qed.

(** The loop of [__populate_analyzers] as it ran for a context that was
    returned, in terms of that context. *)
Lemma construction_loop (w : World) (ctx : Context)
    (L items : list (string * json)) :
  outcome (get_context w) = inl ctx ->
  pckg_layout ctx = JObj L ->
  assoc "analyzers" L = Some (JObj items) ->
  exists e bins self0 self1,
    __analyzer_env ctx = Some e
    /\ __analyzer_env self0 = Some e
    /\ outcome (__parse_CC_ANALYZER_BIN w self0) = inl bins
    /\ _data_files_dir_path self0 = _data_files_dir_path ctx
    /\ __analyzers self0 = ∅
    /\ outcome (for_each (populate_analyzer w false (Some e) bins) items
                  self0) = inl self1
    /\ __analyzers ctx = __analyzers self1.
Proof.
  intros H HL Hitems.
  destruct (construction_steps _ _ H)
    as (pre & e & bins & L' & items' & self1 & _ & _ & Hempty & _ & _
        & Hparse & HL' & Hitems' & Hloop & Hrep).
  apply populate_replacer_inv in Hrep as [r ->].
  cbn [set_replacer pckg_layout __analyzer_env __analyzers
         _data_files_dir_path] in *.
  pose proof (resolve_all_keeps pckg_layout _ _ _ _ _
                (fun _ _ => eq_refl) _ _ Hloop) as Hlay.
  pose proof (resolve_all_keeps __analyzer_env _ _ _ _ _
                (fun _ _ => eq_refl) _ _ Hloop) as Henv.
  pose proof (resolve_all_keeps _data_files_dir_path _ _ _ _ _
                (fun _ _ => eq_refl) _ _ Hloop) as Hdata.
  cbn [set_analyzer_env pckg_layout __analyzer_env _data_files_dir_path]
    in Hlay, Henv, Hdata.
  rewrite Hlay, HL' in HL. injection HL as <-.
  rewrite Hitems' in Hitems. injection Hitems as <-.
  exists e, bins, (set_analyzer_env (Some e) pre), self1.
  repeat split; try done.
Qed.

(** The analyzer mapping of a context has entries only for names of the
    layout: an entry of [CC_ANALYZER_BIN] for any other name is parsed and
    checked, and then left unused. *)
Theorem analyzer_names_come_from_layout (w : World) (ctx : Context)
    (L items : list (string * json)) (name path : string) :
  outcome (get_context w) = inl ctx ->
  pckg_layout ctx = JObj L ->
  assoc "analyzers" L = Some (JObj items) ->
  analyzer_binaries ctx !! name = Some path ->
  In name (map fst items).
Proof.
  intros H HL Hitems Hlook.
  destruct (construction_loop _ _ _ _ H HL Hitems)
    as (e & bins & self0 & self1 & _ & _ & _ & _ & Hempty & Hloop & Han).
  destruct (in_dec string_dec name (map fst items)) as [Hin|Hnot]; [done|].
  apply resolve_all_frame in Hloop as [_ Hk].
  unfold analyzer_binaries in Hlook.
  rewrite Han, (Hk name Hnot), Hempty, lookup_empty in Hlook. discriminate.
Qed.

Lemma analyzer_names_come_from_layout_witness :
  In "gcc" ["clangsa"; "clang-tidy"; "infer"; "gcc"].
Proof.
  refine (analyzer_names_come_from_layout Sample.plain
            (Sample.built Sample.plain) _
            [("clangsa", JStr "clang"); ("clang-tidy", JStr "clang-tidy");
             ("infer", JStr "tools/infer"); ("gcc", JStr "gcc")]
            "gcc" "/usr/bin/gcc" _ _ _ _);
    vm_compute; reflexivity.
Defined.

(** An override for a name the layout does not know. *)
Example override_for_unknown_analyzer :
  outcome (get_context
             (Sample.world (Some "cppcheck:/usr/bin/clang") false 20 None))
  = inl (Sample.built
           (Sample.world (Some "cppcheck:/usr/bin/clang") false 20 None))
  /\ analyzer_binaries
       (Sample.built
          (Sample.world (Some "cppcheck:/usr/bin/clang") false 20 None))
     !! "cppcheck" = None.
Proof. split; vm_compute; reflexivity. Qed.

(** ** More on [__parse_CC_ANALYZER_BIN] *)

(** Among entries that name the same analyzer the last one counts. *)
Lemma fold_record_last (w : World) (before after : list string)
    (entry name path : string) (bins : gmap string string) :
  analyzer_binary w entry = inl (name, path) ->
  (forall entry' path', In entry' after ->
                        analyzer_binary w entry' <> inl (name, path')) ->
  fold_left (entry_record w) (before ++ entry :: after) bins !! name
  = Some path.
Proof.
  intros Hentry Hafter. rewrite fold_left_app. cbn [fold_left].
  remember (entry_record w (fold_left (entry_record w) before bins) entry)
    as m eqn:Hm.
  assert (Hlook : m !! name = Some path).
  { rewrite Hm. unfold entry_record. rewrite Hentry.
    apply lookup_insert_eq. }
  clear Hm. revert m Hlook.
  induction after as [|a rest IH]; intros m Hlook; [done|].
  cbn [fold_left]. apply IH.
  - intros entry' path' Hin. apply Hafter. by right.
  - unfold entry_record.
    destruct (analyzer_binary w a) as [[n p]|msg] eqn:Ha; [|done].
    rewrite lookup_insert_ne; [done|].
    intros ->. by apply (Hafter a p (or_introl eq_refl)).
Qed.

Lemma fold_record_files (w : World) (entries : list string) :
  forallb (entry_ok w) entries = true ->
  forall (bins : gmap string string) (name path : string),
    fold_left (entry_record w) entries bins !! name = Some path ->
    bins !! name = Some path
    \/ (path_isfile w path = true
        /\ exists entry, In entry entries
                         /\ analyzer_binary w entry = inl (name, path)).
Proof.
  induction entries as [|entry rest IH]; intros Hall bins name path H;
    [by left|].
  cbn [forallb] in Hall. apply andb_true_iff in Hall as [Hok Hall].
  cbn [fold_left] in H. apply (IH Hall) in H as [H | (Hf & en & Hin & Hb)].
  - unfold entry_record in H. unfold entry_ok, entry_errors in Hok.
    destruct (analyzer_binary w entry) as [[n p]|msg] eqn:Hb; [|by left].
    destruct (path_isfile w p) eqn:Hfile; [|discriminate].
    destruct (decide (n = name)) as [->|Hne].
    + rewrite lookup_insert_eq in H. injection H as <-.
      right. split; [done|]. exists entry. split; [by left | done].
    + left. by rewrite lookup_insert_ne in H.
  - right. split; [done|]. exists en. split; [by right | done].
Qed.

(** When [__parse_CC_ANALYZER_BIN] returns, every path in its mapping is an
    existing file and stands in an entry of the variable under that name;
    one line is logged for each entry, at info level, and none at error
    level. *)
Theorem accepted_overrides_are_files (w : World) (self : Context)
    (e bins : gmap string string) (v : string) :
  __analyzer_env self = Some e ->
  e !! "CC_ANALYZER_BIN" = Some v ->
  outcome (__parse_CC_ANALYZER_BIN w self) = inl bins ->
  (forall name path,
      bins !! name = Some path ->
      path_isfile w path = true
      /\ exists entry, In entry (Str.split ";" v)
                       /\ analyzer_binary w entry = inl (name, path))
  /\ events (__parse_CC_ANALYZER_BIN w self)
     = flat_map (entry_announcement w) (Str.split ";" v)
  /\ List.filter is_error_event (events (__parse_CC_ANALYZER_BIN w self))
     = [].
Proof.
  intros He Hv Hrun.
  pose proof (parse_override_returns w self e bins He Hrun) as Hret.
  rewrite Hv in Hret. destruct Hret as (Hall & -> & Hev).
  split; [|split; [done|]].
  - intros name path Hlook.
    apply (fold_record_files w _ Hall) in Hlook as [Hlook | Hlook];
      [by rewrite lookup_empty in Hlook | done].
  - rewrite Hev. apply filter_errors_announcements.
Qed.

Lemma accepted_overrides_are_files_witness :
  exists bins,
    outcome (__parse_CC_ANALYZER_BIN
               (Sample.world (Some "clang:/usr/bin/clang;gcc:/usr/bin/gcc")
                  false 20 None)
               (Sample.with_analyzer_env
                  (Some "clang:/usr/bin/clang;gcc:/usr/bin/gcc")
                  Sample.fresh)) = inl bins
    /\ List.filter is_error_event
         (events (__parse_CC_ANALYZER_BIN
                    (Sample.world
                       (Some "clang:/usr/bin/clang;gcc:/usr/bin/gcc")
                       false 20 None)
                    (Sample.with_analyzer_env
                       (Some "clang:/usr/bin/clang;gcc:/usr/bin/gcc")
                       Sample.fresh))) = [].
Proof.
  eexists. split; [vm_compute; reflexivity|].
  refine (proj2 (proj2 (accepted_overrides_are_files
                          (Sample.world
                             (Some "clang:/usr/bin/clang;gcc:/usr/bin/gcc")
                             false 20 None)
                          (Sample.with_analyzer_env
                             (Some "clang:/usr/bin/clang;gcc:/usr/bin/gcc")
                             Sample.fresh)
                          _ _ "clang:/usr/bin/clang;gcc:/usr/bin/gcc"
                          eq_refl _ _)));
    vm_compute; reflexivity.
Defined.

(** ** Which path an analyzer of the layout gets *)

(** An analyzer of the layout that [CC_ANALYZER_BIN] names gets the path of
    the last entry that names it, whatever its layout value is, and that
    path is an existing file. *)
Theorem override_takes_precedence (w : World) (ctx : Context)
    (L items : list (string * json)) (name path entry : string)
    (value : json) (e : gmap string string) (v : string)
    (before after : list string) :
  outcome (get_context w) = inl ctx ->
  pckg_layout ctx = JObj L ->
  assoc "analyzers" L = Some (JObj items) ->
  NoDup (map fst items) ->
  In (name, value) items ->
  __analyzer_env ctx = Some e ->
  e !! "CC_ANALYZER_BIN" = Some v ->
  Str.split ";" v = (before ++ entry :: after)%list ->
  analyzer_binary w entry = inl (name, path) ->
  (forall entry' path', In entry' after ->
                        analyzer_binary w entry' <> inl (name, path')) ->
  analyzer_binaries ctx !! name = Some path
  /\ path_isfile w path = true.
Proof.
  intros H HL Hitems Hnd Hin He Hv Hsplit Hentry Hafter.
  destruct (construction_loop _ _ _ _ H HL Hitems)
    as (e' & bins & self0 & self1 & He' & He0 & Hparse & _ & _ & Hloop
        & Han).
  rewrite He in He'. injection He' as <-.
  pose proof (parse_override_returns w self0 e bins He0 Hparse) as Hret.
  rewrite Hv in Hret. destruct Hret as (Hall & Hbins & _).
  assert (Hlook : bins !! name = Some path).
  { rewrite Hbins, Hsplit. by apply fold_record_last. }
  split.
  - destruct (resolve_all_at _ _ _ _ _ _ _ Hnd Hin _ _ Hloop)
      as (s1 & s2 & Hstep & _ & _ & H2).
    rewrite (resolve_overridden w false (Some e) bins s1 name path value
               Hlook) in Hstep.
    simpl in Hstep. injection Hstep as <-.
    unfold analyzer_binaries. rewrite Han, H2.
    unfold setitem_analyzers, set_analyzers. cbn [__analyzers].
    apply lookup_insert_eq.
  - rewrite Hbins in Hlook.
    apply (fold_record_files w _ Hall) in Hlook as [Hlook | [Hf _]];
      [by rewrite lookup_empty in Hlook | done].
Qed.

Lemma override_takes_precedence_witness :
  analyzer_binaries
    (Sample.built
       (Sample.world (Some "infer:/usr/bin/gcc;infer:/opt/infer/bin/infer")
          false 20 None))
  !! "infer" = Some "/opt/infer/bin/infer".
Proof.
  refine (proj1 (override_takes_precedence
                   (Sample.world
                      (Some "infer:/usr/bin/gcc;infer:/opt/infer/bin/infer")
                      false 20 None)
                   (Sample.built
                      (Sample.world
                         (Some "infer:/usr/bin/gcc;infer:/opt/infer/bin/infer")
                         false 20 None))
                   _ [("clangsa", JStr "clang");
                      ("clang-tidy", JStr "clang-tidy");
                      ("infer", JStr "tools/infer"); ("gcc", JStr "gcc")]
                   "infer" "/opt/infer/bin/infer"
                   "infer:/opt/infer/bin/infer" (JStr "tools/infer")
                   (Sample.os_environ
                      (Some "infer:/usr/bin/gcc;infer:/opt/infer/bin/infer"))
                   "infer:/usr/bin/gcc;infer:/opt/infer/bin/infer"
                   ["infer:/usr/bin/gcc"] [] _ _ _ _ _ _ _ _ _ _)).
  - vm_compute. reflexivity.
  - vm_compute. reflexivity.
  - vm_compute. reflexivity.
  - repeat constructor; rewrite ?elem_of_cons, ?elem_of_nil;
      intuition discriminate.
  - right. right. left. reflexivity.
  - vm_compute. reflexivity.
  - vm_compute. reflexivity.
  - vm_compute. reflexivity.
  - vm_compute. reflexivity.
  - intros entry' path' [].
Defined.

(** An analyzer that is found on the search path, and whose real path does
    not end in [/ccache], is stored under its real path. *)
Theorem located_analyzer_is_canonicalized (w : World) (ctx : Context)
    (L items : list (string * json)) (name value located : string)
    (e : gmap string string) :
  outcome (get_context w) = inl ctx ->
  pckg_layout ctx = JObj L ->
  assoc "analyzers" L = Some (JObj items) ->
  NoDup (map fst items) ->
  In (name, JStr value) items ->
  contains_sep value = false ->
  __analyzer_env ctx = Some e ->
  ~ overridden w e name ->
  find_executable w value (search_path e) = Some located ->
  located <> "" ->
  Str.endswith (realpath w located) "/ccache" = false ->
  analyzer_binaries ctx !! name = Some (realpath w located).
Proof.
  intros H HL Hitems Hnd Hin Hbare He Hno Hfound Hne Hcc.
  assert (Hdir : Str.nonempty (posixpath.dirname value) = false).
  { rewrite <- Hbare. apply (dirname_facts value ""). }
  destruct (construction_round _ _ _ _ _ _ H HL Hitems Hnd Hin)
    as (e' & bins & s1 & s2 & He' & Hbins & Hd & Hnone & Hstep & Hctx).
  rewrite He in He'. injection He' as <-.
  assert (Hfree : bins !! name = None).
  { destruct (bins !! name) as [p|] eqn:Hp; [|done].
    destruct Hno. by apply (Hbins p). }
  assert (Hpath : env_path_of (Some e) = ret (search_path e)).
  { unfold populate_analyzer in Hstep. rewrite Hfree in Hstep.
    cbn [as_str] in Hstep. rewrite bind_ret_l in Hstep. cbv zeta in Hstep.
    rewrite Hdir in Hstep. peel Hstep ep Hep.
    by destruct (env_path_of_run _ _ Hep) as [-> ->]. }
  rewrite (resolve_found w false (Some e) bins s1 name value (search_path e)
             located Hfree Hdir Hpath Hfound Hne) in Hstep.
  rewrite Hcc in Hstep. simpl in Hstep. injection Hstep as <-.
  rewrite Hctx. unfold setitem_analyzers, set_analyzers. cbn [__analyzers].
  apply lookup_insert_eq.
Qed.

Lemma located_analyzer_is_canonicalized_witness :
  analyzer_binaries (Sample.built Sample.plain) !! "clangsa"
  = Some "/usr/lib/llvm/bin/clang".
Proof.
  refine (located_analyzer_is_canonicalized Sample.plain
            (Sample.built Sample.plain)
            _ [("clangsa", JStr "clang"); ("clang-tidy", JStr "clang-tidy");
               ("infer", JStr "tools/infer"); ("gcc", JStr "gcc")]
            "clangsa" "clang" "/usr/bin/clang" Sample.base_environ
            _ _ _ _ _ _ _ _ _ _ _).
  - vm_compute. reflexivity.
  - vm_compute. reflexivity.
  - vm_compute. reflexivity.
  - repeat constructor; rewrite ?elem_of_cons, ?elem_of_nil;
      intuition discriminate.
  - left. reflexivity.
  - vm_compute. reflexivity.
  - vm_compute. reflexivity.
  - intros (v & entry & path & Hv & _). vm_compute in Hv. discriminate.
  - vm_compute. reflexivity.
  - discriminate.
  - vm_compute. reflexivity.
Defined.

(** An absolute layout value of an analyzer that is not overridden is
    stored as it is: the data-files root plays no part. *)
Theorem absolute_layout_value_is_kept (w : World) (ctx : Context)
    (L items : list (string * json)) (name value : string)
    (e : gmap string string) :
  outcome (get_context w) = inl ctx ->
  pckg_layout ctx = JObj L ->
  assoc "analyzers" L = Some (JObj items) ->
  NoDup (map fst items) ->
  In (name, JStr value) items ->
  Str.starts_with_sep value = true ->
  __analyzer_env ctx = Some e ->
  ~ overridden w e name ->
  analyzer_binaries ctx !! name = Some value.
Proof.
  intros H HL Hitems Hnd Hin Habs He Hno.
  assert (Hdir : Str.nonempty (posixpath.dirname value) = true).
  { destruct (dirname_facts value "") as [-> _].
    destruct value as [|c r]; [discriminate|].
    cbn in Habs |- *. by rewrite Habs. }
  destruct (construction_round _ _ _ _ _ _ H HL Hitems Hnd Hin)
    as (e' & bins & s1 & s2 & He' & Hbins & Hd & _ & Hstep & ->).
  rewrite He in He'. injection He' as <-.
  assert (Hfree : bins !! name = None).
  { destruct (bins !! name) as [p|] eqn:Hp; [|done].
    destruct Hno. by apply (Hbins p). }
  rewrite (resolve_package_relative w false (Some e) bins s1 name value
             Hfree Hdir) in Hstep.
  simpl in Hstep. injection Hstep as <-.
  unfold setitem_analyzers, set_analyzers, looked_up. cbn [__analyzers].
  rewrite lookup_insert_eq. f_equal.
  by apply (dirname_facts value (_data_files_dir_path s1)).
Qed.

Lemma absolute_layout_value_is_kept_witness :
  analyzer_binaries
    (Sample.built
       (Sample.with_files sample_other_layout
          (Sample.world (Some "infer:/opt/infer/bin/infer") false 20 None)))
  !! "cppcheck" = Some "/usr/bin/cppcheck".
Proof.
  refine (absolute_layout_value_is_kept
            (Sample.with_files sample_other_layout
               (Sample.world (Some "infer:/opt/infer/bin/infer")
                  false 20 None))
            (Sample.built
               (Sample.with_files sample_other_layout
                  (Sample.world (Some "infer:/opt/infer/bin/infer")
                     false 20 None)))
            _ [("cppcheck", JStr "/usr/bin/cppcheck"); ("infer", JNum 1)]
            "cppcheck" "/usr/bin/cppcheck"
            (Sample.os_environ (Some "infer:/opt/infer/bin/infer"))
            _ _ _ _ _ _ _ _).
  - vm_compute. reflexivity.
  - vm_compute. reflexivity.
  - vm_compute. reflexivity.
  - repeat constructor; rewrite ?elem_of_cons, ?elem_of_nil;
      intuition discriminate.
  - left. reflexivity.
  - reflexivity.
  - vm_compute. reflexivity.
  - intros (v & entry & path & Hv & Hin & Hb). vm_compute in Hv.
    injection Hv as <-. vm_compute in Hin.
    destruct Hin as [<- | []]. vm_compute in Hb. discriminate.
Defined.

(** A layout value that is not a string stops the loop with a type error,
    unless the analyzer is overridden: the round of an overridden analyzer
    stores the override path and returns whatever the layout value is, a
    string or not.  So in a context that was returned every analyzer that
    is not overridden has a string for its value. *)
Theorem layout_value_must_be_a_string (w : World) :
  (forall (analyzer_from_path : bool)
     (analyzer_env : option (gmap string string))
     (bins : gmap string string) (self : Context) (name : string)
     (value : json),
      bins !! name = None ->
      (forall s, value <> JStr s) ->
      populate_analyzer w analyzer_from_path analyzer_env bins self
        (name, value) = raise TypeError)
  /\ (forall (analyzer_from_path : bool)
        (analyzer_env : option (gmap string string))
        (bins : gmap string string) (self : Context) (name path : string)
        (value : json),
        bins !! name = Some path ->
        populate_analyzer w analyzer_from_path analyzer_env bins self
          (name, value) = ret (setitem_analyzers name path self))
  /\ (forall (ctx : Context) (L items : list (string * json))
        (name : string) (value : json) (e : gmap string string),
        outcome (get_context w) = inl ctx ->
        pckg_layout ctx = JObj L ->
        assoc "analyzers" L = Some (JObj items) ->
        NoDup (map fst items) ->
        In (name, value) items ->
        __analyzer_env ctx = Some e ->
        ~ overridden w e name ->
        exists s, value = JStr s).
Proof.
  assert (Hround : forall afp aenv bins self name value,
            bins !! name = None ->
            (forall s, value <> JStr s) ->
            populate_analyzer w afp aenv bins self (name, value)
            = raise TypeError).
  { intros afp aenv bins self name value Hfree Hns.
    unfold populate_analyzer. rewrite Hfree.
    destruct value; try reflexivity. by destruct (Hns s). }
  split; [exact Hround|]. split.
  { intros afp aenv bins self name path value Hlook.
    exact (resolve_overridden w afp aenv bins self name path value Hlook). }
  intros ctx L items name value e H HL Hitems Hnd Hin He Hno.
  destruct (construction_round _ _ _ _ _ _ H HL Hitems Hnd Hin)
    as (e' & bins & s1 & s2 & He' & Hbins & _ & _ & Hstep & _).
  rewrite He in He'. injection He' as <-.
  assert (Hfree : bins !! name = None).
  { destruct (bins !! name) as [p|] eqn:Hp; [|done].
    destruct Hno. by apply (Hbins p). }
  destruct value as [| | |s| |]; try (rewrite Hround in Hstep; done).
  by exists s.
Qed.

(** The sample layout with a number for [infer]: overridden, the number is
    never looked at; not overridden, construction ends with a type error
    that [get_context] lets through. *)
Example number_as_layout_value :
  analyzer_binaries
    (Sample.built
       (Sample.with_files sample_other_layout
          (Sample.world (Some "infer:/opt/infer/bin/infer") false 20 None)))
  !! "infer" = Some "/opt/infer/bin/infer"
  /\ outcome (get_context
               (Sample.with_files sample_other_layout Sample.plain))
     = inr TypeError.
Proof. split; vm_compute; reflexivity. Qed.

(** A bare name needs a search path: when the extended environment is not
    empty and has no [PATH], the round of an analyzer that is not
    overridden raises a key error, which [get_context] answers with a
    stack trace and exit status 1.  So in a context that was returned with
    such an analyzer the extended environment has a [PATH] or is empty. *)
Theorem bare_name_needs_PATH (w : World) (e : gmap string string)
    (name value : string) :
  contains_sep value = false ->
  (forall (bins : gmap string string) (self : Context),
      bins !! name = None ->
      env_truthy e = true ->
      e !! "PATH" = None ->
      populate_analyzer w false (Some e) bins self (name, JStr value)
      = raise (KeyError "PATH"))
  /\ (forall (ctx : Context) (L items : list (string * json)),
        outcome (get_context w) = inl ctx ->
        pckg_layout ctx = JObj L ->
        assoc "analyzers" L = Some (JObj items) ->
        NoDup (map fst items) ->
        In (name, JStr value) items ->
        __analyzer_env ctx = Some e ->
        ~ overridden w e name ->
        env_truthy e = true ->
        is_Some (e !! "PATH")).
Proof.
  intros Hbare.
  assert (Hdir : Str.nonempty (posixpath.dirname value) = false).
  { rewrite <- Hbare. apply (dirname_facts value ""). }
  assert (Hround : forall bins self,
            bins !! name = None -> env_truthy e = true ->
            e !! "PATH" = None ->
            populate_analyzer w false (Some e) bins self (name, JStr value)
            = raise (KeyError "PATH")).
  { intros bins self Hfree Ht Hp. unfold populate_analyzer, env_path_of.
    rewrite Hfree. cbn [as_str]. rewrite bind_ret_l. cbv zeta.
    by rewrite Hdir, Ht, Hp. }
  split; [exact Hround|].
  intros ctx L items H HL Hitems Hnd Hin He Hno Ht.
  destruct (construction_round _ _ _ _ _ _ H HL Hitems Hnd Hin)
    as (e' & bins & s1 & s2 & He' & Hbins & _ & _ & Hstep & _).
  rewrite He in He'. injection He' as <-.
  assert (Hfree : bins !! name = None).
  { destruct (bins !! name) as [p|] eqn:Hp; [|done].
    destruct Hno. by apply (Hbins p). }
  destruct (decide (e !! "PATH" = None)) as [Hp|Hp].
  - rewrite (Hround bins s1 Hfree Ht Hp) in Hstep. discriminate.
  - destruct (e !! "PATH") as [p|]; [by eexists | done].
Qed.

Lemma bare_name_needs_PATH_witness :
  populate_analyzer Sample.plain false
    (Some (<["HOME" := "/root"]> ∅)) ∅ Sample.fresh ("clangsa", JStr "clang")
  = raise (KeyError "PATH").
Proof.
  refine (proj1 (bare_name_needs_PATH Sample.plain
                   (<["HOME" := "/root"]> ∅) "clangsa" "clang" eq_refl)
            ∅ Sample.fresh _ _ _);
    vm_compute; reflexivity.
Defined.

(** In PATH-discovery mode the round of an analyzer that is not overridden
    looks at the file name of the layout value only, and never takes the
    package-relative branch: a value with directories whose file name is
    not found is skipped like a bare name. *)
Theorem path_mode_uses_the_file_name (w : World)
    (analyzer_env : option (gmap string string))
    (bins : gmap string string) (self : Context) (name value : string) :
  bins !! name = None ->
  populate_analyzer w true analyzer_env bins self (name, JStr value)
  = populate_analyzer w true analyzer_env bins self
      (name, JStr (posixpath.basename value))
  /\ (forall env_path,
        env_path_of analyzer_env = ret env_path ->
        not_located
          (find_executable w (posixpath.basename value) env_path) ->
        populate_analyzer w true analyzer_env bins self (name, JStr value)
        = ([Log LvlDebug (not_found_msg (posixpath.basename value))],
           inl self)).
Proof.
  intros Hfree.
  destruct (dirname_facts value "") as (_ & _ & Hdir & Hidem & _).
  split.
  - unfold populate_analyzer. rewrite Hfree. cbn [as_str].
    rewrite !bind_ret_l. cbv zeta. by rewrite Hidem.
  - intros ep Hpath Hmiss.
    exact (resolve_not_found w true analyzer_env bins self name value ep
             Hfree Hdir Hpath Hmiss).
Qed.

Lemma path_mode_uses_the_file_name_witness :
  populate_analyzer Sample.plain true None ∅ Sample.fresh
    ("infer", JStr "tools/infer")
  = ([Log LvlDebug "'infer' binary can not be found in your PATH!"],
     inl Sample.fresh).
Proof.
  refine (proj2 (path_mode_uses_the_file_name Sample.plain None ∅
                   Sample.fresh "infer" "tools/infer" _) None _ _).
  - vm_compute. reflexivity.
  - reflexivity.
  - left. vm_compute. reflexivity.
Defined.

(** ** Empty entries of [CC_ANALYZER_BIN] *)

Lemma split_trailing_sep (v : string) :
  exists p ps, Str.split ";" (v ++ ";") = (p :: ps ++ [""])%list.
Proof.
  induction v as [|c r (p & ps & IH)].
  - exists "", []. reflexivity.
  - change (String c r ++ ";") with (String c (r ++ ";")).
    cbn [Str.split]. rewrite IH.
    destruct (Ascii.eqb c ";"); [by exists "", (p :: ps) | by eexists _, ps].
Qed.

(** An empty value of [CC_ANALYZER_BIN], and a value that ends with a
    semicolon, hold an empty entry.  Whenever [analyzer_binary] rejects the
    empty entry, a value with an empty entry makes the process log that
    error and exit with status 1, however good its other entries are. *)
Theorem empty_entry_is_fatal (w : World) (msg : string) :
  analyzer_binary w "" = inr msg ->
  In "" (Str.split ";" "")
  /\ (forall v, In "" (Str.split ";" (v ++ ";")))
  /\ (forall (self : Context) (e : gmap string string) (v : string),
        __analyzer_env self = Some e ->
        e !! "CC_ANALYZER_BIN" = Some v ->
        In "" (Str.split ";" v) ->
        outcome (__parse_CC_ANALYZER_BIN w self) = inr (SystemExit 1)
        /\ In (Log LvlError msg) (events (__parse_CC_ANALYZER_BIN w self))).
Proof.
  intros Hempty.
  split; [by left|]. split.
  - intros v. destruct (split_trailing_sep v) as (p & ps & ->).
    right. apply in_or_app. right. by left.
  - intros self e v He Hv Hin.
    rewrite (parse_override_run w self e v He Hv).
    cbn [events outcome fst snd].
    assert (Hbad : forallb (entry_ok w) (Str.split ";" v) = false).
    { destruct (forallb (entry_ok w) (Str.split ";" v)) eqn:Hall; [|done].
      rewrite forallb_forall in Hall. specialize (Hall "" Hin).
      unfold entry_ok, entry_errors in Hall. by rewrite Hempty in Hall. }
    rewrite Hbad. split; [done|].
    apply in_or_app. right. apply in_or_app. left.
    rewrite errors_from_first_failure. apply in_flat_map.
    exists "". split; [done|]. unfold entry_errors. rewrite Hempty. by left.
Qed.

Lemma empty_entry_is_fatal_witness :
  outcome (__parse_CC_ANALYZER_BIN
             (Sample.world (Some "clang:/usr/bin/clang;") false 20 None)
             (Sample.with_analyzer_env (Some "clang:/usr/bin/clang;")
                Sample.fresh))
  = inr (SystemExit 1).
Proof.
  refine (proj1 (proj2 (proj2 (empty_entry_is_fatal
                                 (Sample.world (Some "clang:/usr/bin/clang;")
                                    false 20 None)
                                 "Analyzer binary in wrong format: " _))
                   (Sample.with_analyzer_env (Some "clang:/usr/bin/clang;")
                      Sample.fresh)
                   (Sample.os_environ (Some "clang:/usr/bin/clang;"))
                   "clang:/usr/bin/clang;" _ _ _)).
  - reflexivity.
  - reflexivity.
  - vm_compute. reflexivity.
  - vm_compute. right. left. reflexivity.
Defined.

(** ** No error is logged on the way to a context *)

Lemma quiet_silent {A} (m : M A) : events m = [] -> quiet m.
Proof. intros H a _. by rewrite H. Qed.

Lemma quiet_ret {A} (a : A) : quiet (ret a).
Proof. by apply quiet_silent. Qed.

Lemma quiet_raise {A} (e : exn) : quiet (@raise A e).
Proof. by apply quiet_silent. Qed.

Lemma quiet_bind {A B} (m : M A) (f : A -> M B) :
  quiet m -> (forall a, quiet (f a)) -> quiet (bind m f).
Proof.
  intros Hm Hf b H. destruct (bind_inl_inv _ _ _ H) as (a & Ha & Hb).
  rewrite (events_bind_inl _ _ _ Ha), List.filter_app.
  by rewrite (Hm a Ha), (Hf a b Hb).
Qed.

Lemma quiet_for_each {S X} (body : S -> X -> M S) (xs : list X) :
  (forall s x, quiet (body s x)) -> forall s, quiet (for_each body xs s).
Proof.
  intros Hbody. induction xs as [|x rest IH]; intros s.
  - apply quiet_ret.
  - cbn [for_each]. apply quiet_bind; [apply Hbody | apply IH].
Qed.

(** Steps through a computation built from binds, branches and lookups. *)
Ltac quiet_step :=
  first
    [ apply quiet_ret
    | apply quiet_raise
    | apply quiet_bind; [|intros]
    | apply quiet_for_each; intros
    | apply quiet_silent; reflexivity
    | match goal with
      | |- quiet (if ?b then _ else _) => destruct b
      | |- quiet (match ?x with _ => _ end) => destruct x
      | |- quiet (let '(_, _) := ?x in _) => destruct x
      end ].

Lemma quiet_getitem (d : json) (k : string) : quiet (getitem d k).
Proof. unfold getitem. repeat quiet_step. Qed.

Lemma quiet_dict_get (d : json) (k : string) (v : json) :
  quiet (dict_get d k v).
Proof. unfold dict_get. repeat quiet_step. Qed.

Lemma quiet_as_str (v : json) : quiet (as_str v).
Proof. unfold as_str. repeat quiet_step. Qed.

Lemma quiet_extra_paths (w : World) (self : Context) :
  quiet (path_env_extra w self) /\ quiet (ld_lib_path_extra w self).
Proof.
  unfold path_env_extra, ld_lib_path_extra, join_each, iterate.
  split; repeat first [apply quiet_dict_get | apply quiet_as_str | quiet_step].
Qed.

Lemma quiet_analyzer_env (w : World) (self : Context) :
  quiet (analyzer_env w self).
Proof.
  unfold analyzer_env. destruct (quiet_extra_paths w self) as [Hp Hl].
  repeat first [apply Hp | apply Hl | quiet_step].
Qed.

Lemma quiet_parse_override (w : World) (self : Context) :
  quiet (__parse_CC_ANALYZER_BIN w self).
Proof.
  intros bins H. destruct (__analyzer_env self) as [e|] eqn:He.
  - pose proof (parse_override_returns w self e bins He H) as Hret.
    destruct (e !! "CC_ANALYZER_BIN") as [v|].
    + destruct Hret as (_ & _ & ->). apply filter_errors_announcements.
    + by destruct Hret as (_ & ->).
  - by rewrite (parse_override_without_env _ _ He) in H.
Qed.

Lemma quiet_populate_analyzer (w : World) (afp : bool)
    (aenv : option (gmap string string)) (bins : gmap string string)
    (self : Context) (item : string * json) :
  quiet (populate_analyzer w afp aenv bins self item).
Proof.
  unfold populate_analyzer, env_path_of, getitem_analyzers.
  repeat first [apply quiet_as_str | quiet_step].
Qed.

Lemma quiet_init (w : World) : quiet (__init__ w).
Proof.
  unfold __init__. apply quiet_bind; [|intros pre; apply quiet_bind; intros].
  - unfold init_until_version, __get_package_config, __get_package_layout,
      __init_env, __set_version, version_string, environ_get.
    repeat first [apply quiet_getitem | apply quiet_dict_get
                  | apply quiet_as_str | quiet_step].
  - unfold __populate_analyzers, dict_items.
    repeat first [apply quiet_analyzer_env | apply quiet_parse_override
                  | apply quiet_dict_get | apply quiet_populate_analyzer
                  | quiet_step].
  - unfold __populate_replacer.
    repeat first [apply quiet_dict_get | apply quiet_as_str | quiet_step].
Qed.

(** The only error lines of the module are those of a failing
    [CC_ANALYZER_BIN] entry and of a value error in [get_context], and both
    are followed by an exit: when [get_context] returns a context, nothing
    was logged at error level. *)
Theorem no_error_logged_when_context_returned (w : World) (ctx : Context) :
  outcome (get_context w) = inl ctx ->
  List.filter is_error_event (events (get_context w)) = [].
Proof.
  intros H. pose proof H as Hinit. apply get_context_returns in Hinit.
  assert (Hsame : get_context w = __init__ w).
  { unfold get_context, try_except.
    destruct (__init__ w) as [l [c|e]]; [done | discriminate]. }
  rewrite Hsame. by apply (quiet_init w ctx).
Qed.

Lemma no_error_logged_when_context_returned_witness :
  List.filter is_error_event (events (get_context Sample.plain)) = [].
Proof.
  apply (no_error_logged_when_context_returned Sample.plain
           (Sample.built Sample.plain)).
  vm_compute. reflexivity.
Defined.

(** ** The shape of a returned context *)

Lemma extra_paths_ext (w : World) (a b : Context) :
  pckg_layout a = pckg_layout b ->
  _data_files_dir_path a = _data_files_dir_path b ->
  path_env_extra w a = path_env_extra w b
  /\ ld_lib_path_extra w a = ld_lib_path_extra w b.
Proof.
  intros Hl Hd. unfold path_env_extra, ld_lib_path_extra, join_each.
  by rewrite Hl, Hd.
Qed.

Lemma silent_bind {A B} (m : M A) (f : A -> M B) :
  events m = [] -> (forall a, events (f a) = []) -> events (bind m f) = [].
Proof.
  destruct m as [l [a|e]]; simpl; intros ->; [|done].
  intros Hf. specialize (Hf a). by destruct (f a) as [l' r]; simpl in *; subst.
Qed.

Lemma silent_for_each {S X} (body : S -> X -> M S) (xs : list X) :
  (forall s x, events (body s x) = []) ->
  forall s, events (for_each body xs s) = [].
Proof.
  intros Hbody. induction xs as [|x rest IH]; intros s; [done|].
  cbn [for_each]. apply silent_bind; [apply Hbody | apply IH].
Qed.

(** The two accessors log nothing. *)
Lemma extra_paths_silent (w : World) (self : Context) :
  events (path_env_extra w self) = []
  /\ events (ld_lib_path_extra w self) = [].
Proof.
  assert (Hjoin : forall xs, events (join_each self xs) = []).
  { intros xs. unfold join_each. apply silent_for_each. intros s x.
    apply silent_bind; [by destruct x | done]. }
  unfold path_env_extra, ld_lib_path_extra.
  destruct (is_analyzer_from_path w); [done|].
  split; (apply silent_bind; [by destruct (pckg_layout self)|]; intros v;
          apply silent_bind; [by destruct v | apply Hjoin]).
Qed.

Lemma init_until_version_fields (w : World) (pre : Context) :
  outcome (init_until_version w) = inl pre ->
  (exists ver, __package_version pre = Some ver)
  /\ _data_files_dir_path pre = environ_get_default w "CC_DATA_FILES_DIR".
Proof.
  intros H. unfold init_until_version in H.
  peel H cfg Hcfg. peel H ev Hev. peel H lcfg Hlcfg. peel H lay Hlay.
  peel H u Hu. peel H self1 H1.
  apply init_env_inv in H1 as (_ & _ & _ & Hd1).
  apply set_version_inv in H
    as (? & ? & ? & ? & ? & ? & ? & ? & ver & _ & _ & _ & _ & _ & _ & _ & _
        & Hver & _ & _ & _ & _ & _ & Hd2).
  cbn [_data_files_dir_path] in Hd1. split; [by exists ver | congruence].
Qed.

(** A context that [get_context] returns was built outside PATH-discovery
    mode, under the data-files root of [CC_DATA_FILES_DIR]; it has a
    version string; its cached extended environment is [env.extend] of its
    own two extra-path lists; and its layout is a dict whose analyzers are
    a dict and whose replacer entry is a string. *)
Theorem returned_context_is_complete (w : World) (ctx : Context) :
  outcome (get_context w) = inl ctx ->
  is_analyzer_from_path w = false
  /\ data_files_dir_path ctx = environ_get_default w "CC_DATA_FILES_DIR"
  /\ (exists ver, version ctx = Some ver)
  /\ (exists p l,
        path_env_extra w ctx = ret p
        /\ ld_lib_path_extra w ctx = ret l
        /\ __analyzer_env ctx = Some (env_extend w p l))
  /\ (exists L items value,
        pckg_layout ctx = JObj L
        /\ assoc "analyzers" L = Some (JObj items)
        /\ assoc "clang-apply-replacements" L = Some (JStr value)).
Proof.
  intros H.
  destruct (construction_steps _ _ H)
    as (pre & e & bins & L & items & self1 & Hpre & Henv & _ & Hmode & Hae
        & _ & HL & Hitems & Hloop & Hrep).
  destruct (init_until_version_fields _ _ Hpre) as [[ver Hver] Hdata].
  pose proof (resolve_all_keeps pckg_layout _ _ _ _ _
                (fun _ _ => eq_refl) _ _ Hloop) as Hlay1.
  pose proof (resolve_all_keeps __analyzer_env _ _ _ _ _
                (fun _ _ => eq_refl) _ _ Hloop) as Henv1.
  pose proof (resolve_all_keeps _data_files_dir_path _ _ _ _ _
                (fun _ _ => eq_refl) _ _ Hloop) as Hdata1.
  pose proof (resolve_all_keeps __package_version _ _ _ _ _
                (fun _ _ => eq_refl) _ _ Hloop) as Hver1.
  cbn [set_analyzer_env pckg_layout __analyzer_env _data_files_dir_path
         __package_version] in Hlay1, Henv1, Hdata1, Hver1.
  assert (Hentry : exists value,
             assoc "clang-apply-replacements" L = Some (JStr value)).
  { pose proof Hrep as Hr. unfold __populate_replacer in Hr.
    peel Hr rb Hrb. peel Hr val Hval.
    rewrite Hlay1, HL in Hrb. cbn [dict_get] in Hrb.
    simpl in Hrb. injection Hrb as <-.
    destruct (assoc "clang-apply-replacements" L) as [[| | |s| |]|];
      try discriminate.
    by exists s. }
  apply populate_replacer_inv in Hrep as [r ->].
  cbn [set_replacer pckg_layout __analyzer_env _data_files_dir_path
         data_files_dir_path version __package_version].
  split; [done|]. split; [congruence|].
  split; [exists ver; congruence|]. split.
  - unfold analyzer_env in Hae. rewrite Henv in Hae.
    peel Hae p Hp. peel Hae l Hl. simpl in Hae.
    assert (e = env_extend w p l) as -> by (by inversion Hae).
    destruct (extra_paths_ext w (set_replacer r self1) pre) as [Hpe Hle];
      [cbn [set_replacer pckg_layout]; congruence
      | cbn [set_replacer _data_files_dir_path]; congruence |].
    exists p, l. rewrite Hpe, Hle.
    destruct (extra_paths_silent w pre) as [Hsp Hsl].
    split; [|split; [|done]].
    + by rewrite (M_eta (path_env_extra w pre)), Hp, Hsp.
    + by rewrite (M_eta (ld_lib_path_extra w pre)), Hl, Hsl.
  - destruct Hentry as [value Hvalue]. exists L, items, value.
    split; [congruence | done].
Qed.

Lemma returned_context_is_complete_witness :
  is_analyzer_from_path Sample.plain = false
  /\ data_files_dir_path (Sample.built Sample.plain) = "/opt/cc".
Proof.
  destruct (returned_context_is_complete Sample.plain
              (Sample.built Sample.plain)
              ltac:(vm_compute; reflexivity)) as (Hmode & Hdata & _).
  split; [exact Hmode|]. rewrite Hdata. reflexivity.
Defined.

(** ** A role missing from the general configuration *)

(** [__init_env] raises a key error for the first of the five roles that
    [environment_variables] lacks, when the roles before it name variables
    (are strings); a first role that is not a string raises a type error
    instead.  When the two configuration files load and the labels loader
    builds, a configuration without the role [cc_logger_bin] makes
    [get_context] print the stack trace of that key error and exit with
    status 1; the version file is not read. *)
Theorem missing_role_is_fatal (w : World) (roles : list (string * json)) :
  (forall self,
      env_vars self = JObj roles ->
      (assoc "cc_logger_bin" roles = None ->
       __init_env w self = raise (KeyError "cc_logger_bin"))
      /\ (forall n1,
            assoc "cc_logger_bin" roles = Some (JStr n1) ->
            assoc "cc_logger_file" roles = None ->
            __init_env w self = raise (KeyError "cc_logger_file"))
      /\ (forall n1 n2,
            assoc "cc_logger_bin" roles = Some (JStr n1) ->
            assoc "cc_logger_file" roles = Some (JStr n2) ->
            assoc "cc_logger_compiles" roles = None ->
            __init_env w self = raise (KeyError "cc_logger_compiles"))
      /\ (forall n1 n2 n3,
            assoc "cc_logger_bin" roles = Some (JStr n1) ->
            assoc "cc_logger_file" roles = Some (JStr n2) ->
            assoc "cc_logger_compiles" roles = Some (JStr n3) ->
            assoc "ld_preload" roles = None ->
            __init_env w self = raise (KeyError "ld_preload"))
      /\ (forall n1 n2 n3 n4,
            assoc "cc_logger_bin" roles = Some (JStr n1) ->
            assoc "cc_logger_file" roles = Some (JStr n2) ->
            assoc "cc_logger_compiles" roles = Some (JStr n3) ->
            assoc "ld_preload" roles = Some (JStr n4) ->
            assoc "env_ld_lib_path" roles = None ->
            __init_env w self = raise (KeyError "env_ld_lib_path"))
      /\ (forall v,
            assoc "cc_logger_bin" roles = Some v ->
            (forall n, v <> JStr n) ->
            __init_env w self = raise TypeError))
  /\ (forall (citems litems : list (string * json)) (runtime : json),
        load_json w
          (posixpath.join (environ_get_default w "CC_DATA_FILES_DIR")
             ["config"; "config.json"]) = JObj citems ->
        assoc "environment_variables" citems = Some (JObj roles) ->
        load_json w
          (posixpath.join (environ_get_default w "CC_DATA_FILES_DIR")
             ["config"; "package_layout.json"]) = JObj litems ->
        assoc "runtime" litems = Some runtime ->
        CheckerLabels w
          match environ w !! "CC_TEST_LABELS_DIR" with
          | Some d => d
          | None =>
              posixpath.join (environ_get_default w "CC_DATA_FILES_DIR")
                ["config"; "labels"]
          end = None ->
        assoc "cc_logger_bin" roles = None ->
        get_context w
        = ([Log LvlDebug
              ("Reading config: "
               ++ posixpath.join (environ_get_default w "CC_DATA_FILES_DIR")
                    ["config"; "config.json"]);
            LogValue LvlDebug (JObj citems);
            Log LvlDebug
              ("Reading config: "
               ++ posixpath.join (environ_get_default w "CC_DATA_FILES_DIR")
                    ["config"; "package_layout.json"]);
            PrintExc (KeyError "cc_logger_bin")],
           inr (SystemExit 1))).
Proof.
  split; [intros self; apply init_env_missing|].
  intros citems litems runtime Hc Hev Hl Hrt Hlab Hrole.
  set (data := environ_get_default w "CC_DATA_FILES_DIR") in *.
  set (config := posixpath.join data ["config"; "config.json"]) in *.
  set (layout := posixpath.join data ["config"; "package_layout.json"]) in *.
  assert (Hpre : init_until_version w
                 = ([Log LvlDebug ("Reading config: " ++ config);
                     LogValue LvlDebug (JObj citems);
                     Log LvlDebug ("Reading config: " ++ layout)],
                    inr (KeyError "cc_logger_bin"))).
  { unfold init_until_version. rewrite get_package_config_loaded.
    2:{ cbn [_data_files_dir_path]. fold data. fold config. rewrite Hc.
        simpl. destruct citems; [discriminate|done]. }
    cbn [_data_files_dir_path]. fold data. fold config. rewrite Hc.
    unfold bind at 1. rewrite (getitem_obj _ _ _ Hev), bind_ret_l.
    rewrite get_package_layout_loaded.
    2:{ cbn [_data_files_dir_path]. fold data. fold layout. rewrite Hl.
        simpl. destruct litems; [discriminate|done]. }
    cbn [_data_files_dir_path]. fold data. fold layout. rewrite Hl.
    unfold bind at 1. rewrite (getitem_obj _ _ _ Hrt), bind_ret_l.
    rewrite Hlab, bind_ret_l.
    match goal with
    | |- context [__init_env w ?s] =>
        rewrite (proj1 (init_env_missing w s roles eq_refl) Hrole)
    end.
    reflexivity. }
  apply (get_context_key_error w
           [Log LvlDebug ("Reading config: " ++ config);
            LogValue LvlDebug (JObj citems);
            Log LvlDebug ("Reading config: " ++ layout)]).
  unfold __init__. by rewrite Hpre.
Qed.

Lemma missing_role_is_fatal_witness :
  get_context (Sample.with_files sample_no_roles Sample.plain)
  = ([Log LvlDebug "Reading config: /opt/cc/config/config.json";
      LogValue LvlDebug (JObj [("environment_variables", JObj [])]);
      Log LvlDebug "Reading config: /opt/cc/config/package_layout.json";
      PrintExc (KeyError "cc_logger_bin")],
     inr (SystemExit 1)).
Proof.
  refine (proj2 (missing_role_is_fatal
                   (Sample.with_files sample_no_roles Sample.plain) [])
            _ _ _ _ _ _ _ _ _);
    vm_compute; reflexivity.
Defined.
